(** * Streaming sales aggregation: a model of [src/sales_processor.py]

    The development embeds the [SalesProcessor] class: the column-name
    normalisation, the per-chunk group-by/sum steps, the five running
    dictionaries and the final report.  Python strings are [string]s whose
    characters are read as the code points U+0000..U+00FF; Python
    dictionaries are association lists kept in insertion order; exceptions are
    values of [exn] carried by an explicit state-and-exception monad; the
    numbers of a column are the values of a [Numeric] domain, instantiated
    with integers (int64 columns, Python integers in the dictionaries) and
    with binary64 floats; [pd.to_datetime] is a [DatetimeParser], which
    reads a column as a whole. *)

From Stdlib Require Import List String Ascii Bool Arith ZArith QArith Lia.
From Stdlib Require Import Permutation PrimFloat Uint63 SpecFloat FloatOps FloatAxioms.
Import ListNotations.

Open Scope string_scope.
Open Scope list_scope.

(* ------------------------------------------------------------------ *)
(** ** Python [str] operations used on column names *)

Module PyStr.

Local Open Scope nat_scope.

(** [str.isspace] on one code point below U+0100: TAB..CR, FS..US, SPACE,
    NEL and NBSP. *)
Definition isspace (c : ascii) : bool :=
  let n := nat_of_ascii c in
  ((9 <=? n) && (n <=? 13)) || ((28 <=? n) && (n <=? 32))
  || (n =? 133) || (n =? 160).

(** [str.lower] on one code point below U+0100: A..Z and the Latin-1
    capitals U+00C0..U+00DE (the multiplication sign U+00D7 apart). *)
Definition lower_char (c : ascii) : ascii :=
  let n := nat_of_ascii c in
  if ((65 <=? n) && (n <=? 90))
     || ((192 <=? n) && (n <=? 222) && negb (n =? 215))
  then ascii_of_nat (n + 32) else c.

Fixpoint smap (f : ascii -> ascii) (s : string) : string :=
  match s with
  | EmptyString => EmptyString
  | String c s' => String (f c) (smap f s')
  end.

Fixpoint lstrip (s : string) : string :=
  match s with
  | EmptyString => EmptyString
  | String c s' => if isspace c then lstrip s' else s
  end.

Fixpoint rstrip (s : string) : string :=
  match s with
  | EmptyString => EmptyString
  | String c s' =>
      match rstrip s' with
      | EmptyString => if isspace c then EmptyString else String c EmptyString
      | r => String c r
      end
  end.

(** [s.strip()] *)
Definition strip (s : string) : string := rstrip (lstrip s).

Definition replace_char (a b c : ascii) : ascii := if Ascii.eqb c a then b else c.

(** [s.replace(a, b)] for one-character [a] and [b]. *)
Definition replace (a b : ascii) (s : string) : string := smap (replace_char a b) s.

(** [s.lower()] *)
Definition lower (s : string) : string := smap lower_char s.

Definition space : ascii := " "%char.
Definition underscore : ascii := "_"%char.
Definition tab : ascii := ascii_of_nat 9.

End PyStr.

(** [chunk.columns.str.strip().str.replace(' ', '_').str.lower()], on one
    column name (line 68). *)
Definition normalize_column (name : string) : string :=
  PyStr.lower (PyStr.replace PyStr.space PyStr.underscore (PyStr.strip name)).

(** The normaliser as the specification words it: strip, then every
    remaining white-space character becomes an underscore, then lower-case. *)
Definition normalize_column_spec (name : string) : string :=
  PyStr.lower
    (PyStr.smap (fun c => if PyStr.isspace c then PyStr.underscore else c)
       (PyStr.strip name)).

(** Every white-space character of [s] is the plain space U+0020. *)
Fixpoint only_plain_spaces (s : string) : bool :=
  match s with
  | EmptyString => true
  | String c s' =>
      (negb (PyStr.isspace c) || Ascii.eqb c PyStr.space) && only_plain_spaces s'
  end.

(* ------------------------------------------------------------------ *)
(** ** Exceptions and outcomes *)

Inductive exn : Type :=
| KeyError (key : string)          (* a column label that the frame lacks *)
| ValueError (msg : string)
| FileNotFoundError (path : string)
| ZeroDivisionError
| AttributeError (msg : string)    (* [.dt] on a column that holds no time stamps *)
| Unsupported (what : string).     (* input outside the modelled fragment *)

Inductive outcome (A : Type) : Type :=
| Ok (a : A)
| Raise (e : exn).

Arguments Ok {A} a.
Arguments Raise {A} e.

Definition obind {A B : Type} (m : outcome A) (k : A -> outcome B) : outcome B :=
  match m with
  | Ok a => k a
  | Raise e => Raise e
  end.

Fixpoint omap {A B : Type} (f : A -> outcome B) (l : list A) : outcome (list B) :=
  match l with
  | [] => Ok []
  | x :: l' => obind (f x) (fun y => obind (omap f l') (fun ys => Ok (y :: ys)))
  end.

Definition empty_max : string := "max() arg is an empty sequence".
Definition bad_chunksize : string := "'chunksize' must be an integer >=1".
Definition not_datetimelike : string := "Can only use .dt accessor with datetimelike values".

(* ------------------------------------------------------------------ *)
(** ** Numeric domains and dictionary keys *)

(** The arithmetic the aggregation performs on the cells of a numeric
    column.  Two sums are at work.  Inside a batch, [groupby(...).sum()] adds
    the numbers of a group in the dtype of the column: [ngroup_sum].  Across
    batches, the loops of lines 41-44 and 102-107 add the group sums, which
    [.items()] hands over as Python numbers, to the Python numbers of the
    dictionaries: [nzero] and [nadd].  The other operations are the NaN test
    of pandas' [sum], the [>] behind [max] and the true division
    [v / count] of the monthly average.  [nfits v] says that [v] is a number
    that a column of the dtype holds. *)
Class Numeric (V A : Type) : Type := {
  nzero : V;
  nadd : V -> V -> V;
  nisna : V -> bool;
  nfits : V -> bool;
  ngroup_sum : list V -> V;
  ngt : V -> V -> bool;
  ntruediv : V -> Z -> outcome A
}.

(** The integer that an int64 holds after an addition has wrapped around. *)
Definition int64 (z : Z) : Z := ((z + 2 ^ 63) mod 2 ^ 64 - 2 ^ 63)%Z.

(** Integer columns without missing values: int64 columns, which hold the
    integers from -2^63 to 2^63 - 1 and whose group sums wrap around at
    2^63, added up in the dictionaries as Python integers, which have no
    bound.  The averages are kept as the exact quotients, in lowest terms;
    Python rounds them to binary64. *)
#[export] Instance exact_numeric : Numeric Z Q := {
  nzero := 0%Z;
  nadd := Z.add;
  nisna := fun _ => false;
  nfits := fun z => ((- 2 ^ 63 <=? z) && (z <? 2 ^ 63))%Z;
  ngroup_sum := fun l => int64 (fold_left Z.add l 0%Z);
  ngt := Z.gtb;
  ntruediv := fun s c =>
    if (c =? 0)%Z then Raise ZeroDivisionError
    else Ok (Qred (Qdiv (inject_Z s) (inject_Z c)))
}.

Definition float_of_count (c : Z) : outcome float :=
  if ((0 <=? c) && (c <? 2 ^ 63))%Z then Ok (PrimFloat.of_uint63 (Uint63.of_Z c))
  else Raise (Unsupported "count").

(** Float columns: the dictionaries hold Python floats, IEEE binary64 with
    round-to-nearest-even, and a Python float divided by a zero count raises
    [ZeroDivisionError].  The sum of a group is taken here from left to
    right in binary64.  pandas adds a group with a compensated sum, after
    line 76 has narrowed the column to binary32 when no value moves by more
    than 5e-4: the two agree when the group has one number that binary32
    holds, or that is too far from a binary32 number for the column to be
    narrowed, and when the numbers are integers whose sums binary32 holds.
    The float instance is used on such batches only. *)
#[export] Instance float_numeric : Numeric float float := {
  nzero := PrimFloat.zero;
  nadd := PrimFloat.add;
  nisna := PrimFloat.is_nan;
  nfits := fun _ => true;
  ngroup_sum := fun l => fold_left PrimFloat.add l PrimFloat.zero;
  ngt := fun a b => PrimFloat.ltb b a;
  ntruediv := fun s c =>
    if (c =? 0)%Z then Raise ZeroDivisionError
    else obind (float_of_count c) (fun d => Ok (PrimFloat.div s d))
}.

(** Arithmetic whose addition is exact: a commutative monoid. *)
Record ExactSum {V A : Type} (num : Numeric V A) : Prop := {
  nadd_assoc : forall a b c : V, nadd a (nadd b c) = nadd (nadd a b) c;
  nadd_comm : forall a b : V, nadd a b = nadd b a;
  nadd_zero_l : forall a : V, nadd nzero a = a
}.

Arguments nadd_assoc {V A num} _ _ _ _.
Arguments nadd_comm {V A num} _ _ _.
Arguments nadd_zero_l {V A num} _ _.

(** A comparison that ranks the values that satisfy [ok]: a strict weak
    order on them. *)
Record RankedOn {V A : Type} (num : Numeric V A) (ok : V -> Prop) : Prop := {
  ngt_asym : forall a b : V, ok a -> ok b -> ngt a b = true -> ngt b a = false;
  ngt_cotrans : forall a b c : V,
      ok a -> ok b -> ok c -> ngt a b = true -> ngt a c = true \/ ngt c b = true
}.

Arguments ngt_asym {V A num ok} _ _ _ _ _ _.
Arguments ngt_cotrans {V A num ok} _ _ _ _ _ _ _ _.

(** Group labels: equality, and the order in which [groupby] lists its
    groups. *)
Class KeyType (K : Type) : Type := {
  keqb : K -> K -> bool;
  kleb : K -> K -> bool;
  keqb_eq : forall a b : K, keqb a b = true <-> a = b
}.

(** A [Period] of monthly frequency: year and month. *)
Definition period : Type := (Z * Z)%type.

Definition period_eqb (p q : period) : bool :=
  ((fst p =? fst q) && (snd p =? snd q))%Z.

Definition period_leb (p q : period) : bool :=
  ((fst p <? fst q) || ((fst p =? fst q) && (snd p <=? snd q)))%Z.

Definition pair_eqb (a b : string * period) : bool :=
  String.eqb (fst a) (fst b) && period_eqb (snd a) (snd b).

Definition pair_leb (a b : string * period) : bool :=
  String.ltb (fst a) (fst b) || (String.eqb (fst a) (fst b) && period_leb (snd a) (snd b)).

Lemma pair_eqb_eq (a b : string * period) : pair_eqb a b = true <-> a = b.
Proof.
  destruct a as [s [y m]], b as [s' [y' m']]; unfold pair_eqb, period_eqb; simpl.
  rewrite !andb_true_iff, String.eqb_eq, !Z.eqb_eq.
  split; [intros [-> [-> ->]]; reflexivity | intros H; inversion H; auto].
Qed.

#[export] Instance string_key : KeyType string := {
  keqb := String.eqb;
  kleb := String.leb;
  keqb_eq := String.eqb_eq
}.

#[export] Instance product_month_key : KeyType (string * period) := {
  keqb := pair_eqb;
  kleb := pair_leb;
  keqb_eq := pair_eqb_eq
}.

(* ------------------------------------------------------------------ *)
(** ** Python dictionaries, in insertion order *)

Definition dict (K X : Type) : Type := list (K * X).

Section Dict.
Context {K X : Type} {key : KeyType K}.

(** [d.get(k)] *)
Fixpoint dict_get (d : dict K X) (k : K) : option X :=
  match d with
  | [] => None
  | (k', x) :: d' => if keqb k k' then Some x else dict_get d' k
  end.

(** [k in d] *)
Definition dict_mem (d : dict K X) (k : K) : bool :=
  match dict_get d k with
  | Some _ => true
  | None => false
  end.

(** [d[k] = x]: an existing key keeps its place, a new key goes last. *)
Fixpoint dict_set (d : dict K X) (k : K) (x : X) : dict K X :=
  match d with
  | [] => [(k, x)]
  | (k', x') :: d' => if keqb k k' then (k', x) :: d' else (k', x') :: dict_set d' k x
  end.

(** Equality of dictionaries as Python's [==] sees it: the same keys with
    the same values, whatever the insertion order. *)
Definition dict_equiv (d1 d2 : dict K X) : Prop :=
  forall k : K, dict_get d1 k = dict_get d2 k.

End Dict.

(* ------------------------------------------------------------------ *)
(** ** Data frames and [groupby(...).sum()] *)

(** A cell as [read_csv] delivers it: a missing value, a text, a number. *)
Inductive cell (V : Type) : Type :=
| NA
| Text (s : string)
| Num (v : V).

Arguments NA {V}.
Arguments Text {V} s.
Arguments Num {V} v.

Record DataFrame (V : Type) : Type := mkFrame {
  columns : list string;
  rows : list (list (cell V))
}.

Arguments mkFrame {V} columns rows.
Arguments columns {V} d.
Arguments rows {V} d.

Fixpoint index_of (name : string) (cols : list string) : option nat :=
  match cols with
  | [] => None
  | c :: cols' =>
      if String.eqb name c then Some O
      else option_map S (index_of name cols')
  end.

Definition count_label (name : string) (cols : list string) : nat :=
  List.length (filter (String.eqb name) cols).

(** [chunk[name]]: the cells of the column labelled [name], one per row.  A
    row shorter than the header is padded with missing values, as the
    reader does.  A label carried by several columns selects a frame, not a
    column, which is outside the model. *)
Definition getitem {V : Type} (chunk : DataFrame V) (name : string)
  : outcome (list (cell V)) :=
  match index_of name (columns chunk) with
  | None => Raise (KeyError name)
  | Some i =>
      if (count_label name (columns chunk) =? 1)%nat
      then Ok (map (fun r => nth i r NA) (rows chunk))
      else Raise (Unsupported name)
  end.

(** The labels of a group-by column: texts, a missing value has no label. *)
Definition label_cell {V : Type} (col : string) (c : cell V) : outcome (option string) :=
  match c with
  | NA => Ok None
  | Text s => Ok (Some s)
  | Num _ => Raise (Unsupported col)
  end.

(** The numbers of a value column: a missing value is a NaN. *)
Definition value_cell {V : Type} (col : string) (c : cell V) : outcome (option V) :=
  match c with
  | NA => Ok None
  | Num v => Ok (Some v)
  | Text _ => Raise (Unsupported col)
  end.

Section GroupBy.
Context {K V A : Type} {key : KeyType K} {num : Numeric V A}.

(** The labels of a column, each once ([observed=True]: only the labels
    that occur). *)
Definition add_unique (seen : list K) (k : K) : list K :=
  if existsb (keqb k) seen then seen else k :: seen.

Definition unique_keys (l : list K) : list K := fold_left add_unique l [].

(** Insertion sort by the group order ([sort=True]). *)
Fixpoint insert_key (k : K) (l : list K) : list K :=
  match l with
  | [] => [k]
  | x :: l' => if kleb k x then k :: l else x :: insert_key k l'
  end.

(** The group labels of a column: each observed label once, sorted. *)
Definition sorted_keys (l : list K) : list K :=
  fold_right insert_key [] (unique_keys l).

(** The rows that take part in the grouping: those with a label
    ([dropna=True] discards a row whose label is missing). *)
Fixpoint group_rows (labels : list (option K)) (values : list (option V))
  : list (K * option V) :=
  match labels, values with
  | Some k :: ls, v :: vs => (k, v) :: group_rows ls vs
  | None :: ls, _ :: vs => group_rows ls vs
  | _, _ => []
  end.

(** The numbers of the group [k], in row order, NaN skipped. *)
Fixpoint group_values (k : K) (pairs : list (K * option V)) : list V :=
  match pairs with
  | [] => []
  | (k', Some v) :: ps =>
      if keqb k k' && negb (nisna v) then v :: group_values k ps
      else group_values k ps
  | (_, None) :: ps => group_values k ps
  end.

(** The sum of a list of numbers as the dictionaries add them: from zero,
    with [+]. *)
Definition nsum (l : list V) : V := fold_left nadd l nzero.

(** One item per group, in group order: the label and the sum of the group
    as the batch computes it. *)
Definition sum_groups (pairs : list (K * option V)) : list (K * V) :=
  map (fun k => (k, ngroup_sum (group_values k pairs))) (sorted_keys (map fst pairs)).

(** [groupby(labels, observed=True)[values].sum().items()] *)
Definition groupby_sum (labels : list (option K)) (values : list (option V))
  : list (K * V) :=
  sum_groups (group_rows labels values).

End GroupBy.

(* ------------------------------------------------------------------ *)
(** ** Dates *)

Record date : Type := mkDate { year : Z; month : Z; day : Z }.

(** [pd.to_datetime(column, errors='coerce')] reads the texts of a column
    of one batch together.  It infers one format from the first text and
    reads every text with it, or reads each text by itself when the first
    one has no format; so what a text gives depends on the column it stands
    in.  [parse_datetime texts s] is the time stamp that the text [s] gives
    in the column [texts], or nothing (NaT) when it does not parse there.
    When the texts carry different UTC offsets the result is a column of
    objects, not of time stamps: [datetime_like texts] is false.  A column
    without rows always comes back as time stamps. *)
Class DatetimeParser : Type := {
  datetime_like : list (option string) -> bool;
  parse_datetime : list (option string) -> string -> option date;
  datetime_like_nil : datetime_like [] = true
}.

(** What [pd.to_datetime] returns for a column of texts. *)
Inductive datetimes : Type :=
| Datetime64 (stamps : list (option date))
| ObjectColumn.

(** The time stamp of one cell of the column [texts]; a missing text is
    NaT. *)
Definition parse_in {dp : DatetimeParser} (texts : list (option string)) (t : option string)
  : option date :=
  match t with
  | Some s => parse_datetime texts s
  | None => None
  end.

Definition to_datetime_column {dp : DatetimeParser} (texts : list (option string))
  : datetimes :=
  if datetime_like texts then Datetime64 (map (parse_in texts) texts) else ObjectColumn.

(** [.dt.to_period('M')] on one value; NaT stays NaT. *)
Definition to_period (d : option date) : option period :=
  option_map (fun t => (year t, month t)) d.

(** [column.dt.to_period('M')]: the accessor exists on time stamps only. *)
Definition dt_to_period (column : datetimes) : outcome (list (option period)) :=
  match column with
  | Datetime64 stamps => Ok (map to_period stamps)
  | ObjectColumn => Raise (AttributeError not_datetimelike)
  end.

(** The label of a row in the grouping by several columns: missing as soon
    as one of them is. *)
Definition zip_labels {K1 K2 : Type} (a : list (option K1)) (b : list (option K2))
  : list (option (K1 * K2)) :=
  map (fun p => match p with
                | (Some x, Some y) => Some (x, y)
                | _ => None
                end) (combine a b).

(** A parser for calendar dates written YYYY-MM-DD; any other text is
    unparseable. *)
Definition digit (c : ascii) : option Z :=
  let n := nat_of_ascii c in
  if ((48 <=? n) && (n <=? 57))%nat then Some (Z.of_nat (n - 48)) else None.

Definition number (ds : list ascii) : option Z :=
  fold_left (fun acc c => match acc, digit c with
                          | Some n, Some d => Some (10 * n + d)%Z
                          | _, _ => None
                          end) ds (Some 0%Z).

Definition leap_year (y : Z) : bool :=
  ((y mod 4 =? 0) && (negb (y mod 100 =? 0) || (y mod 400 =? 0)))%Z.

Definition days_in_month (y m : Z) : Z :=
  if (m =? 2)%Z then (if leap_year y then 29 else 28)%Z
  else if ((m =? 4) || (m =? 6) || (m =? 9) || (m =? 11))%Z then 30%Z
  else 31%Z.

Definition iso_date (s : string) : option date :=
  match list_ascii_of_string s with
  | [y1; y2; y3; y4; s1; m1; m2; s2; d1; d2] =>
      if (Ascii.eqb s1 "-" && Ascii.eqb s2 "-")%bool then
        match number [y1; y2; y3; y4], number [m1; m2], number [d1; d2] with
        | Some y, Some m, Some d =>
            if ((1678 <=? y) && (y <=? 2261) && (1 <=? m) && (m <=? 12)
                && (1 <=? d) && (d <=? days_in_month y m))%Z
            then Some (mkDate y m d) else None
        | _, _, _ => None
        end
      else None
  | _ => None
  end.

(** On columns whose texts are dates written YYYY-MM-DD or are no dates at
    all, the format is that one or there is none, and a text gives the same
    in every column. *)
Definition iso_parser : DatetimeParser :=
  {| datetime_like := fun _ => true;
     parse_datetime := fun _ s => iso_date s;
     datetime_like_nil := eq_refl |}.









(* ------------------------------------------------------------------ *)
(** ** The processor, its surroundings and the monad of its methods *)

(** The four key-to-sum dictionaries, as the [sales_dict] argument of
    [_update_sales_totals] designates them. *)
Inductive dimension : Type :=
| ProductSales
| SalesChannelSales
| CountrySales
| RegionSales.

Record SalesProcessor (V : Type) : Type := mkProcessor {
  file_path : string;
  chunksize : Z;
  sample_fraction : Q;
  product_sales : dict string V;
  sales_channel_sales : dict string V;
  country_sales : dict string V;
  region_sales : dict string V;
  monthly_sales : dict (string * period) (V * Z)
}.

Arguments mkProcessor {V}.
Arguments file_path {V} s.
Arguments chunksize {V} s.
Arguments sample_fraction {V} s.
Arguments product_sales {V} s.
Arguments sales_channel_sales {V} s.
Arguments country_sales {V} s.
Arguments region_sales {V} s.
Arguments monthly_sales {V} s.

(** What the methods print: the resource report of a chunk, the elapsed
    time, a line of the summary. *)
Inductive line (V A : Type) : Type :=
| ResourceUsage (step : nat)
| TotalTime
| Top (dim : dimension) (key : string) (value : V)
| MonthlyAverage (avg : dict (string * period) A).

Arguments ResourceUsage {V A} step.
Arguments TotalTime {V A}.
Arguments Top {V A} dim key value.
Arguments MonthlyAverage {V A} avg.

(** The processor object, the files it can open (each already split into
    header and rows) and the standard output. *)
Record World (V A : Type) : Type := mkWorld {
  self : SalesProcessor V;
  disk : string -> option (DataFrame V);
  stdout : list (line V A)
}.

Arguments mkWorld {V A}.
Arguments self {V A} w.
Arguments disk {V A} w.
Arguments stdout {V A} w.

Definition M (V A X : Type) : Type := World V A -> outcome X * World V A.

Definition mret {V A X : Type} (x : X) : M V A X := fun w => (Ok x, w).

Definition mbind {V A X Y : Type} (m : M V A X) (k : X -> M V A Y) : M V A Y :=
  fun w => match m w with
           | (Ok x, w') => k x w'
           | (Raise e, w') => (Raise e, w')
           end.

(** A computation that reads no state: its exception, if any, is raised. *)
Definition lift {V A X : Type} (o : outcome X) : M V A X := fun w => (o, w).

Definition update_self {V A : Type} (f : SalesProcessor V -> SalesProcessor V)
  : M V A unit :=
  fun w => (Ok tt, mkWorld (f (self w)) (disk w) (stdout w)).

Definition print {V A : Type} (l : line V A) : M V A unit :=
  fun w => (Ok tt, mkWorld (self w) (disk w) (stdout w ++ [l])).

Notation "x <- m ;; k" := (mbind m (fun x => k))
  (at level 61, m at next level, right associativity).
Notation "m ;;; k" := (mbind m (fun _ => k))
  (at level 61, right associativity).

Definition get_dim {V : Type} (d : dimension) (s : SalesProcessor V) : dict string V :=
  match d with
  | ProductSales => product_sales s
  | SalesChannelSales => sales_channel_sales s
  | CountrySales => country_sales s
  | RegionSales => region_sales s
  end.

Definition set_dim {V : Type} (d : dimension) (x : dict string V) (s : SalesProcessor V)
  : SalesProcessor V :=
  match d with
  | ProductSales =>
      mkProcessor (file_path s) (chunksize s) (sample_fraction s)
        x (sales_channel_sales s) (country_sales s) (region_sales s) (monthly_sales s)
  | SalesChannelSales =>
      mkProcessor (file_path s) (chunksize s) (sample_fraction s)
        (product_sales s) x (country_sales s) (region_sales s) (monthly_sales s)
  | CountrySales =>
      mkProcessor (file_path s) (chunksize s) (sample_fraction s)
        (product_sales s) (sales_channel_sales s) x (region_sales s) (monthly_sales s)
  | RegionSales =>
      mkProcessor (file_path s) (chunksize s) (sample_fraction s)
        (product_sales s) (sales_channel_sales s) (country_sales s) x (monthly_sales s)
  end.

Definition set_monthly {V : Type} (x : dict (string * period) (V * Z)) (s : SalesProcessor V)
  : SalesProcessor V :=
  mkProcessor (file_path s) (chunksize s) (sample_fraction s)
    (product_sales s) (sales_channel_sales s) (country_sales s) (region_sales s) x.

(** [SalesProcessor(file_path, chunksize, sample_fraction)] *)
Definition __init__ {V : Type} (path : string) (size : Z) (fraction : Q) : SalesProcessor V :=
  mkProcessor path size fraction [] [] [] [] [].

Definition default_chunksize : Z := 10 ^ 6.
Definition default_sample_fraction : Q := 1 # 10.

(* ------------------------------------------------------------------ *)
(** ** The methods of [SalesProcessor] *)

Section Methods.
Context {V A : Type} {num : Numeric V A} {dp : DatetimeParser}.

(** [chunk.groupby(group_by_column, observed=True).agg({value_column: 'sum'})]
    followed by [group[value_column].items()] (lines 38 and 41). *)
Definition grouped_totals (chunk : DataFrame V) (group_by_column value_column : string)
  : outcome (list (string * V)) :=
  obind (getitem chunk group_by_column) (fun g =>
  obind (omap (label_cell group_by_column) g) (fun labels =>
  obind (getitem chunk value_column) (fun v =>
  obind (omap (value_cell value_column) v) (fun values =>
  Ok (groupby_sum labels values))))).

(** One turn of the loop of lines 41-44. *)
Definition add_total (sales_dict : dict string V) (item : string * V) : dict string V :=
  let (key, value) := item in
  let d := if dict_mem sales_dict key then sales_dict else dict_set sales_dict key nzero in
  match dict_get d key with
  | Some old => dict_set d key (nadd old value)
  | None => d
  end.

Definition _update_sales_totals (chunk : DataFrame V) (group_by_column : string)
    (sales_dict : dimension) (value_column : string) : M V A unit :=
  group <- lift (grouped_totals chunk group_by_column value_column) ;;
  update_self (fun s => set_dim sales_dict (fold_left add_total group (get_dim sales_dict s)) s).

Definition _print_resource_usage (step : nat) : M V A unit :=
  print (ResourceUsage step).

(** [pd.to_datetime(chunk[col], errors='coerce')] *)
Definition to_datetime (chunk : DataFrame V) (col : string) : outcome datetimes :=
  obind (getitem chunk col) (fun c =>
  obind (omap (label_cell col) c) (fun texts =>
  Ok (to_datetime_column texts))).

(** [chunk.groupby(['item_type', 'month'], observed=True)['total_revenue'].sum()]
    with the [month] column just computed (line 100). *)
Definition monthly_totals (chunk : DataFrame V) (months : list (option period))
  : outcome (list ((string * period) * V)) :=
  obind (getitem chunk "item_type") (fun g =>
  obind (omap (label_cell "item_type") g) (fun products =>
  obind (getitem chunk "total_revenue") (fun v =>
  obind (omap (value_cell "total_revenue") v) (fun values =>
  Ok (groupby_sum (zip_labels products months) values))))).

(** One turn of the loop of lines 102-107. *)
Definition add_monthly (monthly : dict (string * period) (V * Z))
    (item : (string * period) * V) : dict (string * period) (V * Z) :=
  let (key, total) := item in
  let d := if dict_mem monthly key then monthly else dict_set monthly key (nzero, 0%Z) in
  match dict_get d key with
  | Some (s, c) => dict_set d key (nadd s total, (c + 1)%Z)
  | None => d
  end.

Definition set_columns (chunk : DataFrame V) (cols : list string) : DataFrame V :=
  mkFrame cols (rows chunk).

(** Lines 70-71 and 82-84 change how the columns are stored (narrower
    integers, categories for texts), not the values that the grouping
    reads: they are left out.  Lines 74-76 can round a float column to
    binary32; they are part of what [ngroup_sum] stands for.  Line 99 asks
    the order dates for their months: it raises when they are no time
    stamps, after the four dimension dictionaries have been updated. *)
Definition _process_chunk (chunk : DataFrame V) (chunk_number : nat) : M V A unit :=
  let chunk := set_columns chunk (map normalize_column (columns chunk)) in
  order_date <- lift (to_datetime chunk "order_date") ;;
  _ship_date <- lift (to_datetime chunk "ship_date") ;;
  _update_sales_totals chunk "item_type" ProductSales "units_sold" ;;;
  _update_sales_totals chunk "sales_channel" SalesChannelSales "units_sold" ;;;
  _update_sales_totals chunk "country" CountrySales "total_revenue" ;;;
  _update_sales_totals chunk "region" RegionSales "total_revenue" ;;;
  months <- lift (dt_to_period order_date) ;;
  monthly_group <- lift (monthly_totals chunk months) ;;
  update_self (fun s => set_monthly (fold_left add_monthly monthly_group (monthly_sales s)) s) ;;;
  _print_resource_usage chunk_number.

(** Consecutive runs of at most [size] rows. *)
Fixpoint chunk_rows {X : Type} (fuel size : nat) (l : list X) : list (list X) :=
  match fuel with
  | O => []
  | S fuel' =>
      match l with
      | [] => []
      | _ => firstn size l :: chunk_rows fuel' size (skipn size l)
      end
  end.

(** [pd.read_csv(path, chunksize=size)]: the batches of the file, in row
    order; a file with a header and no row gives one empty batch. *)
Definition read_csv (files : string -> option (DataFrame V)) (path : string) (size : Z)
  : outcome (list (DataFrame V)) :=
  if (size <? 1)%Z then Raise (ValueError bad_chunksize)
  else match files path with
       | None => Raise (FileNotFoundError path)
       | Some df =>
           match rows df with
           | [] => Ok [mkFrame (columns df) []]
           | rs => Ok (map (mkFrame (columns df))
                         (chunk_rows (List.length rs) (Z.to_nat size) rs))
           end
       end.

(** The loop of lines 121-123, entered with [chunk_number] chunks done. *)
Fixpoint scan (chunks : list (DataFrame V)) (chunk_number : nat) : M V A unit :=
  match chunks with
  | [] => mret tt
  | chunk :: rest =>
      let chunk_number := S chunk_number in
      _process_chunk chunk chunk_number ;;; scan rest chunk_number
  end.

Definition process_sales_data : M V A unit :=
  fun w =>
    (chunks <- lift (read_csv (disk w) (file_path (self w)) (chunksize (self w))) ;;
     scan chunks 0 ;;;
     print TotalTime) w.

(** [max(d, key=d.get)]: the first key, in insertion order, whose value no
    later value exceeds. *)
Definition keep_max (best : string * V) (item : string * V) : string * V :=
  if ngt (snd item) (snd best) then item else best.

Definition py_max (d : dict string V) : outcome string :=
  match d with
  | [] => Raise (ValueError empty_max)
  | first :: others => Ok (fst (fold_left keep_max others first))
  end.

(** One of the four report lines of lines 130-140. *)
Definition print_top (dim : dimension) : M V A unit :=
  fun w =>
    (top <- lift (py_max (get_dim dim (self w))) ;;
     match dict_get (get_dim dim (self w)) top with
     | Some v => print (Top dim top v)
     | None => lift (Raise (KeyError top))
     end) w.

(** [{k: v[0] / v[1] for k, v in self.monthly_sales.items()}] *)
Definition monthly_avg_sales (monthly : dict (string * period) (V * Z))
  : outcome (dict (string * period) A) :=
  omap (fun kv => obind (ntruediv (fst (snd kv)) (snd (snd kv)))
                    (fun avg => Ok (fst kv, avg))) monthly.

Definition print_summary : M V A unit :=
  print_top ProductSales ;;;
  print_top SalesChannelSales ;;;
  print_top CountrySales ;;;
  print_top RegionSales ;;;
  fun w =>
    (avg <- lift (monthly_avg_sales (monthly_sales (self w))) ;;
     print (MonthlyAverage avg)) w.

(** [main.py]: the processor with its default parameters, the scan, the
    summary. *)
Definition main (files : string -> option (DataFrame V)) : outcome unit * World V A :=
  let processor := __init__ "data/vendas.csv" default_chunksize default_sample_fraction in
  (process_sales_data ;;; print_summary) (mkWorld processor files []).

End Methods.

(* ------------------------------------------------------------------ *)
(** ** Vocabulary of the statements *)

(** The columns that [_process_chunk] reads by name, in the order of their
    first use (lines 79, 80, 87, 90, 93, 96). *)
Definition required_columns : list string :=
  ["order_date"; "ship_date"; "item_type"; "units_sold"; "sales_channel";
   "country"; "total_revenue"; "region"].

Definition absent (name : string) (cols : list string) : bool :=
  match index_of name cols with
  | None => true
  | Some _ => false
  end.

(** The first column, in order of use, that a header lacks. *)
Definition first_missing (cols : list string) : option string :=
  find (fun c => absent c cols) required_columns.

Definition text_cell {V : Type} (c : cell V) : bool :=
  match c with
  | Num _ => false
  | _ => true
  end.

Definition number_cell {V : Type} (c : cell V) : bool :=
  match c with
  | Text _ => false
  | _ => true
  end.

(** A column that, when the frame has it, is a single column of cells of
    one kind. *)
Definition column_ok {V : Type} (kind : cell V -> bool) (chunk : DataFrame V)
    (name : string) : bool :=
  match getitem chunk name with
  | Ok cells => forallb kind cells
  | Raise (KeyError _) => true
  | Raise _ => false
  end.

(** A sales batch: the text columns hold texts, the numeric columns hold
    numbers, and no column used by the aggregation comes twice. *)
Definition well_typed {V : Type} (chunk : DataFrame V) : bool :=
  let chunk := mkFrame (map normalize_column (columns chunk)) (rows chunk) in
  forallb (column_ok text_cell chunk)
    ["order_date"; "ship_date"; "item_type"; "sales_channel"; "country"; "region"]
  && forallb (column_ok number_cell chunk) ["units_sold"; "total_revenue"].


(** The header of a sales file and a row under it. *)
Definition sales_header : list string :=
  ["Region"; "Country"; "Item Type"; "Sales Channel"; "Order Date"; "Ship Date";
   "Units Sold"; "Total Revenue"].

Definition sales_row {V : Type} (item channel country region : string) (units revenue : V)
    (order ship : string) : list (cell V) :=
  [Text region; Text country; Text item; Text channel; Text order; Text ship;
   Num units; Num revenue].

(** A disk holding one file. *)
Definition one_file {V : Type} (path : string) (df : DataFrame V)
  : string -> option (DataFrame V) :=
  fun p => if String.eqb p path then Some df else None.

(** What one batch contributes: the items of its five group-by sums, in
    the order in which [_process_chunk] computes them. *)
Record groups (V : Type) : Type := mkGroups {
  by_product : list (string * V);
  by_channel : list (string * V);
  by_country : list (string * V);
  by_region : list (string * V);
  by_month : list ((string * period) * V)
}.

Arguments mkGroups {V}.
Arguments by_product {V} g.
Arguments by_channel {V} g.
Arguments by_country {V} g.
Arguments by_region {V} g.
Arguments by_month {V} g.

Definition dim_group {V : Type} (d : dimension) (g : groups V) : list (string * V) :=
  match d with
  | ProductSales => by_product g
  | SalesChannelSales => by_channel g
  | CountrySales => by_country g
  | RegionSales => by_region g
  end.

(** The group-by column and the value column of each dimension. *)
Definition dim_columns (d : dimension) : string * string :=
  match d with
  | ProductSales => ("item_type", "units_sold")
  | SalesChannelSales => ("sales_channel", "units_sold")
  | CountrySales => ("country", "total_revenue")
  | RegionSales => ("region", "total_revenue")
  end.

Section Views.
Context {V A : Type} {num : Numeric V A} {dp : DatetimeParser}.

(** The reads of [_process_chunk], without the writes between them. *)
Definition chunk_groups (chunk : DataFrame V) : outcome (groups V) :=
  let chunk := set_columns chunk (map normalize_column (columns chunk)) in
  obind (to_datetime chunk "order_date") (fun order_date =>
  obind (to_datetime chunk "ship_date") (fun _ =>
  obind (grouped_totals chunk "item_type" "units_sold") (fun g1 =>
  obind (grouped_totals chunk "sales_channel" "units_sold") (fun g2 =>
  obind (grouped_totals chunk "country" "total_revenue") (fun g3 =>
  obind (grouped_totals chunk "region" "total_revenue") (fun g4 =>
  obind (dt_to_period order_date) (fun months =>
  obind (monthly_totals chunk months) (fun gm =>
  Ok (mkGroups g1 g2 g3 g4 gm))))))))).

(** The writes of [_process_chunk] for a batch whose reads all succeed. *)
Definition merge_groups (s : SalesProcessor V) (g : groups V) : SalesProcessor V :=
  mkProcessor (file_path s) (chunksize s) (sample_fraction s)
    (fold_left add_total (by_product g) (product_sales s))
    (fold_left add_total (by_channel g) (sales_channel_sales s))
    (fold_left add_total (by_country g) (country_sales s))
    (fold_left add_total (by_region g) (region_sales s))
    (fold_left add_monthly (by_month g) (monthly_sales s)).

(** The running value of a key: what the dictionary holds, or the zero that
    an absent key starts from. *)
Definition running (d : dict string V) (k : string) : V :=
  match dict_get d k with
  | Some x => x
  | None => nzero
  end.

Definition running_month (d : dict (string * period) (V * Z)) (k : string * period) : V * Z :=
  match dict_get d k with
  | Some x => x
  | None => (nzero, 0%Z)
  end.

End Views.

(** The label and the number that a row holds in two given columns. *)
Definition label_of {V : Type} (c : cell V) : option string :=
  match c with
  | Text s => Some s
  | _ => None
  end.

Definition value_of {V : Type} (c : cell V) : option V :=
  match c with
  | Num v => Some v
  | _ => None
  end.

Definition row_pair {V : Type} (i j : nat) (r : list (cell V)) : list (string * option V) :=
  match label_of (nth i r NA) with
  | Some k => [(k, value_of (nth j r NA))]
  | None => []
  end.

(** The texts of the column at position [i], one per row. *)
Definition texts_at {V : Type} (i : nat) (rs : list (list (cell V))) : list (option string) :=
  map (fun r => label_of (nth i r NA)) rs.

(** The texts of the column [col] of a batch, as [pd.to_datetime] receives
    them. *)
Definition column_texts {V : Type} (chunk : DataFrame V) (col : string)
  : list (option string) :=
  match index_of col (columns chunk) with
  | Some i => texts_at i (rows chunk)
  | None => []
  end.

(** The order dates of a batch. *)
Definition order_texts {V : Type} (chunk : DataFrame V) : list (option string) :=
  column_texts (mkFrame (map normalize_column (columns chunk)) (rows chunk)) "order_date".

(** All the rows of a list of batches, in order. *)
Definition all_rows {V : Type} (chunks : list (DataFrame V)) : list (list (cell V)) :=
  flat_map rows chunks.

(** Two sales of the product P in January 2021, of revenue [a] and [b]. *)
Definition two_sales {V : Type} (units a b : V) : DataFrame V :=
  mkFrame sales_header
    [sales_row "P" "Online" "Brazil" "South America" units a "2021-01-05" "2021-01-09";
     sales_row "P" "Online" "Brazil" "South America" units b "2021-01-20" "2021-01-27"].

(** The processor after the scan of the one file of a disk, read [size]
    rows at a time. *)
Definition scanned {V A : Type} {num : Numeric V A} {dp : DatetimeParser}
    (df : DataFrame V) (size : Z) : SalesProcessor V :=
  self (snd (process_sales_data
               (mkWorld (__init__ "sales.csv" size default_sample_fraction)
                  (one_file "sales.csv" df) ([] : list (line V A))))).

(** The three sales of the end-to-end scenario. *)
Definition scenario {V : Type} (u10 u5 u20 r100 r50 r500 : V) : DataFrame V :=
  mkFrame sales_header
    [sales_row "Electronics" "Online" "Brazil" "South America" u10 r100
       "2021-01-05" "2021-01-12";
     sales_row "Electronics" "Online" "Brazil" "South America" u5 r50
       "2021-01-20" "2021-01-27";
     sales_row "Furniture" "Retail" "USA" "North America" u20 r500
       "2021-02-10" "2021-02-17"].

(** The same processor with another sampling fraction. *)
Definition with_fraction {V : Type} (f : Q) (s : SalesProcessor V) : SalesProcessor V :=
  mkProcessor (file_path s) (chunksize s) f (product_sales s) (sales_channel_sales s)
    (country_sales s) (region_sales s) (monthly_sales s).

Definition world_with_fraction {V A : Type} (f : Q) (w : World V A) : World V A :=
  mkWorld (with_fraction f (self w)) (disk w) (stdout w).

(** A processor whose product dictionary has two keys of greatest value. *)
Definition tie_world : World Z Q :=
  mkWorld (mkProcessor "sales.csv" 2%Z (1 # 10)
             [("Clothes", 5%Z); ("Fruits", 7%Z); ("Toys", 7%Z)] [] [] [] [])
    (fun _ => None) [].

(** The date that [to_datetime] reads in a cell of the column [texts]. *)
Definition date_of {V : Type} {dp : DatetimeParser} (texts : list (option string))
    (c : cell V) : option date :=
  parse_in texts (label_of c).



(** The (product, month) label and the revenue that a row brings to the
    monthly grouping, its order date being read in the column [texts];
    nothing when the product or the month is missing. *)
Definition month_pair {V : Type} {dp : DatetimeParser} (texts : list (option string))
    (ip im iv : nat) (r : list (cell V)) : list ((string * period) * option V) :=
  match label_of (nth ip r NA), to_period (date_of texts (nth im r NA)) with
  | Some p, Some m => [((p, m), value_of (nth iv r NA))]
  | _, _ => []
  end.


(** The (label, number) pairs that the rows [rs], under the header [cols],
    bring to the dimension [d]. *)
Definition dim_pairs {V : Type} (cols : list string) (d : dimension)
    (rs : list (list (cell V))) : list (string * option V) :=
  match index_of (fst (dim_columns d)) cols, index_of (snd (dim_columns d)) cols with
  | Some i, Some j => flat_map (row_pair i j) rs
  | _, _ => []
  end.

(** The dictionary [d] is [d0] with the sums of the pairs [P] added in. *)
Definition sums_of {V A : Type} {num : Numeric V A} (d0 : dict string V)
    (P : list (string * option V)) (d : dict string V) : Prop :=
  forall k : string,
    dict_get d k
    = if existsb (keqb k) (map fst P)
      then Some (nadd (running d0 k) (nsum (group_values k P)))
      else dict_get d0 k.

(** A sale of binary64 revenue in Brazil, as a batch of its own. *)
Definition brazil_batch (revenue : float) : DataFrame float :=
  mkFrame sales_header
    [sales_row "Electronics" "Online" "Brazil" "South America" 1%float revenue
       "2021-01-05" "2021-01-12"].

(** Three batches of one sale each, in two orders. *)
Definition large_first : list (DataFrame float) :=
  [brazil_batch 1e16; brazil_batch 1; brazil_batch 1].

Definition large_last : list (DataFrame float) :=
  [brazil_batch 1; brazil_batch 1; brazil_batch 1e16].

Definition new_world {V A : Type} : World V A :=
  mkWorld (__init__ "sales.csv" default_chunksize default_sample_fraction) (fun _ => None) [].

(** The scenario in one batch, and in two batches taken in another order. *)
Definition scenario_whole : list (DataFrame Z) := [scenario 10 5 20 100 50 500]%Z.

Definition scenario_split : list (DataFrame Z) :=
  [mkFrame sales_header
     [sales_row "Furniture" "Retail" "USA" "North America" 20 500
        "2021-02-10" "2021-02-17"]%Z;
   mkFrame sales_header
     [sales_row "Electronics" "Online" "Brazil" "South America" 10 100
        "2021-01-05" "2021-01-12";
      sales_row "Electronics" "Online" "Brazil" "South America" 5 50
        "2021-01-20" "2021-01-27"]%Z].


Definition header_only : DataFrame Z := mkFrame sales_header [].

Definition world_of (df : DataFrame Z) : World Z Q :=
  mkWorld (__init__ "sales.csv" 10%Z default_sample_fraction) (one_file "sales.csv" df) [].

(** What [normalize_column] does to one character after the strip. *)
Definition fold_char (c : ascii) : ascii :=
  PyStr.lower_char (PyStr.replace_char PyStr.space PyStr.underscore c).

(** A text that does not start with white space. *)
Definition clean_head (s : string) : bool :=
  match s with
  | EmptyString => true
  | String c _ => negb (PyStr.isspace c)
  end.

(** The entry at position [i] of [d] is the first of the greatest. *)
Definition first_greatest {V A : Type} {num : Numeric V A} (d : dict string V) (i : nat)
    (b : string * V) : Prop :=
  nth_error d i = Some b
  /\ (forall j e, (j < i)%nat -> nth_error d j = Some e -> ngt (snd b) (snd e) = true)
  /\ (forall e, In e d -> ngt (snd e) (snd b) = false).

(** A batch with its column names normalised, as [_process_chunk] hands it
    to [_update_sales_totals]. *)
Definition normalized {V : Type} (chunk : DataFrame V) : DataFrame V :=
  mkFrame (map normalize_column (columns chunk)) (rows chunk).

(** The keys of [g] that the dictionary [d] does not hold yet. *)
Definition new_keys {K X Y : Type} {key : KeyType K} (d : dict K X) (g : list (K * Y))
  : list K :=
  filter (fun k => negb (dict_mem d k)) (map fst g).

(** The ((product, month), revenue) pairs that the rows [rs] of one batch,
    under the header [cols], bring to the monthly grouping: the order dates
    are read in the column that these rows make. *)
Definition month_pairs {V : Type} {dp : DatetimeParser} (cols : list string)
    (rs : list (list (cell V))) : list ((string * period) * option V) :=
  match index_of "item_type" cols, index_of "order_date" cols,
        index_of "total_revenue" cols with
  | Some ip, Some im, Some iv => flat_map (month_pair (texts_at im rs) ip im iv) rs
  | _, _, _ => []
  end.

(** The groups of the pairs [P] are added without loss inside the batch:
    the batch computes for each of them what the addition of the
    dictionaries gives.  On an int64 column this says that no group sum
    leaves the int64 range. *)
Definition exact_groups {K V A : Type} {key : KeyType K} {num : Numeric V A}
    (P : list (K * option V)) : Prop :=
  forall k : K, In k (map fst P) -> ngroup_sum (group_values k P) = nsum (group_values k P).

(** A batch whose two value columns hold a number of their dtype in every
    row. *)
Definition present_number {V A : Type} {num : Numeric V A} (c : cell V) : bool :=
  match c with
  | Num v => nfits v
  | _ => false
  end.

Definition values_present {V A : Type} {num : Numeric V A} (chunk : DataFrame V) : bool :=
  forallb (column_ok present_number (normalized chunk)) ["units_sold"; "total_revenue"].

(** A sum that the int64 range holds. *)
Definition in_int64 (z : Z) : Prop := (- 2 ^ 63 <= z < 2 ^ 63)%Z.

(** The number of the batches, given by their pairs, in which [k] occurs. *)
Definition batches_with {K Y : Type} {key : KeyType K} (k : K) (Ps : list (list (K * Y))) : Z :=
  Z.of_nat (List.length (filter (fun P => existsb (keqb k) (map fst P)) Ps)).

(** The monthly dictionary [m] is [m0] with the batches [Ps] added in: for
    a key that occurs, the sum of its revenues and the number of batches
    that hold it. *)
Definition month_sums_of {V A : Type} {num : Numeric V A}
    (m0 : dict (string * period) (V * Z)) (Ps : list (list ((string * period) * option V)))
    (m : dict (string * period) (V * Z)) : Prop :=
  forall k : string * period,
    dict_get m k
    = if existsb (keqb k) (map fst (List.concat Ps))
      then Some (nadd (fst (running_month m0 k)) (nsum (group_values k (List.concat Ps))),
                 (snd (running_month m0 k) + batches_with k Ps)%Z)
      else dict_get m0 k.


(** The number of batches that [read_csv] cuts from a file of [n] rows read
    [size] rows at a time: the rows over the size, rounded up, and one batch
    for a file without rows. *)
Definition batches_of (n : nat) (size : Z) : nat :=
  Nat.max 1 (Nat.div (n + Z.to_nat size - 1) (Z.to_nat size)).

(** The place of a binary64 number that is not a NaN in the order of [<]:
    the negative infinity, the negative numbers, the zeros, the positive
    numbers, the positive infinity. *)
Definition float_rank (f : spec_float) : Z * Z * Z :=
  match f with
  | S754_infinity true => (-2, 0, 0)
  | S754_finite true m e => (-1, - e, - Z.pos m)
  | S754_zero _ => (0, 0, 0)
  | S754_finite false m e => (1, e, Z.pos m)
  | S754_infinity false => (2, 0, 0)
  | S754_nan => (0, 0, 0)
  end%Z.

Definition rank_lt (a b : Z * Z * Z) : Prop :=
  (fst (fst a) < fst (fst b)
   \/ (fst (fst a) = fst (fst b)
       /\ (snd (fst a) < snd (fst b)
           \/ (snd (fst a) = snd (fst b) /\ snd a < snd b))))%Z.

(** A sale of binary64 revenue in a country, as a batch of its own. *)
Definition country_batch (country region : string) (revenue : float) : DataFrame float :=
  mkFrame sales_header
    [sales_row "Electronics" "Online" country region 1%float revenue
       "2021-01-05" "2021-01-12"].

(** Four batches: Brazil receives an infinite revenue and then gives it
    back, the USA and Chile sell for 7 each. *)
Definition nan_batches : list (DataFrame float) :=
  [country_batch "Brazil" "South America" infinity;
   country_batch "Brazil" "South America" neg_infinity;
   country_batch "USA" "North America" 7;
   country_batch "Chile" "South America" 7].

(** A processor whose country dictionary has two keys of greatest value,
    in binary64. *)
Definition float_tie_world : World float float :=
  mkWorld (mkProcessor "sales.csv" 2%Z (1 # 10) [] []
             [("Brazil", 5%float); ("USA", 7%float); ("Chile", 7%float)] [] [])
    (fun _ => None) [].



(** The monthly pairs of each batch of a list, the order dates of a batch
    being read in that batch. *)
Definition batch_month_pairs {V : Type} {dp : DatetimeParser} (cols : list string)
    (chunks : list (DataFrame V)) : list (list ((string * period) * option V)) :=
  map (fun c => month_pairs cols (rows c)) chunks.


(* ------------------------------------------------------------------ *)
(** * Column-name normalisation *)

Module NormalizeFacts.
Import PyStr.

Ltac all_chars c := destruct c as [[] [] [] [] [] [] [] []]; reflexivity.

Lemma fold_char_idem (c : ascii) : fold_char (fold_char c) = fold_char c.
Proof. all_chars c. Qed.

Lemma fold_char_keeps_nonspace (c : ascii) :
  isspace c = false -> isspace (fold_char c) = false.
Proof. destruct c as [[] [] [] [] [] [] [] []]; intro H; solve [reflexivity | discriminate H]. Qed.

Lemma smap_smap (f g : ascii -> ascii) (s : string) :
  smap f (smap g s) = smap (fun c => f (g c)) s.
Proof. induction s as [|c s IH]; simpl; [reflexivity | now rewrite IH]. Qed.

Lemma smap_ext (f g : ascii -> ascii) (s : string) :
  (forall c, f c = g c) -> smap f s = smap g s.
Proof. intro H; induction s as [|c s IH]; simpl; [reflexivity | now rewrite H, IH]. Qed.

Lemma normalize_column_smap (s : string) :
  normalize_column s = smap fold_char (strip s).
Proof. unfold normalize_column, lower, replace. rewrite smap_smap. reflexivity. Qed.

Lemma clean_head_lstrip (s : string) : clean_head (lstrip s) = true.
Proof.
  induction s as [|c s IH]; simpl; [reflexivity|].
  destruct (isspace c) eqn:E; [exact IH | simpl; now rewrite E].
Qed.

Lemma lstrip_clean_head (s : string) : clean_head s = true -> lstrip s = s.
Proof.
  destruct s as [|c s]; simpl; [reflexivity|].
  destruct (isspace c); [discriminate | reflexivity].
Qed.

Lemma clean_head_rstrip (s : string) : clean_head s = true -> clean_head (rstrip s) = true.
Proof.
  destruct s as [|c s]; simpl; [reflexivity|].
  intro H. destruct (rstrip s); [|exact H].
  destruct (isspace c) eqn:E; [discriminate H | simpl; now rewrite E].
Qed.

Lemma rstrip_idem (s : string) : rstrip (rstrip s) = rstrip s.
Proof.
  induction s as [|c s IH]; simpl; [reflexivity|].
  destruct (rstrip s) as [|c' r] eqn:E.
  - destruct (isspace c) eqn:Ec; simpl; [reflexivity | now rewrite Ec].
  - simpl in *. now rewrite IH.
Qed.

Lemma rstrip_smap (f : ascii -> ascii) (s : string) :
  (forall c, isspace c = false -> isspace (f c) = false) ->
  rstrip s = s -> rstrip (smap f s) = smap f s.
Proof.
  intro Hf. induction s as [|c s IH]; simpl; [reflexivity|].
  destruct (rstrip s) as [|c' r] eqn:E.
  - destruct (isspace c) eqn:Ec; [discriminate|].
    intro H; injection H as <-. simpl. now rewrite (Hf c Ec).
  - intro H; injection H as H. rewrite H in IH. rewrite (IH eq_refl).
    rewrite <- H. reflexivity.
Qed.

Lemma clean_head_smap (f : ascii -> ascii) (s : string) :
  (forall c, isspace c = false -> isspace (f c) = false) ->
  clean_head s = true -> clean_head (smap f s) = true.
Proof.
  intro Hf. destruct s as [|c s]; simpl; [reflexivity|].
  destruct (isspace c) eqn:E; [discriminate|]. now rewrite (Hf c E).
Qed.

Lemma strip_normalized (s : string) :
  strip (smap fold_char (strip s)) = smap fold_char (strip s).
Proof.
  unfold strip at 1.
  assert (Hh : clean_head (strip s) = true)
    by (apply clean_head_rstrip, clean_head_lstrip).
  assert (Ht : rstrip (strip s) = strip s) by apply rstrip_idem.
  rewrite lstrip_clean_head by (apply clean_head_smap; [apply fold_char_keeps_nonspace | exact Hh]).
  apply rstrip_smap; [apply fold_char_keeps_nonspace | exact Ht].
Qed.

Lemma normalize_column_idem (s : string) :
  normalize_column (normalize_column s) = normalize_column s.
Proof.
  rewrite !normalize_column_smap, strip_normalized, smap_smap.
  apply smap_ext, fold_char_idem.
Qed.

Lemma replace_plain_spaces (s : string) :
  only_plain_spaces s = true ->
  smap (replace_char space underscore) s
  = smap (fun c => if isspace c then underscore else c) s.
Proof.
  induction s as [|c s IH]; simpl; [reflexivity|].
  rewrite andb_true_iff, orb_true_iff. intros [Hc Hs]. rewrite (IH Hs). f_equal.
  unfold replace_char. destruct Hc as [Hc | Hc].
  - destruct (isspace c) eqn:E; [discriminate|].
    destruct (Ascii.eqb_spec c space) as [-> | _]; [discriminate E | reflexivity].
  - apply Ascii.eqb_eq in Hc. subst c. reflexivity.
Qed.

End NormalizeFacts.

(** C6, as the claim words it, fails: a tab between two letters is white
    space, the specification's wording turns it into an underscore, and
    [normalize_column] keeps it, since it replaces the space U+0020 only. *)
Lemma normalize_column_keeps_tab :
  normalize_column (String "a" (String PyStr.tab "b"))
  <> normalize_column_spec (String "a" (String PyStr.tab "b")).
Proof. vm_compute. discriminate. Qed.

(** C6, amended: [normalize_column] strips the white space at both ends,
    replaces each remaining space U+0020 with an underscore and lower-cases:
    it sends "Order Date" to "order_date", it leaves a normalised name
    unchanged, and it is the function of the specification on every name
    whose inner white space is made of spaces U+0020 only. *)
Theorem normalize_column_amended :
  normalize_column "Order Date" = "order_date"
  /\ (forall s : string, normalize_column (normalize_column s) = normalize_column s)
  /\ (forall s : string,
        only_plain_spaces (PyStr.strip s) = true ->
        normalize_column s = normalize_column_spec s).
Proof.
  split; [reflexivity|]. split; [exact NormalizeFacts.normalize_column_idem|].
  intros s H. unfold normalize_column, normalize_column_spec, PyStr.replace.
  now rewrite (NormalizeFacts.replace_plain_spaces _ H).
Qed.

Lemma normalize_column_amended_witness :
  only_plain_spaces (PyStr.strip "  Total Revenue ") = true
  /\ normalize_column "  Total Revenue " = normalize_column_spec "  Total Revenue ".
Proof.
  split; [reflexivity|].
  apply (proj2 (proj2 normalize_column_amended) "  Total Revenue "). reflexivity.
Defined.

(* ------------------------------------------------------------------ *)
(** * Dictionaries and grouping *)

Section DictFacts.
Context {K X : Type} {key : KeyType K}.

Lemma keqb_refl (k : K) : keqb k k = true.
Proof. now apply keqb_eq. Qed.

Lemma keqb_neq (a b : K) : a <> b -> keqb a b = false.
Proof.
  intro H. destruct (keqb a b) eqn:E; [|reflexivity].
  apply keqb_eq in E. contradiction.
Qed.

Lemma keqb_true (a b : K) : keqb a b = true -> a = b.
Proof. apply keqb_eq. Qed.

Lemma key_eq_dec (a b : K) : {a = b} + {a <> b}.
Proof.
  destruct (keqb a b) eqn:E; [left; now apply keqb_eq | right].
  intro H. apply keqb_eq in H. congruence.
Qed.

Lemma existsb_keqb (k : K) (l : list K) : existsb (keqb k) l = true <-> In k l.
Proof.
  rewrite existsb_exists. split.
  - intros [x [Hx E]]. apply keqb_eq in E. now subst.
  - intro H. exists k. split; [exact H | apply keqb_refl].
Qed.

Lemma dict_get_set_same (d : dict K X) (k : K) (x : X) :
  dict_get (dict_set d k x) k = Some x.
Proof.
  induction d as [|[k' x'] d IH]; simpl.
  - now rewrite keqb_refl.
  - destruct (keqb k k') eqn:E; simpl; rewrite E; [reflexivity | exact IH].
Qed.

Lemma dict_get_set_other (d : dict K X) (k k' : K) (x : X) :
  k' <> k -> dict_get (dict_set d k x) k' = dict_get d k'.
Proof.
  intro H. induction d as [|[k0 x0] d IH]; simpl.
  - now rewrite (keqb_neq _ _ H).
  - destruct (keqb k k0) eqn:E; simpl.
    + apply keqb_eq in E. subst k0. now rewrite (keqb_neq _ _ H).
    + now rewrite IH.
Qed.

Lemma dict_get_none (d : dict K X) (k : K) :
  dict_get d k = None <-> ~ In k (map fst d).
Proof.
  induction d as [|[k' x'] d IH]; simpl; [tauto|].
  destruct (keqb k k') eqn:E.
  - apply keqb_eq in E. subst. split; [discriminate | intro H; exfalso; apply H; now left].
  - rewrite IH. split; [intros H [H1 | H1]; [subst; rewrite keqb_refl in E; discriminate | tauto] | tauto].
Qed.

Lemma dict_get_in (d : dict K X) (k : K) (x : X) :
  dict_get d k = Some x -> In (k, x) d.
Proof.
  induction d as [|[k' x'] d IH]; simpl; [discriminate|].
  destruct (keqb k k') eqn:E.
  - apply keqb_eq in E. intro H. injection H as ->. subst. now left.
  - intro H. right. now apply IH.
Qed.

Lemma dict_get_tabulate (f : K -> X) (ks : list K) (k : K) :
  dict_get (map (fun k => (k, f k)) ks) k = if existsb (keqb k) ks then Some (f k) else None.
Proof.
  induction ks as [|k' ks IH]; simpl; [reflexivity|].
  destruct (keqb k k') eqn:E; simpl; [|exact IH].
  apply keqb_eq in E. now subst.
Qed.

Lemma dict_set_keys (d : dict K X) (k : K) (x : X) :
  map fst (dict_set d k x) = if existsb (keqb k) (map fst d) then map fst d else map fst d ++ [k].
Proof.
  induction d as [|[k' x'] d IH]; simpl; [reflexivity|].
  destruct (keqb k k') eqn:E; simpl; [reflexivity|].
  rewrite IH. now destruct (existsb (keqb k) (map fst d)).
Qed.

End DictFacts.

Section GroupFacts.
Context {K V A : Type} {key : KeyType K} {num : Numeric V A}.

Lemma unique_keys_acc (l acc : list K) :
  NoDup acc ->
  NoDup (fold_left add_unique l acc)
  /\ (forall k, In k (fold_left add_unique l acc) <-> In k acc \/ In k l).
Proof.
  revert acc. induction l as [|x l IH]; intros acc Hacc; simpl.
  - split; [exact Hacc | intro k; tauto].
  - assert (Hacc' : NoDup (add_unique acc x)).
    { unfold add_unique. destruct (existsb (keqb x) acc) eqn:E; [exact Hacc|].
      constructor; [|exact Hacc]. intro H. apply existsb_keqb in H. congruence. }
    destruct (IH _ Hacc') as [H1 H2]. split; [exact H1|].
    intro k. rewrite H2. unfold add_unique.
    destruct (existsb (keqb x) acc) eqn:E; simpl.
    + apply existsb_keqb in E. split; [tauto | intros [H | [H | H]]; subst; tauto].
    + split; [intros [[H | H] | H]; subst; tauto | intros [H | [H | H]]; subst; tauto].
Qed.

Lemma insert_key_perm (k : K) (l : list K) : Permutation (insert_key k l) (k :: l).
Proof.
  induction l as [|x l IH]; simpl; [reflexivity|].
  destruct (kleb k x); [reflexivity|].
  rewrite IH. apply perm_swap.
Qed.

Lemma sorted_keys_perm (l : list K) : Permutation (sorted_keys l) (unique_keys l).
Proof.
  unfold sorted_keys. induction (unique_keys l) as [|x u IH]; simpl; [reflexivity|].
  rewrite insert_key_perm. now constructor.
Qed.

Lemma sorted_keys_nodup (l : list K) : NoDup (sorted_keys l).
Proof.
  apply (Permutation_NoDup (Permutation_sym (sorted_keys_perm l))).
  apply (unique_keys_acc l [] (NoDup_nil K)).
Qed.

Lemma sorted_keys_in (l : list K) (k : K) : In k (sorted_keys l) <-> In k l.
Proof.
  split; intro H.
  - apply (Permutation_in _ (sorted_keys_perm l)) in H.
    apply (unique_keys_acc l [] (NoDup_nil K)) in H. simpl in H. tauto.
  - apply (Permutation_in _ (Permutation_sym (sorted_keys_perm l))).
    apply (unique_keys_acc l [] (NoDup_nil K)). now right.
Qed.

Lemma groupby_sum_keys (labels : list (option K)) (values : list (option V)) :
  map fst (groupby_sum labels values) = sorted_keys (map fst (group_rows labels values)).
Proof. unfold groupby_sum, sum_groups. rewrite map_map. simpl. apply map_id. Qed.

(** The total of a group is the sum of its rows, as the batch computes it;
    a label has a group when a row carries it. *)
Lemma groupby_sum_get (labels : list (option K)) (values : list (option V)) (k : K) :
  dict_get (groupby_sum labels values) k
  = if existsb (keqb k) (map fst (group_rows labels values))
    then Some (ngroup_sum (group_values k (group_rows labels values)))
    else None.
Proof.
  unfold groupby_sum, sum_groups. rewrite dict_get_tabulate.
  set (ps := group_rows labels values).
  destruct (existsb (keqb k) (map fst ps)) eqn:E.
  - apply (proj1 (existsb_keqb _ _)), (proj2 (sorted_keys_in _ k)) in E.
    apply (proj2 (existsb_keqb _ _)) in E. now rewrite E.
  - destruct (existsb (keqb k) (sorted_keys (map fst ps))) eqn:E'; [|reflexivity].
    apply (proj1 (existsb_keqb _ _)), (proj1 (sorted_keys_in _ k)) in E'.
    apply (proj2 (existsb_keqb _ _)) in E'.
    rewrite E in E'. discriminate E'.
Qed.

Lemma group_values_app (k : K) (p q : list (K * option V)) :
  group_values k (p ++ q) = group_values k p ++ group_values k q.
Proof.
  induction p as [|[k' [v|]] p IH]; simpl; [reflexivity| |exact IH].
  destruct (keqb k k' && negb (nisna v)); simpl; now rewrite IH.
Qed.

Lemma group_values_perm (k : K) (p q : list (K * option V)) :
  Permutation p q -> Permutation (group_values k p) (group_values k q).
Proof.
  induction 1 as [| [k' [v|]] p q _ IH | [k1 [v1|]] [k2 [v2|]] p | p q r _ IH1 _ IH2]; simpl;
    try reflexivity; try assumption.
  - destruct (keqb k k' && negb (nisna v)); [now constructor | assumption].
  - destruct (keqb k k2 && negb (nisna v2)), (keqb k k1 && negb (nisna v1));
      try reflexivity. apply perm_swap.
  - now transitivity (group_values k q).
Qed.

End GroupFacts.

(* ------------------------------------------------------------------ *)
(** * The methods, step by step *)

Section MethodFacts.
Context {V A : Type} {num : Numeric V A} {dp : DatetimeParser}.

Ltac split_reads :=
  repeat match goal with
         | |- context [match ?o with Ok _ => _ | Raise _ => _ end] =>
             destruct o; simpl; try discriminate
         end.

(** A batch whose reads succeed is merged into the five dictionaries, and
    its resource report is printed. *)
Lemma process_chunk_ok (chunk : DataFrame V) (n : nat) (w : World V A) (g : groups V) :
  chunk_groups chunk = Ok g ->
  _process_chunk chunk n w
  = (Ok tt, mkWorld (merge_groups (self w) g) (disk w) (stdout w ++ [ResourceUsage n])).
Proof.
  unfold chunk_groups, _process_chunk, _update_sales_totals, _print_resource_usage,
    mbind, lift, update_self, print, obind.
  cbv zeta. split_reads.
  intro H. injection H as <-. reflexivity.
Qed.

(** A batch with a failing read raises the exception of that read; nothing
    is printed and the monthly dictionary is untouched. *)
Lemma process_chunk_raise (chunk : DataFrame V) (n : nat) (w : World V A) (e : exn) :
  chunk_groups chunk = Raise e ->
  fst (_process_chunk chunk n w) = Raise e
  /\ stdout (snd (_process_chunk chunk n w)) = stdout w
  /\ disk (snd (_process_chunk chunk n w)) = disk w
  /\ monthly_sales (self (snd (_process_chunk chunk n w))) = monthly_sales (self w).
Proof.
  unfold chunk_groups, _process_chunk, _update_sales_totals, _print_resource_usage,
    mbind, lift, update_self, print, obind.
  cbv zeta. split_reads;
    intro H; injection H as <-; simpl; repeat split; try reflexivity;
    destruct w as [[] ? ?]; reflexivity.
Qed.

Lemma process_chunk_inv (chunk : DataFrame V) (n : nat) (w w' : World V A) :
  _process_chunk chunk n w = (Ok tt, w') ->
  exists g, chunk_groups chunk = Ok g
            /\ w' = mkWorld (merge_groups (self w) g) (disk w) (stdout w ++ [ResourceUsage n]).
Proof.
  intro H. destruct (chunk_groups chunk) as [g|e] eqn:E.
  - exists g. split; [reflexivity|]. rewrite (process_chunk_ok _ n w _ E) in H. congruence.
  - destruct (process_chunk_raise _ n w _ E) as [H1 _]. rewrite H in H1. discriminate.
Qed.

Lemma scan_cons (chunk : DataFrame V) (rest : list (DataFrame V)) (n : nat) (w : World V A) :
  scan (chunk :: rest) n w
  = match _process_chunk chunk (S n) w with
    | (Ok _, w1) => scan rest (S n) w1
    | (Raise e, w1) => (Raise e, w1)
    end.
Proof. reflexivity. Qed.

(** A scan whose batches all read well merges them one after the other. *)
Lemma scan_ok (chunks : list (DataFrame V)) (gs : list (groups V)) (n : nat) (w : World V A) :
  omap chunk_groups chunks = Ok gs ->
  scan chunks n w
  = (Ok tt, mkWorld (fold_left merge_groups gs (self w)) (disk w)
              (stdout w ++ map ResourceUsage (seq (S n) (List.length chunks)))).
Proof.
  revert gs n w. induction chunks as [|c cs IH]; intros gs n w; simpl omap.
  - intro H. injection H as <-. simpl. unfold mret. rewrite app_nil_r. now destruct w.
  - destruct (chunk_groups c) as [g|e] eqn:E; cbn [obind]; [|discriminate].
    destruct (omap chunk_groups cs) as [gs'|e] eqn:E'; cbn [obind]; [|discriminate].
    intro H. injection H as <-. rewrite scan_cons, (process_chunk_ok _ _ _ _ E).
    rewrite (IH _ _ _ eq_refl). simpl. now rewrite <- app_assoc.
Qed.

Lemma scan_inv (chunks : list (DataFrame V)) (n : nat) (w w' : World V A) :
  scan chunks n w = (Ok tt, w') ->
  exists gs, omap chunk_groups chunks = Ok gs
             /\ self w' = fold_left merge_groups gs (self w).
Proof.
  revert n w. induction chunks as [|c cs IH]; intros n w.
  - simpl. unfold mret. intro H. injection H as <-. now exists [].
  - rewrite scan_cons. destruct (_process_chunk c (S n) w) as [[[]|e] w1] eqn:E; [|discriminate].
    intro H. destruct (process_chunk_inv _ _ _ _ E) as [g [Hg ->]].
    destruct (IH _ _ H) as [gs [Hgs Hs]]. exists (g :: gs). simpl.
    rewrite Hg, Hgs. simpl. split; [reflexivity | exact Hs].
Qed.

(** A property of the monthly dictionary that every merged batch keeps
    holds at the end of a scan, however the scan ends. *)
Lemma scan_monthly_invariant (P : dict (string * period) (V * Z) -> Prop) :
  (forall m g, P m -> P (fold_left add_monthly g m)) ->
  forall chunks n w,
    P (monthly_sales (self w)) -> P (monthly_sales (self (snd (scan chunks n w)))).
Proof.
  intros Hstep chunks. induction chunks as [|c cs IH]; intros n w Hw; [exact Hw|].
  rewrite scan_cons. destruct (chunk_groups c) as [g|e] eqn:E.
  - rewrite (process_chunk_ok _ _ _ _ E). apply IH. simpl. now apply Hstep.
  - destruct (process_chunk_raise _ (S n) w _ E) as [H1 [_ [_ H4]]].
    destruct (_process_chunk c (S n) w) as [[[]|e'] w1]; simpl in *; [discriminate|].
    now rewrite H4.
Qed.

Lemma dict_set_twice {K X : Type} {key : KeyType K} (d : dict K X) (k : K) (x y : X) :
  dict_set (dict_set d k x) k y = dict_set d k y.
Proof.
  induction d as [|[k' x'] d IH]; simpl.
  - now rewrite keqb_refl.
  - destruct (keqb k k') eqn:E; simpl; rewrite E; [reflexivity | now rewrite IH].
Qed.

Lemma dict_set_forall {K X : Type} {key : KeyType K} (Q : X -> Prop)
    (d : dict K X) (k : K) (x : X) :
  Forall (fun e => Q (snd e)) d -> Q x -> Forall (fun e => Q (snd e)) (dict_set d k x).
Proof.
  intros Hd Hx. induction d as [|[k' x'] d IH]; simpl.
  - now constructor.
  - inversion Hd; subst. destruct (keqb k k'); constructor; auto.
Qed.

Lemma dict_get_forall {K X : Type} {key : KeyType K} (Q : X -> Prop)
    (d : dict K X) (k : K) (x : X) :
  Forall (fun e => Q (snd e)) d -> dict_get d k = Some x -> Q x.
Proof.
  intros Hd Hg. apply dict_get_in in Hg.
  rewrite Forall_forall in Hd. exact (Hd _ Hg).
Qed.

(** The dictionary after one turn of the monthly loop. *)
Lemma add_monthly_eq (m : dict (string * period) (V * Z)) (k : string * period) (t : V) :
  add_monthly m (k, t)
  = dict_set m k (nadd (fst (running_month m k)) t, (snd (running_month m k) + 1)%Z).
Proof.
  unfold add_monthly, running_month, dict_mem.
  destruct (dict_get m k) as [[s c]|] eqn:E.
  - rewrite E. reflexivity.
  - rewrite dict_get_set_same. simpl. apply dict_set_twice.
Qed.

Lemma add_monthly_get (m : dict (string * period) (V * Z)) (k k' : string * period) (t : V) :
  dict_get (add_monthly m (k, t)) k'
  = if keqb k' k
    then Some (nadd (fst (running_month m k)) t, (snd (running_month m k) + 1)%Z)
    else dict_get m k'.
Proof.
  rewrite add_monthly_eq. destruct (keqb k' k) eqn:E.
  - apply keqb_eq in E. subst. apply dict_get_set_same.
  - apply dict_get_set_other. intro H. subst. rewrite keqb_refl in E. discriminate.
Qed.

(** The same for one turn of the loop of [_update_sales_totals]. *)
Lemma add_total_eq (d : dict string V) (k : string) (v : V) :
  add_total d (k, v) = dict_set d k (nadd (running d k) v).
Proof.
  unfold add_total, running, dict_mem.
  destruct (dict_get d k) as [x|] eqn:E.
  - rewrite E. reflexivity.
  - rewrite dict_get_set_same. apply dict_set_twice.
Qed.

Lemma add_total_get (d : dict string V) (k k' : string) (v : V) :
  dict_get (add_total d (k, v)) k'
  = if keqb k' k then Some (nadd (running d k) v) else dict_get d k'.
Proof.
  rewrite add_total_eq. destruct (keqb k' k) eqn:E.
  - apply keqb_eq in E. subst. apply dict_get_set_same.
  - apply dict_get_set_other. intro H. subst. rewrite keqb_refl in E. discriminate.
Qed.

Lemma fold_add_monthly_counted (g : list ((string * period) * V))
    (m : dict (string * period) (V * Z)) :
  Forall (fun e => (1 <= snd (snd e))%Z) m ->
  Forall (fun e => (1 <= snd (snd e))%Z) (fold_left add_monthly g m).
Proof.
  revert m. induction g as [|[k t] g IH]; intros m Hm; [exact Hm|].
  cbn [fold_left]. apply IH. rewrite add_monthly_eq.
  apply (dict_set_forall (fun x => (1 <= snd x)%Z)); [exact Hm|].
  unfold running_month. destruct (dict_get m k) as [[s c]|] eqn:E; simpl; [|lia].
  pose proof (dict_get_forall (fun x => (1 <= snd x)%Z) _ _ _ Hm E) as H. simpl in H. lia.
Qed.

Lemma fold_add_monthly_grows (g : list ((string * period) * V))
    (m : dict (string * period) (V * Z)) (k : string * period) (s : V) (c : Z) :
  dict_get m k = Some (s, c) ->
  exists s' c', dict_get (fold_left add_monthly g m) k = Some (s', c') /\ (c <= c')%Z.
Proof.
  revert m s c. induction g as [|[k1 t] g IH]; intros m s c Hk; cbn [fold_left].
  - exists s, c. split; [exact Hk | lia].
  - pose proof (add_monthly_get m k1 k t) as H. destruct (keqb k k1) eqn:E.
    + apply keqb_eq in E. subst k1. unfold running_month in H. rewrite Hk in H. simpl in H.
      destruct (IH _ _ _ H) as [s' [c' [H1 H2]]]. exists s', c'. split; [exact H1 | lia].
    + rewrite Hk in H. exact (IH _ _ _ H).
Qed.

Lemma scan_monthly_counted (chunks : list (DataFrame V)) (n : nat) (w : World V A) :
  Forall (fun e => (1 <= snd (snd e))%Z) (monthly_sales (self w)) ->
  Forall (fun e => (1 <= snd (snd e))%Z) (monthly_sales (self (snd (scan chunks n w)))).
Proof.
  apply (scan_monthly_invariant (fun m => Forall (fun e => (1 <= snd (snd e))%Z) m)).
  intros m g. apply fold_add_monthly_counted.
Qed.

Lemma scan_monthly_grows (chunks : list (DataFrame V)) (n : nat) (w : World V A)
    (k : string * period) (s : V) (c : Z) :
  dict_get (monthly_sales (self w)) k = Some (s, c) ->
  exists s' c', dict_get (monthly_sales (self (snd (scan chunks n w)))) k = Some (s', c')
                /\ (c <= c')%Z.
Proof.
  intro H.
  apply (scan_monthly_invariant
           (fun m => exists s' c', dict_get m k = Some (s', c') /\ (c <= c')%Z)).
  - intros m g [s1 [c1 [H1 H2]]].
    destruct (fold_add_monthly_grows g _ _ _ _ H1) as [s2 [c2 [H3 H4]]].
    exists s2, c2. split; [exact H3 | lia].
  - exists s, c. split; [exact H | lia].
Qed.

(** The processor that [process_sales_data] leaves is the one its scan
    leaves. *)
Lemma process_sales_data_self (w : World V A) :
  self (snd (process_sales_data w))
  = match read_csv (disk w) (file_path (self w)) (chunksize (self w)) with
    | Ok chunks => self (snd (scan chunks 0 w))
    | Raise _ => self w
    end.
Proof.
  unfold process_sales_data, mbind, lift, print.
  destruct (read_csv _ _ _) as [chunks|e]; [|reflexivity].
  destruct (scan chunks 0 w) as [[[]|e] w1]; reflexivity.
Qed.

End MethodFacts.

Lemma exact_average_defined (m : dict (string * period) (Z * Z)) :
  Forall (fun e => (1 <= snd (snd e))%Z) m ->
  exists avg, monthly_avg_sales (num := exact_numeric) m = Ok avg.
Proof.
  unfold monthly_avg_sales.
  induction 1 as [|[k [s c]] m Hc _ [avg IH]]; cbn [omap].
  - now exists [].
  - cbn [fst snd] in *. rewrite IH. unfold ntruediv, exact_numeric.
    destruct (c =? 0)%Z eqn:E; [apply Z.eqb_eq in E; lia|].
    cbn [obind]. eauto.
Qed.

(** C10: every entry of the monthly dictionary has a batch count of at least
    one.  A scan keeps this true from any state where it holds, also when it
    stops on an exception, and never lowers the count of a key; it holds
    after [process_sales_data] on a new processor; so the division
    [v[0] / v[1]] of the report is defined for every key. *)
Theorem monthly_count_at_least_one :
  (forall (V A : Type) (num : Numeric V A) (dp : DatetimeParser)
          (chunks : list (DataFrame V)) (n : nat) (w : World V A),
      Forall (fun e => (1 <= snd (snd e))%Z) (monthly_sales (self w)) ->
      Forall (fun e => (1 <= snd (snd e))%Z) (monthly_sales (self (snd (scan chunks n w))))
      /\ (forall k s c,
            dict_get (monthly_sales (self w)) k = Some (s, c) ->
            exists s' c',
              dict_get (monthly_sales (self (snd (scan chunks n w)))) k = Some (s', c')
              /\ (c <= c')%Z))
  /\ (forall (V A : Type) (num : Numeric V A) (dp : DatetimeParser)
             (files : string -> option (DataFrame V)) (path : string) (size : Z)
             (fraction : Q) (out : list (line V A)),
        Forall (fun e => (1 <= snd (snd e))%Z)
          (monthly_sales
             (self (snd (process_sales_data (mkWorld (__init__ path size fraction) files out))))))
  /\ (forall (dp : DatetimeParser) (files : string -> option (DataFrame Z)) (path : string)
             (size : Z) (fraction : Q) (out : list (line Z Q)),
        exists avg,
          monthly_avg_sales
            (monthly_sales
               (self (snd (process_sales_data (mkWorld (__init__ path size fraction) files out)))))
          = Ok avg).
Proof.
  assert (fresh : forall (V A : Type) (num : Numeric V A) (dp : DatetimeParser)
             (files : string -> option (DataFrame V)) (path : string) (size : Z)
             (fraction : Q) (out : list (line V A)),
        Forall (fun e => (1 <= snd (snd e))%Z)
          (monthly_sales
             (self (snd (process_sales_data (mkWorld (__init__ path size fraction) files out)))))).
  { intros. rewrite process_sales_data_self.
    destruct (read_csv _ _ _) as [chunks|e]; [|constructor].
    apply scan_monthly_counted. constructor. }
  split; [|split].
  - intros V A num dp chunks n w Hw. split; [now apply scan_monthly_counted|].
    intros k s c. apply scan_monthly_grows.
  - exact fresh.
  - intros. apply exact_average_defined, fresh.
Qed.

Section AccumulatorFacts.
Context {V A : Type} {num : Numeric V A} {dp : DatetimeParser}.

Lemma fold_add_monthly_get (g : list ((string * period) * V))
    (m : dict (string * period) (V * Z)) (k : string * period) :
  NoDup (map fst g) ->
  dict_get (fold_left add_monthly g m) k
  = match dict_get g k with
    | Some t => Some (nadd (fst (running_month m k)) t, (snd (running_month m k) + 1)%Z)
    | None => dict_get m k
    end.
Proof.
  revert m. induction g as [|[k1 t] g IH]; intros m Hg; [reflexivity|].
  inversion Hg as [|? ? Hk1 Hg']; subst. cbn [fold_left]. rewrite (IH _ Hg').
  cbn [dict_get]. destruct (keqb k k1) eqn:E.
  - apply keqb_eq in E. subst k1.
    rewrite (proj2 (dict_get_none g k) Hk1), add_monthly_get, keqb_refl. reflexivity.
  - unfold running_month. rewrite add_monthly_get, E. reflexivity.
Qed.

Lemma fold_add_total_get (g : list (string * V)) (d : dict string V) (k : string) :
  NoDup (map fst g) ->
  dict_get (fold_left add_total g d) k
  = match dict_get g k with
    | Some t => Some (nadd (running d k) t)
    | None => dict_get d k
    end.
Proof.
  revert d. induction g as [|[k1 t] g IH]; intros d Hg; [reflexivity|].
  inversion Hg as [|? ? Hk1 Hg']; subst. cbn [fold_left]. rewrite (IH _ Hg').
  cbn [dict_get]. destruct (keqb k k1) eqn:E.
  - apply keqb_eq in E. subst k1.
    rewrite (proj2 (dict_get_none g k) Hk1), add_total_get, keqb_refl. reflexivity.
  - unfold running. rewrite add_total_get, E. reflexivity.
Qed.

Lemma grouped_totals_inv (chunk : DataFrame V) (gc vc : string) (l : list (string * V)) :
  grouped_totals chunk gc vc = Ok l ->
  exists g labels v values,
    getitem chunk gc = Ok g /\ omap (label_cell gc) g = Ok labels
    /\ getitem chunk vc = Ok v /\ omap (value_cell vc) v = Ok values
    /\ l = groupby_sum labels values.
Proof.
  unfold grouped_totals.
  destruct (getitem chunk gc) as [g|] eqn:E1; cbn [obind]; [|discriminate].
  destruct (omap (label_cell gc) g) as [labels|] eqn:E2; cbn [obind]; [|discriminate].
  destruct (getitem chunk vc) as [v|] eqn:E3; cbn [obind]; [|discriminate].
  destruct (omap (value_cell vc) v) as [values|] eqn:E4; cbn [obind]; [|discriminate].
  intro H. injection H as <-. exists g, labels, v, values. auto.
Qed.

Lemma monthly_totals_inv (chunk : DataFrame V) (months : list (option period))
    (l : list ((string * period) * V)) :
  monthly_totals chunk months = Ok l ->
  exists g products v values,
    getitem chunk "item_type" = Ok g /\ omap (label_cell "item_type") g = Ok products
    /\ getitem chunk "total_revenue" = Ok v /\ omap (value_cell "total_revenue") v = Ok values
    /\ l = groupby_sum (zip_labels products months) values.
Proof.
  unfold monthly_totals.
  destruct (getitem chunk "item_type") as [g|] eqn:E1; cbn [obind]; [|discriminate].
  destruct (omap (label_cell "item_type") g) as [labels|] eqn:E2; cbn [obind]; [|discriminate].
  destruct (getitem chunk "total_revenue") as [v|] eqn:E3; cbn [obind]; [|discriminate].
  destruct (omap (value_cell "total_revenue") v) as [values|] eqn:E4; cbn [obind];
    [|discriminate].
  intro H. injection H as <-. exists g, labels, v, values. auto.
Qed.

(** The reads behind the groups of a batch. *)
Lemma chunk_groups_inv (chunk : DataFrame V) (g : groups V) :
  chunk_groups chunk = Ok g ->
  let chunk' := set_columns chunk (map normalize_column (columns chunk)) in
  exists months,
    (exists order_date,
        to_datetime chunk' "order_date" = Ok order_date
        /\ dt_to_period order_date = Ok months)
    /\ monthly_totals chunk' months = Ok (by_month g)
    /\ forall d, grouped_totals chunk' (fst (dim_columns d)) (snd (dim_columns d))
                 = Ok (dim_group d g).
Proof.
  unfold chunk_groups. cbv zeta.
  set (chunk' := set_columns chunk (map normalize_column (columns chunk))).
  destruct (to_datetime chunk' "order_date") as [od|] eqn:E1; cbn [obind]; [|discriminate].
  destruct (to_datetime chunk' "ship_date") as [sd|] eqn:E2; cbn [obind]; [|discriminate].
  destruct (grouped_totals chunk' "item_type" "units_sold") as [g1|] eqn:E3; cbn [obind];
    [|discriminate].
  destruct (grouped_totals chunk' "sales_channel" "units_sold") as [g2|] eqn:E4; cbn [obind];
    [|discriminate].
  destruct (grouped_totals chunk' "country" "total_revenue") as [g3|] eqn:E5; cbn [obind];
    [|discriminate].
  destruct (grouped_totals chunk' "region" "total_revenue") as [g4|] eqn:E6; cbn [obind];
    [|discriminate].
  destruct (dt_to_period od) as [months|] eqn:E8; cbn [obind]; [|discriminate].
  destruct (monthly_totals chunk' months) as [gm|] eqn:E7; cbn [obind];
    [|discriminate].
  intro H. injection H as <-. exists months. split; [now exists od|]. split; [exact E7|].
  intros []; assumption.
Qed.

(** The groups of a batch have distinct labels. *)
Lemma chunk_groups_nodup (chunk : DataFrame V) (g : groups V) :
  chunk_groups chunk = Ok g ->
  NoDup (map fst (by_month g)) /\ forall d, NoDup (map fst (dim_group d g)).
Proof.
  intro H. destruct (chunk_groups_inv _ _ H) as [od [_ [Hm Hd]]]. split.
  - destruct (monthly_totals_inv _ _ _ Hm) as [? [? [? [? [_ [_ [_ [_ ->]]]]]]]].
    rewrite groupby_sum_keys. apply sorted_keys_nodup.
  - intro d. destruct (grouped_totals_inv _ _ _ _ (Hd d)) as [? [? [? [? [_ [_ [_ [_ ->]]]]]]]].
    rewrite groupby_sum_keys. apply sorted_keys_nodup.
Qed.

End AccumulatorFacts.

(** C1: a batch that is processed adds, for every (product, month) group
    it contains, the group's revenue sum to the running sum of the pair and
    one to its running count, however many rows the group has; the other
    pairs keep their entry.  So the two sales of 100 and 300 of one product
    in one month average 400 when one batch holds both and 200 when each is
    a batch of its own, with integer revenue and with binary64 revenue. *)
Theorem monthly_accumulator_counts_batches :
  (forall (V A : Type) (num : Numeric V A) (dp : DatetimeParser)
          (chunk : DataFrame V) (n : nat) (w w' : World V A),
      _process_chunk chunk n w = (Ok tt, w') ->
      exists g,
        chunk_groups chunk = Ok g
        /\ forall key,
             dict_get (monthly_sales (self w')) key
             = match dict_get (by_month g) key with
               | Some total =>
                   Some (nadd (fst (running_month (monthly_sales (self w)) key)) total,
                         (snd (running_month (monthly_sales (self w)) key) + 1)%Z)
               | None => dict_get (monthly_sales (self w)) key
               end)
  /\ monthly_avg_sales
       (monthly_sales (scanned (dp := iso_parser) (two_sales 1%Z 100%Z 300%Z) 2))
     = Ok [(("P", (2021%Z, 1%Z)), 400%Q)]
  /\ monthly_avg_sales
       (monthly_sales (scanned (dp := iso_parser) (two_sales 1%Z 100%Z 300%Z) 1))
     = Ok [(("P", (2021%Z, 1%Z)), 200%Q)]
  /\ monthly_avg_sales
       (monthly_sales (scanned (dp := iso_parser) (two_sales 1%float 100%float 300%float) 2))
     = Ok [(("P", (2021%Z, 1%Z)), 400%float)]
  /\ monthly_avg_sales
       (monthly_sales (scanned (dp := iso_parser) (two_sales 1%float 100%float 300%float) 1))
     = Ok [(("P", (2021%Z, 1%Z)), 200%float)].
Proof.
  split; [|repeat split; vm_compute; reflexivity].
  intros V A num dp chunk n w w' H.
  destruct (process_chunk_inv _ _ _ _ H) as [g [Hg ->]].
  exists g. split; [exact Hg|]. intro key. simpl.
  apply fold_add_monthly_get. apply (chunk_groups_nodup _ _ Hg).
Qed.

(** C3: the three sales of the scenario, read as one batch by [main], give
    product units Electronics 15 and Furniture 20, channel units Online 15
    and Retail 20, country revenue Brazil 150 and USA 500, region revenue
    North America 500 and South America 150, and the monthly averages
    (Electronics, 2021-01) 150 and (Furniture, 2021-02) 500; each dictionary
    is listed in its insertion order.  This holds with integer columns and
    with binary64 columns. *)
Theorem end_to_end_scenario :
  (let r := main (A := Q) (dp := iso_parser)
              (one_file "data/vendas.csv" (scenario 10 5 20 100 50 500)%Z) in
   fst r = Ok tt
   /\ product_sales (self (snd r)) = [("Electronics", 15); ("Furniture", 20)]%Z
   /\ sales_channel_sales (self (snd r)) = [("Online", 15); ("Retail", 20)]%Z
   /\ country_sales (self (snd r)) = [("Brazil", 150); ("USA", 500)]%Z
   /\ region_sales (self (snd r)) = [("North America", 500); ("South America", 150)]%Z
   /\ monthly_avg_sales (monthly_sales (self (snd r)))
      = Ok [(("Electronics", (2021, 1)%Z), 150%Q); (("Furniture", (2021, 2)%Z), 500%Q)]
   /\ stdout (snd r)
      = [ResourceUsage 1; TotalTime;
         Top ProductSales "Furniture" 20%Z; Top SalesChannelSales "Retail" 20%Z;
         Top CountrySales "USA" 500%Z; Top RegionSales "North America" 500%Z;
         MonthlyAverage
           [(("Electronics", (2021, 1)%Z), 150%Q); (("Furniture", (2021, 2)%Z), 500%Q)]])
  /\ (let r := main (A := float) (dp := iso_parser)
                 (one_file "data/vendas.csv" (scenario 10 5 20 100 50 500)%float) in
      fst r = Ok tt
      /\ product_sales (self (snd r)) = [("Electronics", 15); ("Furniture", 20)]%float
      /\ sales_channel_sales (self (snd r)) = [("Online", 15); ("Retail", 20)]%float
      /\ country_sales (self (snd r)) = [("Brazil", 150); ("USA", 500)]%float
      /\ region_sales (self (snd r)) = [("North America", 500); ("South America", 150)]%float
      /\ monthly_avg_sales (monthly_sales (self (snd r)))
         = Ok [(("Electronics", (2021, 1)%Z), 150%float);
               (("Furniture", (2021, 2)%Z), 500%float)]).
Proof. cbv zeta. repeat split; vm_compute; reflexivity. Qed.

(* ------------------------------------------------------------------ *)
(** * The sampling fraction *)

Section FractionFacts.
Context {V A : Type} {num : Numeric V A} {dp : DatetimeParser}.

Ltac split_outcomes :=
  repeat match goal with
         | |- context [match ?o with Ok _ => _ | Raise _ => _ end] => destruct o; simpl
         end.

(** Changing the fraction of the processor commutes with every method. *)
Lemma process_chunk_fraction (f : Q) (chunk : DataFrame V) (n : nat) (w : World V A) :
  _process_chunk chunk n (world_with_fraction f w)
  = (fst (_process_chunk chunk n w), world_with_fraction f (snd (_process_chunk chunk n w))).
Proof.
  unfold _process_chunk, _update_sales_totals, _print_resource_usage,
    mbind, lift, update_self, print.
  cbv zeta. destruct w as [[] ? ?]. split_outcomes; reflexivity.
Qed.

Lemma scan_fraction (f : Q) (chunks : list (DataFrame V)) (n : nat) (w : World V A) :
  scan chunks n (world_with_fraction f w)
  = (fst (scan chunks n w), world_with_fraction f (snd (scan chunks n w))).
Proof.
  revert n w. induction chunks as [|c cs IH]; intros n w; [reflexivity|].
  rewrite !scan_cons, process_chunk_fraction.
  destruct (_process_chunk c (S n) w) as [[[]|e] w1]; simpl; [apply IH | reflexivity].
Qed.

Lemma process_sales_data_fraction (f : Q) (w : World V A) :
  process_sales_data (world_with_fraction f w)
  = (fst (process_sales_data w), world_with_fraction f (snd (process_sales_data w))).
Proof.
  unfold process_sales_data, mbind, lift. simpl.
  destruct (read_csv _ _ _) as [chunks|e]; [|reflexivity].
  rewrite scan_fraction. destruct (scan chunks 0 w) as [[[]|e] w1]; reflexivity.
Qed.

Lemma print_summary_fraction (f : Q) (w : World V A) :
  print_summary (world_with_fraction f w)
  = (fst (print_summary w), world_with_fraction f (snd (print_summary w))).
Proof.
  unfold print_summary, print_top, mbind, lift, print. destruct w as [[] ? ?]. simpl.
  repeat match goal with
         | |- context [match ?o with Ok _ => _ | Raise _ => _ end] => destruct o; simpl
         | |- context [match ?o with Some _ => _ | None => _ end] => destruct o; simpl
         end; reflexivity.
Qed.

End FractionFacts.

(** C5: [sample_fraction] is stored and never read.  Two processors that
    differ by it only end the scan of a same disk with the same outcome,
    the same five dictionaries and the same printed lines, and their
    summaries are the same. *)
Theorem sample_fraction_is_unused :
  forall (V A : Type) (num : Numeric V A) (dp : DatetimeParser)
         (files : string -> option (DataFrame V)) (path : string) (size : Z)
         (f1 f2 : Q),
    let r1 := process_sales_data (mkWorld (__init__ path size f1) files ([] : list (line V A))) in
    let r2 := process_sales_data (mkWorld (__init__ path size f2) files ([] : list (line V A))) in
    fst r1 = fst r2
    /\ product_sales (self (snd r1)) = product_sales (self (snd r2))
    /\ sales_channel_sales (self (snd r1)) = sales_channel_sales (self (snd r2))
    /\ country_sales (self (snd r1)) = country_sales (self (snd r2))
    /\ region_sales (self (snd r1)) = region_sales (self (snd r2))
    /\ monthly_sales (self (snd r1)) = monthly_sales (self (snd r2))
    /\ stdout (snd r1) = stdout (snd r2)
    /\ fst (print_summary (snd r1)) = fst (print_summary (snd r2))
    /\ stdout (snd (print_summary (snd r1))) = stdout (snd (print_summary (snd r2))).
Proof.
  intros V A num dp files path size f1 f2 r1 r2.
  assert (E : r1 = (fst r2, world_with_fraction f1 (snd r2))).
  { subst r1 r2. apply (process_sales_data_fraction f1 (mkWorld (__init__ path size f2) files [])). }
  rewrite E. cbn [fst snd]. rewrite print_summary_fraction. cbn [fst snd].
  repeat split; reflexivity.
Qed.

(* ------------------------------------------------------------------ *)
(** * The report *)

Lemma exact_ranked : RankedOn exact_numeric (fun _ => True).
Proof.
  split; simpl; intros a b; [|intro c]; intros; rewrite ?Z.gtb_ltb, ?Z.ltb_lt, ?Z.ltb_ge in *; lia.
Qed.

Lemma exact_sum : ExactSum exact_numeric.
Proof. split; simpl; intros; lia. Qed.

(** ** The order of the binary64 numbers that are not NaN *)

Lemma SFltb_rank (x y : spec_float) :
  x <> S754_nan -> y <> S754_nan ->
  (SFltb x y = true <-> rank_lt (float_rank x) (float_rank y)).
Proof.
  intros Hx Hy. unfold SFltb, rank_lt.
  destruct x as [sx|sx| |sx mx ex], y as [sy|sy| |sy my ey]; try congruence;
    try (destruct sx); try (destruct sy); cbn [SFcompare float_rank fst snd];
    try (split; [discriminate | lia]); try (split; [reflexivity | lia]);
    try (split; [intros _; lia | reflexivity]).
  - rewrite Pos.compare_cont_spec. cbn [Pos.switch_Eq].
    destruct (Z.compare_spec ex ey) as [E | E | E];
      [destruct (Pos.compare_spec mx my) as [M | M | M]; cbn [CompOpp] | |];
      split; try discriminate; try reflexivity; try lia.
  - rewrite Pos.compare_cont_spec. cbn [Pos.switch_Eq].
    destruct (Z.compare_spec ex ey) as [E | E | E];
      [destruct (Pos.compare_spec mx my) as [M | M | M] | |];
      split; try discriminate; try reflexivity; try lia.
Qed.

Lemma not_nan_spec (x : float) : PrimFloat.is_nan x = false -> Prim2SF x <> S754_nan.
Proof.
  unfold PrimFloat.is_nan. rewrite eqb_spec. intros H E. rewrite E in H. discriminate H.
Qed.

Lemma float_gt_rank (a b : float) :
  PrimFloat.is_nan a = false -> PrimFloat.is_nan b = false ->
  (PrimFloat.ltb b a = true <-> rank_lt (float_rank (Prim2SF b)) (float_rank (Prim2SF a))).
Proof.
  intros Ha Hb. rewrite ltb_spec. apply SFltb_rank; now apply not_nan_spec.
Qed.

Lemma float_ranked : RankedOn float_numeric (fun v => PrimFloat.is_nan v = false).
Proof.
  split; cbn [ngt float_numeric].
  - intros a b Ha Hb H. apply (float_gt_rank a b Ha Hb) in H.
    destruct (PrimFloat.ltb a b) eqn:E; [|reflexivity].
    apply (float_gt_rank b a Hb Ha) in E. unfold rank_lt in *. lia.
  - intros a b c Ha Hb Hc H. apply (float_gt_rank a b Ha Hb) in H.
    destruct (PrimFloat.ltb c a) eqn:E1; [now left|]. right.
    apply (float_gt_rank c b Hc Hb).
    assert (N : ~ rank_lt (float_rank (Prim2SF c)) (float_rank (Prim2SF a))).
    { intro R. apply (float_gt_rank a c Ha Hc) in R. congruence. }
    unfold rank_lt in *. lia.
Qed.

Section ReportFacts.
Context {V A : Type} {num : Numeric V A} {ok : V -> Prop}.

Lemma ngt_irrefl (HR : RankedOn num ok) (a : V) : ok a -> ngt a a = false.
Proof.
  intro Ha. destruct (ngt a a) eqn:E; [|reflexivity].
  pose proof (ngt_asym HR _ _ Ha Ha E). congruence.
Qed.

Lemma keep_max_step (HR : RankedOn num ok) (pre : list (string * V)) (i : nat)
    (b x : string * V) :
  (forall e, In e (pre ++ [x]) -> ok (snd e)) ->
  first_greatest pre i b ->
  exists i', first_greatest (pre ++ [x]) i' (keep_max b x).
Proof.
  intros Hok [Hn [Hlt Hge]]. unfold keep_max.
  assert (Hi : (i < List.length pre)%nat) by (apply nth_error_Some; congruence).
  assert (Hpre : forall e, In e pre -> ok (snd e))
    by (intros e He; apply Hok, in_or_app; now left).
  assert (Hx : ok (snd x)) by (apply Hok, in_or_app; right; now left).
  assert (Hb : ok (snd b)) by (apply Hpre; now apply nth_error_In in Hn).
  destruct (ngt (snd x) (snd b)) eqn:E.
  - exists (List.length pre). split; [|split].
    + rewrite nth_error_app2, Nat.sub_diag by lia. reflexivity.
    + intros j e Hj He. rewrite nth_error_app1 in He by lia.
      apply nth_error_In in He. specialize (Hge _ He).
      destruct (ngt_cotrans HR _ _ (snd e) Hx Hb (Hpre _ He) E) as [H | H];
        [exact H | congruence].
    + intros e He. apply in_app_or in He. destruct He as [He | [<- | []]].
      * destruct (ngt (snd e) (snd x)) eqn:E'; [|reflexivity].
        destruct (ngt_cotrans HR _ _ (snd b) (Hpre _ He) Hx Hb E') as [H | H].
        -- rewrite (Hge _ He) in H. discriminate.
        -- rewrite (ngt_asym HR _ _ Hx Hb E) in H. discriminate.
      * now apply (ngt_irrefl HR).
  - exists i. split; [|split].
    + rewrite nth_error_app1 by lia. exact Hn.
    + intros j e Hj He. rewrite nth_error_app1 in He by lia. eauto.
    + intros e He. apply in_app_or in He. destruct He as [He | [<- | []]]; auto.
Qed.

Lemma keep_max_fold (HR : RankedOn num ok) (others pre : list (string * V)) (i : nat)
    (b : string * V) :
  (forall e, In e (pre ++ others) -> ok (snd e)) ->
  first_greatest pre i b ->
  exists i', first_greatest (pre ++ others) i' (fold_left keep_max others b).
Proof.
  revert pre i b. induction others as [|x xs IH]; intros pre i b Hok H.
  - exists i. now rewrite app_nil_r.
  - assert (Hok1 : forall e, In e (pre ++ [x]) -> ok (snd e)).
    { intros e He. apply Hok. apply in_app_or in He. apply in_or_app.
      destruct He as [He | [<- | []]]; [now left | right; now left]. }
    destruct (keep_max_step HR _ _ _ x Hok1 H) as [i1 H1].
    assert (Hok2 : forall e, In e ((pre ++ [x]) ++ xs) -> ok (snd e))
      by (intros e He; apply Hok; now rewrite <- app_assoc in He).
    destruct (IH (pre ++ [x]) i1 (keep_max b x) Hok2 H1) as [i2 H2].
    exists i2. rewrite <- app_assoc in H2. exact H2.
Qed.

Lemma nodup_nth_get (d : dict string V) (i : nat) (k : string) (v : V) :
  NoDup (map fst d) -> nth_error d i = Some (k, v) -> dict_get d k = Some v.
Proof.
  revert i. induction d as [|[k' v'] d IH]; intros i Hd Hi; [destruct i; discriminate|].
  inversion Hd as [|? ? Hk Hd']; subst. destruct i as [|i]; simpl in *.
  - injection Hi as -> ->. now rewrite String.eqb_refl.
  - destruct (String.eqb_spec k k') as [-> | _]; [|eauto].
    exfalso. apply Hk. apply nth_error_In in Hi. now apply (in_map fst) in Hi.
Qed.

End ReportFacts.

(** C7, as the claim words it, fails when a total is a NaN.  Brazil sells
    for an infinite revenue in one batch and takes it back in the next, so
    its total is inf + (-inf), a NaN; the USA and Chile then sell for 7
    each.  No value of the country dictionary is greater than 7, the USA
    and Chile share it, and [max] selects Brazil: nothing is greater than
    the NaN it starts from. *)
Lemma nan_total_hides_the_maximum :
  fst (scan (dp := iso_parser) nan_batches 0 (new_world (A := float))) = Ok tt
  /\ map fst (country_sales
                (self (snd (scan (dp := iso_parser) nan_batches 0 (new_world (A := float))))))
     = ["Brazil"; "USA"; "Chile"]
  /\ option_map PrimFloat.is_nan
       (dict_get (country_sales
                    (self (snd (scan (dp := iso_parser) nan_batches 0
                                  (new_world (A := float)))))) "Brazil")
     = Some true
  /\ option_map (PrimFloat.eqb 7)
       (dict_get (country_sales
                    (self (snd (scan (dp := iso_parser) nan_batches 0
                                  (new_world (A := float)))))) "USA")
     = Some true
  /\ option_map (PrimFloat.eqb 7)
       (dict_get (country_sales
                    (self (snd (scan (dp := iso_parser) nan_batches 0
                                  (new_world (A := float)))))) "Chile")
     = Some true
  /\ forallb (fun e => negb (ngt (snd e) 7%float))
       (country_sales
          (self (snd (scan (dp := iso_parser) nan_batches 0 (new_world (A := float))))))
     = true
  /\ py_max (country_sales
               (self (snd (scan (dp := iso_parser) nan_batches 0 (new_world (A := float))))))
     = Ok "Brazil".
Proof. repeat split; vm_compute; reflexivity. Qed.

(** C7, amended: when the values of a dimension dictionary can all be
    compared (the [>] of Python is a strict weak order on them),
    [max(d, key=d.get)] returns the key that was inserted first among those
    of greatest value: every entry has a value that is not greater, and
    every entry inserted before it has a smaller value.  The reporter prints
    that key with its value; as a function of the dictionary, the choice is
    the same at every run.  The integers can all be compared, and so can the
    binary64 numbers that are not NaN. *)
Theorem max_selects_first_inserted :
  (forall (V A : Type) (num : Numeric V A) (ok : V -> Prop) (dim : dimension)
          (w : World V A),
      RankedOn num ok ->
      (forall e, In e (get_dim dim (self w)) -> ok (snd e)) ->
      NoDup (map fst (get_dim dim (self w))) ->
      get_dim dim (self w) <> [] ->
      exists (k : string) (v : V) (i : nat),
        py_max (get_dim dim (self w)) = Ok k
        /\ nth_error (get_dim dim (self w)) i = Some (k, v)
        /\ (forall j e, (j < i)%nat -> nth_error (get_dim dim (self w)) j = Some e ->
                        ngt v (snd e) = true)
        /\ (forall e, In e (get_dim dim (self w)) -> ngt (snd e) v = false)
        /\ print_top dim w = (Ok tt, mkWorld (self w) (disk w) (stdout w ++ [Top dim k v])))
  /\ RankedOn exact_numeric (fun _ => True)
  /\ RankedOn float_numeric (fun v => PrimFloat.is_nan v = false).
Proof.
  split; [|split; [exact exact_ranked | exact float_ranked]].
  intros V A num ok dim w HR Hok Hd Hne.
  destruct (get_dim dim (self w)) as [|first others] eqn:E; [contradiction|].
  assert (H0 : first_greatest [first] 0 first).
  { split; [reflexivity|]. split; [intros j e Hj; lia|].
    intros e [<- | []]. apply (ngt_irrefl HR). apply Hok. now left. }
  destruct (keep_max_fold HR others [first] _ _ Hok H0) as [i [Hn [Hlt Hge]]].
  simpl in Hn, Hlt, Hge.
  destruct (fold_left keep_max others first) as [k v] eqn:Ef.
  exists k, v, i. unfold py_max. rewrite Ef. simpl.
  repeat split; try assumption.
  unfold print_top, mbind, lift, py_max. rewrite E, Ef. cbn [fst].
  rewrite (nodup_nth_get _ _ _ _ Hd Hn). reflexivity.
Qed.

Lemma tie_goes_to_first_inserted :
  py_max (get_dim ProductSales (self tie_world)) = Ok "Fruits"
  /\ py_max (get_dim CountrySales (self float_tie_world)) = Ok "USA".
Proof. split; reflexivity. Qed.

Lemma max_selects_first_inserted_witness :
  RankedOn float_numeric (fun v => PrimFloat.is_nan v = false)
  /\ (forall e, In e (get_dim CountrySales (self float_tie_world)) ->
                PrimFloat.is_nan (snd e) = false)
  /\ NoDup (map fst (get_dim CountrySales (self float_tie_world)))
  /\ get_dim CountrySales (self float_tie_world) <> []
  /\ exists (k : string) (v : float) (i : nat),
      py_max (get_dim CountrySales (self float_tie_world)) = Ok k
      /\ nth_error (get_dim CountrySales (self float_tie_world)) i = Some (k, v)
      /\ (forall j e, (j < i)%nat ->
                      nth_error (get_dim CountrySales (self float_tie_world)) j = Some e ->
                      ngt v (snd e) = true)
      /\ (forall e, In e (get_dim CountrySales (self float_tie_world)) ->
                    ngt (snd e) v = false)
      /\ print_top CountrySales float_tie_world
         = (Ok tt, mkWorld (self float_tie_world) (disk float_tie_world)
                     (stdout float_tie_world ++ [Top CountrySales k v])).
Proof.
  assert (Hok : forall e, In e (get_dim CountrySales (self float_tie_world)) ->
                  PrimFloat.is_nan (snd e) = false).
  { intros e [<- | [<- | [<- | []]]]; reflexivity. }
  assert (Hd : NoDup (map fst (get_dim CountrySales (self float_tie_world)))).
  { repeat constructor; simpl; intuition discriminate. }
  assert (Hne : get_dim CountrySales (self float_tie_world) <> []) by discriminate.
  split; [exact (proj2 (proj2 max_selects_first_inserted))|].
  split; [exact Hok|]. split; [exact Hd|]. split; [exact Hne|].
  exact (proj1 max_selects_first_inserted float float float_numeric
           (fun v => PrimFloat.is_nan v = false) CountrySales float_tie_world
           (proj2 (proj2 max_selects_first_inserted)) Hok Hd Hne).
Defined.

(* ------------------------------------------------------------------ *)
(** * Reading the columns of a batch *)

Section ColumnFacts.
Context {V A : Type} {num : Numeric V A} {dp : DatetimeParser}.



Lemma omap_inv {X Y : Type} (f : X -> outcome Y) (f' : X -> Y) (l : list X) (l' : list Y) :
  (forall x y, f x = Ok y -> y = f' x) -> omap f l = Ok l' -> l' = map f' l.
Proof.
  intro Hf. revert l'. induction l as [|x l IH]; intro l'; cbn [omap].
  - intro H. now injection H as <-.
  - destruct (f x) as [y|e] eqn:E; cbn [obind]; [|discriminate].
    destruct (omap f l) as [ys|e]; cbn [obind]; [|discriminate].
    intro H. injection H as <-. cbn [map]. now rewrite (Hf _ _ E), (IH _ eq_refl).
Qed.

Lemma label_cell_inv (col : string) (c : cell V) (y : option string) :
  label_cell col c = Ok y -> y = label_of c.
Proof. destruct c; simpl; intro H; now inversion H. Qed.

Lemma value_cell_inv (col : string) (c : cell V) (y : option V) :
  value_cell col c = Ok y -> y = value_of c.
Proof. destruct c; simpl; intro H; now inversion H. Qed.


Lemma getitem_inv (chunk : DataFrame V) (name : string) (cells : list (cell V)) :
  getitem chunk name = Ok cells ->
  exists i, index_of name (columns chunk) = Some i
            /\ cells = map (fun r => nth i r NA) (rows chunk).
Proof.
  unfold getitem. destruct (index_of name (columns chunk)) as [i|]; [|discriminate].
  destruct (count_label name (columns chunk) =? 1)%nat; [|discriminate].
  intro H. injection H as <-. now exists i.
Qed.



Lemma to_datetime_inv (chunk : DataFrame V) (col : string) (d : datetimes) :
  to_datetime chunk col = Ok d ->
  exists i, index_of col (columns chunk) = Some i
            /\ d = to_datetime_column (texts_at i (rows chunk)).
Proof.
  unfold to_datetime.
  destruct (getitem chunk col) as [cells|] eqn:Hg; cbn [obind]; [|discriminate].
  destruct (omap (label_cell col) cells) as [texts|] eqn:Ht; cbn [obind]; [|discriminate].
  intro H. injection H as <-. destruct (getitem_inv _ _ _ Hg) as [i [Hi ->]].
  exists i. split; [exact Hi|].
  rewrite (omap_inv _ label_of _ _ (label_cell_inv col) Ht). unfold texts_at.
  now rewrite map_map.
Qed.







End ColumnFacts.

(* ------------------------------------------------------------------ *)
(** * Missing columns *)

Section AbortFacts.
Context {V A : Type} {num : Numeric V A} {dp : DatetimeParser}.




End AbortFacts.


(* ------------------------------------------------------------------ *)
(** * Empty aggregates *)

Section EmptyFacts.
Context {V A : Type} {num : Numeric V A} {dp : DatetimeParser}.












Lemma keep_max_in (others : list (string * V)) (first : string * V) :
  In (fold_left keep_max others first) (first :: others).
Proof.
  revert first. induction others as [|x xs IH]; intro first; [now left|].
  cbn [fold_left]. unfold keep_max at 2.
  destruct (ngt (snd x) (snd first)); destruct (IH x) as [H | H], (IH first) as [H' | H'];
    simpl; auto; rewrite <- ?H, <- ?H'; auto.
Qed.

Lemma print_top_empty (dim : dimension) (w : World V A) :
  get_dim dim (self w) = [] -> print_top dim w = (Raise (ValueError empty_max), w).
Proof. intro H. unfold print_top, mbind, lift. now rewrite H. Qed.



End EmptyFacts.

Section HeaderOnly.
Context {V A : Type} {num : Numeric V A} {dp : DatetimeParser}.


End HeaderOnly.


(* ------------------------------------------------------------------ *)
(** * Rows *)

Section RowFacts.
Context {V A : Type} {num : Numeric V A} {dp : DatetimeParser}.

Lemma omap_forall {X Y : Type} (f : X -> outcome Y) (l : list X) (l' : list Y) :
  omap f l = Ok l' -> forall x, In x l -> exists y, f x = Ok y.
Proof.
  revert l'. induction l as [|a l IH]; intros l'; cbn [omap]; [intros _ x []|].
  destruct (f a) as [y|e] eqn:E; cbn [obind]; [|discriminate].
  destruct (omap f l) as [ys|e]; cbn [obind]; [|discriminate].
  intros _ x [<- | Hx]; [now exists y | exact (IH _ eq_refl x Hx)].
Qed.

Lemma column_ok_rows (kind : cell V -> bool) (cols : list string)
    (rs : list (list (cell V))) (name : string) :
  column_ok kind (mkFrame cols rs) name = true
  <-> column_ok kind (mkFrame cols []) name = true
      /\ forall r, In r rs -> column_ok kind (mkFrame cols [r]) name = true.
Proof.
  unfold column_ok, getitem. cbn [columns rows].
  destruct (index_of name cols) as [i|]; [|tauto].
  destruct (count_label name cols =? 1)%nat; [|tauto].
  cbn [map forallb]. rewrite forallb_forall. split.
  - intros H. split; [reflexivity|]. intros r Hr.
    rewrite andb_true_r. apply H. now apply (in_map (fun r => nth i r NA)).
  - intros [_ H] c Hc. apply in_map_iff in Hc. destruct Hc as [r [<- Hr]].
    specialize (H r Hr). now rewrite andb_true_r in H.
Qed.



Lemma well_typed_all (cols : list string) (chunks : list (DataFrame V)) :
  chunks <> [] ->
  (forall c, In c chunks -> map normalize_column (columns c) = cols /\ well_typed c = true) ->
  well_typed (mkFrame cols (all_rows chunks)) = true.
Proof.
  intros Hne H.
  assert (Hcol : forall name kind,
             (forall c, In c chunks -> column_ok kind (mkFrame cols (rows c)) name = true) ->
             column_ok kind (mkFrame cols (all_rows chunks)) name = true).
  { intros name kind Hk. apply column_ok_rows. split.
    - destruct chunks as [|c cs]; [contradiction|].
      apply (column_ok_rows kind cols (rows c) name), Hk. now left.
    - intros r Hr. unfold all_rows in Hr. apply in_flat_map in Hr.
      destruct Hr as [c [Hc Hr]]. exact (proj2 (proj1 (column_ok_rows _ _ _ _) (Hk c Hc)) r Hr). }
  unfold well_typed. cbv zeta. cbn [columns rows].
  assert (Hidem : map normalize_column cols = cols).
  { destruct chunks as [|c cs]; [contradiction|].
    destruct (H c (or_introl eq_refl)) as [<- _]. rewrite map_map.
    apply map_ext. intro x. apply NormalizeFacts.normalize_column_idem. }
  rewrite Hidem. rewrite andb_true_iff, !forallb_forall.
  split; intros name Hn; apply Hcol; intros c Hc; destruct (H c Hc) as [Hcols Hw];
    unfold well_typed in Hw; cbv zeta in Hw; rewrite Hcols in Hw;
    rewrite andb_true_iff, !forallb_forall in Hw; destruct Hw as [Hw1 Hw2]; auto.
Qed.

Lemma group_rows_pairs (i j : nat) (rs : list (list (cell V))) :
  group_rows (K := string) (map (fun r => label_of (nth i r NA)) rs)
    (map (fun r => value_of (nth j r NA)) rs)
  = flat_map (row_pair i j) rs.
Proof.
  induction rs as [|r rs IH]; [reflexivity|]. cbn [map flat_map group_rows].
  unfold row_pair at 1. destruct (label_of (nth i r NA)); cbn [app]; now rewrite IH.
Qed.

Lemma group_rows_month_pairs (texts : list (option string)) (ip im iv : nat)
    (rs : list (list (cell V))) :
  group_rows
    (zip_labels (map (fun r => label_of (nth ip r NA)) rs)
       (map to_period (map (fun r => date_of texts (nth im r NA)) rs)))
    (map (fun r => value_of (nth iv r NA)) rs)
  = flat_map (month_pair texts ip im iv) rs.
Proof.
  unfold zip_labels. induction rs as [|r rs IH]; [reflexivity|].
  cbn [map combine flat_map group_rows]. unfold month_pair at 1.
  destruct (label_of (nth ip r NA)), (to_period (date_of texts (nth im r NA)));
    cbn [app group_rows]; now rewrite IH.
Qed.

(** The groups of a dimension are those of the rows of the batch, all of
    them. *)
Lemma grouped_totals_rows (chunk : DataFrame V) (gc vc : string) (l : list (string * V)) :
  grouped_totals chunk gc vc = Ok l ->
  exists i j,
    index_of gc (columns chunk) = Some i /\ index_of vc (columns chunk) = Some j
    /\ l = groupby_sum (map (fun r => label_of (nth i r NA)) (rows chunk))
             (map (fun r => value_of (nth j r NA)) (rows chunk)).
Proof.
  intro H. destruct (grouped_totals_inv _ _ _ _ H) as [g [ls [v [vs [Hg [Hl [Hv [Hvs ->]]]]]]]].
  destruct (getitem_inv _ _ _ Hg) as [i [Hi ->]], (getitem_inv _ _ _ Hv) as [j [Hj ->]].
  exists i, j. split; [exact Hi|]. split; [exact Hj|].
  rewrite (omap_inv _ label_of _ _ (label_cell_inv gc) Hl).
  rewrite (omap_inv _ value_of _ _ (value_cell_inv vc) Hvs).
  now rewrite !map_map.
Qed.

End RowFacts.

(* ------------------------------------------------------------------ *)
(** * Order dates that do not parse *)

Section DateFacts.
Context {V A : Type} {num : Numeric V A} {dp : DatetimeParser}.

Lemma read_ok_column {Y : Type} (f : cell V -> outcome Y) (kind : cell V -> bool)
    (chunk : DataFrame V) (name : string) (l : list Y) :
  (forall c y, f c = Ok y -> kind c = true) ->
  obind (getitem chunk name) (omap f) = Ok l ->
  column_ok kind chunk name = true /\ absent name (columns chunk) = false.
Proof.
  intros Hf. unfold column_ok, absent.
  destruct (getitem chunk name) as [cells|e] eqn:E; cbn [obind]; [|discriminate].
  intro H. destruct (getitem_inv _ _ _ E) as [i [-> _]]. split; [|reflexivity].
  apply forallb_forall. intros c Hc.
  destruct (omap_forall _ _ _ H c Hc) as [y Hy]. exact (Hf _ _ Hy).
Qed.

Lemma label_cell_text (col : string) (c : cell V) (y : option string) :
  label_cell col c = Ok y -> text_cell c = true.
Proof. now destruct c. Qed.

Lemma value_cell_number (col : string) (c : cell V) (y : option V) :
  value_cell col c = Ok y -> number_cell c = true.
Proof. now destruct c. Qed.

Lemma to_datetime_typed (chunk : DataFrame V) (col : string) (d : datetimes) :
  to_datetime chunk col = Ok d ->
  column_ok text_cell chunk col = true /\ absent col (columns chunk) = false.
Proof.
  unfold to_datetime.
  destruct (getitem chunk col) as [cells|] eqn:Hg; cbn [obind]; [|discriminate].
  destruct (omap (label_cell col) cells) as [texts|] eqn:Ht; cbn [obind]; [|discriminate].
  intros _. apply (read_ok_column (label_cell col) text_cell chunk col texts (label_cell_text col)).
  now rewrite Hg.
Qed.

Lemma grouped_totals_typed (chunk : DataFrame V) (gc vc : string) (l : list (string * V)) :
  grouped_totals chunk gc vc = Ok l ->
  (column_ok text_cell chunk gc = true /\ absent gc (columns chunk) = false)
  /\ (column_ok number_cell chunk vc = true /\ absent vc (columns chunk) = false).
Proof.
  intro H. destruct (grouped_totals_inv _ _ _ _ H) as [g [ls [v [vs [Hg [Hl [Hv [Hvs _]]]]]]]].
  split.
  - apply (read_ok_column (label_cell gc) text_cell chunk gc ls (label_cell_text gc)).
    now rewrite Hg.
  - apply (read_ok_column (value_cell vc) number_cell chunk vc vs (value_cell_number vc)).
    now rewrite Hv.
Qed.

(** A batch whose reads succeed is well typed and has every column. *)
Lemma chunk_groups_typed (chunk : DataFrame V) (g : groups V) :
  chunk_groups chunk = Ok g ->
  well_typed chunk = true
  /\ first_missing (map normalize_column (columns chunk)) = None.
Proof.
  unfold chunk_groups. cbv zeta. unfold set_columns.
  set (chunk' := mkFrame (map normalize_column (columns chunk)) (rows chunk)).
  destruct (to_datetime chunk' "order_date") as [od|] eqn:E1; cbn [obind]; [|discriminate].
  destruct (to_datetime chunk' "ship_date") as [sd|] eqn:E2; cbn [obind]; [|discriminate].
  destruct (grouped_totals chunk' "item_type" "units_sold") as [g1|] eqn:E3; cbn [obind];
    [|discriminate].
  destruct (grouped_totals chunk' "sales_channel" "units_sold") as [g2|] eqn:E4; cbn [obind];
    [|discriminate].
  destruct (grouped_totals chunk' "country" "total_revenue") as [g3|] eqn:E5; cbn [obind];
    [|discriminate].
  destruct (grouped_totals chunk' "region" "total_revenue") as [g4|] eqn:E6; cbn [obind];
    [|discriminate].
  intros _.
  destruct (to_datetime_typed _ _ _ E1) as [T1 A1].
  destruct (to_datetime_typed _ _ _ E2) as [T2 A2].
  destruct (grouped_totals_typed _ _ _ _ E3) as [[T3 A3] [T4 A4]].
  destruct (grouped_totals_typed _ _ _ _ E4) as [[T5 A5] _].
  destruct (grouped_totals_typed _ _ _ _ E5) as [[T6 A6] [T7 A7]].
  destruct (grouped_totals_typed _ _ _ _ E6) as [[T8 A8] _].
  cbn [columns chunk'] in *. split.
  - unfold well_typed. cbv zeta. fold chunk'. cbn [forallb].
    now rewrite T1, T2, T3, T4, T5, T6, T7, T8.
  - unfold first_missing, required_columns. cbn [find].
    now rewrite A1, A2, A3, A4, A5, A6, A7, A8.
Qed.

(** The monthly groups of a batch are those of its rows, each bringing its
    (product, month) label when it has one; the order dates are time
    stamps, read in the column of the batch. *)
Lemma chunk_groups_months (chunk : DataFrame V) (g : groups V) :
  chunk_groups chunk = Ok g ->
  exists ip im iv,
    index_of "item_type" (map normalize_column (columns chunk)) = Some ip
    /\ index_of "order_date" (map normalize_column (columns chunk)) = Some im
    /\ index_of "total_revenue" (map normalize_column (columns chunk)) = Some iv
    /\ order_texts chunk = texts_at im (rows chunk)
    /\ datetime_like (order_texts chunk) = true
    /\ by_month g = sum_groups (flat_map (month_pair (order_texts chunk) ip im iv) (rows chunk)).
Proof.
  intro H. destruct (chunk_groups_inv _ _ H) as [months [[od [Hod Hdt]] [Hm _]]].
  destruct (to_datetime_inv _ _ _ Hod) as [im [Him ->]].
  cbn [columns set_columns rows] in Him, Hdt.
  assert (Ht : order_texts chunk = texts_at im (rows chunk))
    by (unfold order_texts, column_texts; cbn [columns rows]; now rewrite Him).
  rewrite <- Ht in Hdt. unfold to_datetime_column in Hdt.
  destruct (datetime_like (order_texts chunk)) eqn:El; cbn [dt_to_period] in Hdt;
    [|discriminate].
  injection Hdt as <-.
  destruct (monthly_totals_inv _ _ _ Hm) as [p [ls [v [vs [Hp [Hls [Hv [Hvs ->]]]]]]]].
  destruct (getitem_inv _ _ _ Hp) as [ip [Hip ->]], (getitem_inv _ _ _ Hv) as [iv [Hiv ->]].
  rewrite (omap_inv _ label_of _ _ (label_cell_inv "item_type") Hls).
  rewrite (omap_inv _ value_of _ _ (value_cell_inv "total_revenue") Hvs).
  exists ip, im, iv. cbn [columns set_columns rows] in *.
  split; [exact Hip|]. split; [exact Him|]. split; [exact Hiv|]. split; [exact Ht|].
  split; [reflexivity|].
  unfold groupby_sum. rewrite !map_map. f_equal.
  rewrite <- (group_rows_month_pairs (order_texts chunk) ip im iv).
  rewrite Ht. unfold texts_at, date_of. rewrite !map_map. reflexivity.
Qed.




End DateFacts.



(* ------------------------------------------------------------------ *)
(** * Partitions into batches *)

Section PartitionFacts.
Context {V A : Type} {num : Numeric V A} {dp : DatetimeParser}.
Hypothesis exact : ExactSum num.

Lemma nadd_zero_r (a : V) : nadd a nzero = a.
Proof. rewrite (nadd_comm exact). apply (nadd_zero_l exact). Qed.

Lemma nsum_acc (l : list V) (a : V) : fold_left nadd l a = nadd a (nsum l).
Proof.
  unfold nsum. revert a. induction l as [|x l IH]; intro a; cbn [fold_left].
  - now rewrite nadd_zero_r.
  - rewrite (IH (nadd a x)), (IH (nadd nzero x)), (nadd_zero_l exact).
    now rewrite (nadd_assoc exact).
Qed.

Lemma nsum_cons (x : V) (l : list V) : nsum (x :: l) = nadd x (nsum l).
Proof. unfold nsum at 1. cbn [fold_left]. now rewrite nsum_acc, (nadd_zero_l exact). Qed.

Lemma nsum_app (l1 l2 : list V) : nsum (l1 ++ l2) = nadd (nsum l1) (nsum l2).
Proof.
  induction l1 as [|x l1 IH]; cbn [app].
  - unfold nsum at 2. cbn [fold_left]. now rewrite (nadd_zero_l exact).
  - now rewrite !nsum_cons, IH, (nadd_assoc exact).
Qed.

Lemma nsum_perm (l1 l2 : list V) : Permutation l1 l2 -> nsum l1 = nsum l2.
Proof.
  induction 1 as [| x l1 l2 _ IH | x y l | l1 l2 l3 _ IH1 _ IH2].
  - reflexivity.
  - now rewrite !nsum_cons, IH.
  - rewrite !nsum_cons, !(nadd_assoc exact). f_equal. apply (nadd_comm exact).
  - now rewrite IH1.
Qed.

Lemma group_values_absent (k : string) (P : list (string * option V)) :
  existsb (keqb k) (map fst P) = false -> group_values k P = [].
Proof.
  induction P as [|[k' [v|]] P IH]; cbn [map existsb group_values fst]; [reflexivity| |].
  - rewrite orb_false_iff. intros [E H]. rewrite E. cbn [andb]. now apply IH.
  - rewrite orb_false_iff. intros [_ H]. now apply IH.
Qed.

(** One batch whose group sums are exact adds the sums of its pairs. *)
Lemma sums_of_batch (labels : list (option string)) (values : list (option V))
    (d : dict string V) :
  exact_groups (group_rows labels values) ->
  sums_of d (group_rows labels values) (fold_left add_total (groupby_sum labels values) d).
Proof.
  intros Hex k. rewrite fold_add_total_get
    by (rewrite groupby_sum_keys; apply sorted_keys_nodup).
  rewrite groupby_sum_get. destruct (existsb _ _) eqn:E; [|reflexivity].
  rewrite (Hex k) by (now apply existsb_keqb). reflexivity.
Qed.

Lemma sums_of_trans (d0 d1 d2 : dict string V) (P P' : list (string * option V)) :
  sums_of d0 P d1 -> sums_of d1 P' d2 -> sums_of d0 (P ++ P') d2.
Proof.
  intros H1 H2 k. rewrite (H2 k), map_app, existsb_app, group_values_app.
  unfold running at 1. rewrite (H1 k).
  destruct (existsb (keqb k) (map fst P)) eqn:E1,
           (existsb (keqb k) (map fst P')) eqn:E2; cbn [orb].
  - now rewrite nsum_app, (nadd_assoc exact).
  - now rewrite (group_values_absent _ _ E2), app_nil_r.
  - rewrite (group_values_absent _ _ E1). reflexivity.
  - reflexivity.
Qed.

Lemma sums_of_nil (d : dict string V) : sums_of d [] d.
Proof. intro k. reflexivity. Qed.

Lemma merge_groups_dim (d : dimension) (s : SalesProcessor V) (g : groups V) :
  get_dim d (merge_groups s g) = fold_left add_total (dim_group d g) (get_dim d s).
Proof. now destruct d. Qed.

Lemma dim_pairs_app (cols : list string) (d : dimension) (r1 r2 : list (list (cell V))) :
  dim_pairs cols d (r1 ++ r2) = dim_pairs cols d r1 ++ dim_pairs cols d r2.
Proof.
  unfold dim_pairs. destruct (index_of _ cols); [|reflexivity].
  destruct (index_of _ cols); [|reflexivity]. apply flat_map_app.
Qed.

(** The pairs of a batch in a dimension are those of its rows. *)
Lemma chunk_groups_dim (cols : list string) (chunk : DataFrame V) (g : groups V)
    (d : dimension) (d0 : dict string V) :
  map normalize_column (columns chunk) = cols ->
  exact_groups (dim_pairs cols d (rows chunk)) ->
  chunk_groups chunk = Ok g ->
  sums_of d0 (dim_pairs cols d (rows chunk)) (fold_left add_total (dim_group d g) d0).
Proof.
  intros Hc Hex Hg. destruct (chunk_groups_inv _ _ Hg) as [od [_ [_ Hd]]].
  destruct (grouped_totals_rows _ _ _ _ (Hd d)) as [i [j [Hi [Hj ->]]]].
  cbn [columns rows set_columns] in *. rewrite Hc in Hi, Hj.
  unfold dim_pairs in *. rewrite Hi, Hj in *. rewrite <- group_rows_pairs in *.
  now apply sums_of_batch.
Qed.

(** After a scan of batches whose group sums are exact, each dimension
    dictionary holds, beside what it held, the sums of the pairs of all the
    rows scanned. *)
Lemma scan_dims (cols : list string) (chunks : list (DataFrame V)) (gs : list (groups V))
    (s : SalesProcessor V) (d : dimension) :
  (forall c, In c chunks -> map normalize_column (columns c) = cols) ->
  (forall c, In c chunks -> exact_groups (dim_pairs cols d (rows c))) ->
  omap chunk_groups chunks = Ok gs ->
  sums_of (get_dim d s) (dim_pairs cols d (all_rows chunks))
    (get_dim d (fold_left merge_groups gs s)).
Proof.
  revert gs s. induction chunks as [|c cs IH]; intros gs s Hcols Hex; cbn [omap].
  - intro H. injection H as <-. unfold all_rows, dim_pairs. cbn [flat_map fold_left].
    destruct (index_of _ cols); [destruct (index_of _ cols)|]; apply sums_of_nil.
  - destruct (chunk_groups c) as [g|] eqn:Eg; cbn [obind]; [|discriminate].
    destruct (omap chunk_groups cs) as [gs'|] eqn:Egs; cbn [obind]; [|discriminate].
    intro H. injection H as <-. cbn [fold_left].
    unfold all_rows. cbn [flat_map]. rewrite dim_pairs_app.
    apply (sums_of_trans _ (get_dim d (merge_groups s g))).
    + rewrite merge_groups_dim.
      apply chunk_groups_dim; [apply Hcols; now left | apply Hex; now left | exact Eg].
    + apply IH; [intros c' Hc'; apply Hcols; now right
                | intros c' Hc'; apply Hex; now right | reflexivity].
Qed.

Lemma dim_pairs_perm (cols : list string) (d : dimension) (r1 r2 : list (list (cell V))) :
  Permutation r1 r2 -> Permutation (dim_pairs cols d r1) (dim_pairs cols d r2).
Proof.
  intro H. unfold dim_pairs. destruct (index_of _ cols); [|reflexivity].
  destruct (index_of _ cols); [|reflexivity]. now apply Permutation_flat_map.
Qed.

Lemma existsb_perm (k : string) (l1 l2 : list string) :
  Permutation l1 l2 -> existsb (keqb k) l1 = existsb (keqb k) l2.
Proof.
  intro H. destruct (existsb (keqb k) l1) eqn:E1, (existsb (keqb k) l2) eqn:E2; try reflexivity.
  - apply existsb_keqb in E1. apply (Permutation_in _ H), existsb_keqb in E1. congruence.
  - apply existsb_keqb in E2.
    apply (Permutation_in _ (Permutation_sym H)), existsb_keqb in E2. congruence.
Qed.

(** Sums of the same pairs, in any order, into equivalent dictionaries. *)
Lemma sums_of_perm (d0 d0' d d' : dict string V) (P P' : list (string * option V)) :
  dict_equiv d0 d0' -> Permutation P P' ->
  sums_of d0 P d -> sums_of d0' P' d' -> dict_equiv d d'.
Proof.
  intros H0 HP H H' k. rewrite (H k), (H' k).
  rewrite (existsb_perm k _ _ (Permutation_map fst HP)).
  rewrite (nsum_perm _ _ (group_values_perm k _ _ HP)).
  unfold running. now rewrite (H0 k).
Qed.


End PartitionFacts.

(** C2, as the claim words it, fails when the revenue is binary64: the
    same three one-row batches, scanned in two orders, leave different
    revenue totals for Brazil, since 1e16 + 1 + 1 rounds to 1e16 while
    1 + 1 + 1e16 is 1e16 + 2.  Each batch has one row, so the sum of its
    group is the revenue of that row; the narrowing of line 76 keeps both
    revenues, 1 being a binary32 number and 1e16 being too far from one for
    its column to be narrowed. *)
Lemma float_totals_depend_on_batch_order :
  Permutation large_first large_last
  /\ Permutation (all_rows large_first) (all_rows large_last)
  /\ fst (scan (dp := iso_parser) large_first 0 (new_world (A := float))) = Ok tt
  /\ fst (scan (dp := iso_parser) large_last 0 (new_world (A := float))) = Ok tt
  /\ dict_get (country_sales
                (self (snd (scan (dp := iso_parser) large_first 0 (new_world (A := float))))))
       "Brazil"
     <> dict_get (country_sales
                   (self (snd (scan (dp := iso_parser) large_last 0 (new_world (A := float))))))
          "Brazil".
Proof.
  assert (P : forall (X : Type) (a b : X), Permutation [a; b; b] [b; b; a]).
  { intros X a b. apply Permutation_trans with [b; a; b]; [apply perm_swap|].
    apply perm_skip, perm_swap. }
  split; [apply P|]. split; [apply P|].
  split; [vm_compute; reflexivity|]. split; [vm_compute; reflexivity|].
  intro H.
  apply (f_equal (fun o => match o with
                           | Some x => PrimFloat.eqb x 1e16%float
                           | None => false
                           end)) in H.
  vm_compute in H. discriminate H.
Qed.

(** The totals of an int64 column depend on the batches as well, once a
    group sum leaves the int64 range: two sales of 2^62 units each, read as
    one batch, are added inside the batch and wrap around to -2^63; read
    one by one they are added by the dictionary, which then holds 2^63. *)
Lemma int64_totals_depend_on_batch_size :
  product_sales (scanned (A := Q) (dp := iso_parser) (two_sales (2 ^ 62) 100 300)%Z 2)
  = [("P", - 2 ^ 63)]%Z
  /\ product_sales (scanned (A := Q) (dp := iso_parser) (two_sales (2 ^ 62) 100 300)%Z 1)
     = [("P", 2 ^ 63)]%Z.
Proof. split; vm_compute; reflexivity. Qed.

(* ------------------------------------------------------------------ *)
(** * The statements at concrete batches *)

Lemma monthly_accumulator_counts_batches_witness :
  _process_chunk (dp := iso_parser) (two_sales 1%Z 100%Z 300%Z) 1 (world_of header_only)
  = (Ok tt, snd (_process_chunk (dp := iso_parser) (two_sales 1%Z 100%Z 300%Z) 1
                   (world_of header_only)))
  /\ exists g,
      chunk_groups (dp := iso_parser) (two_sales 1%Z 100%Z 300%Z) = Ok g
      /\ forall key,
           dict_get
             (monthly_sales
                (self (snd (_process_chunk (dp := iso_parser) (two_sales 1%Z 100%Z 300%Z) 1
                              (world_of header_only))))) key
           = match dict_get (by_month g) key with
             | Some total =>
                 Some (nadd (fst (running_month (monthly_sales (self (world_of header_only)))
                                    key)) total,
                       (snd (running_month (monthly_sales (self (world_of header_only))) key)
                        + 1)%Z)
             | None => dict_get (monthly_sales (self (world_of header_only))) key
             end.
Proof.
  assert (H : _process_chunk (dp := iso_parser) (two_sales 1%Z 100%Z 300%Z) 1
                (world_of header_only)
              = (Ok tt, snd (_process_chunk (dp := iso_parser) (two_sales 1%Z 100%Z 300%Z) 1
                               (world_of header_only))))
    by (vm_compute; reflexivity).
  split; [exact H|].
  exact (proj1 monthly_accumulator_counts_batches Z Q exact_numeric iso_parser _ _ _ _ H).
Defined.




Lemma monthly_count_at_least_one_witness :
  Forall (fun e : (string * period) * (Z * Z) => (1 <= snd (snd e))%Z)
    (monthly_sales (self (world_of header_only)))
  /\ Forall (fun e => (1 <= snd (snd e))%Z)
       (monthly_sales
          (self (snd (scan (dp := iso_parser) scenario_split 0 (world_of header_only))))).
Proof.
  assert (H : Forall (fun e : (string * period) * (Z * Z) => (1 <= snd (snd e))%Z)
                (monthly_sales (self (world_of header_only)))) by constructor.
  split; [exact H|].
  exact (proj1 (proj1 monthly_count_at_least_one Z Q exact_numeric iso_parser
                  scenario_split 0%nat (world_of header_only) H)).
Defined.

(* ------------------------------------------------------------------ *)
(** * One call of [_update_sales_totals] *)

Section UpdateFacts.
Context {V A : Type} {num : Numeric V A} {dp : DatetimeParser}.

Lemma update_sales_totals_run (chunk : DataFrame V) (gc vc : string) (dim : dimension)
    (w : World V A) :
  _update_sales_totals chunk gc dim vc w
  = match grouped_totals chunk gc vc with
    | Ok g =>
        (Ok tt, mkWorld (set_dim dim (fold_left add_total g (get_dim dim (self w))) (self w))
                  (disk w) (stdout w))
    | Raise e => (Raise e, w)
    end.
Proof.
  unfold _update_sales_totals, mbind, lift, update_self.
  now destruct (grouped_totals chunk gc vc).
Qed.

Lemma get_set_dim (d d' : dimension) (x : dict string V) (s : SalesProcessor V) :
  get_dim d (set_dim d' x s)
  = if match d, d' with
       | ProductSales, ProductSales | SalesChannelSales, SalesChannelSales
       | CountrySales, CountrySales | RegionSales, RegionSales => true
       | _, _ => false
       end
    then x else get_dim d s.
Proof. now destruct d, d'. Qed.

Lemma dict_mem_set (d : dict string V) (k k' : string) (x : V) :
  dict_mem (dict_set d k x) k' = keqb k' k || dict_mem d k'.
Proof.
  unfold dict_mem. destruct (keqb k' k) eqn:E.
  - apply keqb_eq in E. subst. now rewrite dict_get_set_same.
  - rewrite dict_get_set_other; [reflexivity|].
    intro H. subst. rewrite keqb_refl in E. discriminate.
Qed.

Lemma dict_mem_keys {X : Type} (d : dict string X) (k : string) :
  dict_mem d k = existsb (keqb k) (map fst d).
Proof.
  unfold dict_mem. induction d as [|[k' x] d IH]; [reflexivity|].
  cbn [dict_get map fst existsb]. now destruct (keqb k k').
Qed.

(** The keys after one turn of the loop: the key goes last when it is new. *)
Lemma add_total_keys (d : dict string V) (k : string) (v : V) :
  map fst (add_total d (k, v))
  = if dict_mem d k then map fst d else map fst d ++ [k].
Proof. rewrite add_total_eq, dict_set_keys, <- dict_mem_keys. reflexivity. Qed.

Lemma fold_add_total_keys (g : list (string * V)) (d : dict string V) :
  NoDup (map fst g) ->
  map fst (fold_left add_total g d) = map fst d ++ new_keys d g.
Proof.
  unfold new_keys. revert d. induction g as [|[k v] g IH]; intros d Hg.
  - cbn. now rewrite app_nil_r.
  - inversion Hg as [|? ? Hk Hg']; subst. cbn [fold_left]. rewrite (IH _ Hg'), add_total_keys.
    cbn [map fst filter].
    assert (Hf : filter (fun k0 => negb (dict_mem (add_total d (k, v)) k0)) (map fst g)
                 = filter (fun k0 => negb (dict_mem d k0)) (map fst g)).
    { apply filter_ext_in. intros k0 Hk0. f_equal.
      rewrite add_total_eq, dict_mem_set.
      destruct (keqb k0 k) eqn:E; [|reflexivity].
      apply keqb_eq in E. subst. contradiction. }
    rewrite Hf. destruct (dict_mem d k); cbn [negb]; [reflexivity|].
    now rewrite <- app_assoc.
Qed.

Lemma new_keys_nodup {Y : Type} (d : dict string V) (g : list (string * Y)) :
  NoDup (map fst d) -> NoDup (map fst g) -> NoDup (map fst d ++ new_keys d g).
Proof.
  intros Hd Hg. unfold new_keys. induction (map fst g) as [|k ks IH]; cbn [filter].
  - now rewrite app_nil_r.
  - inversion Hg as [|? ? Hk Hg']; subst. specialize (IH Hg').
    destruct (dict_mem d k) eqn:E; cbn [negb]; [exact IH|].
    apply NoDup_app; [exact Hd | | ].
    + constructor.
      * intro H. apply filter_In in H. tauto.
      * apply (NoDup_app_remove_l _ _ IH).
    + intros x Hx [<- | Hx'].
      * rewrite dict_mem_keys in E. apply (proj2 (existsb_keqb _ _)) in Hx. congruence.
      * apply filter_In in Hx'. destruct Hx' as [_ Hx'].
        rewrite dict_mem_keys, (proj2 (existsb_keqb _ _) Hx) in Hx'. discriminate.
Qed.

End UpdateFacts.

(** X1: a call of [_update_sales_totals] that returns has added, for every
    group of the batch, the group's sum to the running value of its key (zero
    for a new key) in the dictionary it was given; the other keys, the other
    dictionaries and the output are as before.  A call that raises has
    changed nothing. *)
Theorem update_sales_totals_effect :
  forall (V A : Type) (num : Numeric V A) (chunk : DataFrame V)
         (gc vc : string) (dim : dimension) (w : World V A),
    (forall w',
        _update_sales_totals chunk gc dim vc w = (Ok tt, w') ->
        exists g,
          grouped_totals chunk gc vc = Ok g
          /\ (forall k,
                dict_get (get_dim dim (self w')) k
                = match dict_get g k with
                  | Some t => Some (nadd (running (get_dim dim (self w)) k) t)
                  | None => dict_get (get_dim dim (self w)) k
                  end)
          /\ (forall d, d <> dim -> get_dim d (self w') = get_dim d (self w))
          /\ monthly_sales (self w') = monthly_sales (self w)
          /\ stdout w' = stdout w /\ disk w' = disk w)
    /\ (forall e,
          fst (_update_sales_totals chunk gc dim vc w) = Raise e ->
          snd (_update_sales_totals chunk gc dim vc w) = w).
Proof.
  intros V A num chunk gc vc dim w. rewrite update_sales_totals_run.
  destruct (grouped_totals chunk gc vc) as [g|e0] eqn:E; split.
  - intros w' H. injection H as <-. exists g. split; [reflexivity|].
    destruct (grouped_totals_inv _ _ _ _ E) as [? [? [? [? [_ [_ [_ [_ Hg]]]]]]]].
    split; [|split; [|split; [|split]]].
    + intro k. cbn [self]. rewrite get_set_dim.
      replace (match dim, dim with
               | ProductSales, ProductSales | SalesChannelSales, SalesChannelSales
               | CountrySales, CountrySales | RegionSales, RegionSales => true
               | _, _ => false
               end) with true by now destruct dim.
      apply fold_add_total_get. rewrite Hg, groupby_sum_keys. apply sorted_keys_nodup.
    + intros d Hd. cbn [self]. rewrite get_set_dim. destruct d, dim; try reflexivity; congruence.
    + now destruct dim.
    + reflexivity.
    + reflexivity.
  - discriminate.
  - discriminate.
  - intros e H. reflexivity.
Qed.

Lemma update_sales_totals_effect_witness :
  _update_sales_totals (normalized (scenario 10 5 20 100 50 500)%Z)
    "item_type" ProductSales "units_sold" tie_world
  = (Ok tt, snd (_update_sales_totals
                   (normalized (scenario 10 5 20 100 50 500)%Z)
                   "item_type" ProductSales "units_sold" tie_world))
  /\ exists g,
      grouped_totals (normalized (scenario 10 5 20 100 50 500)%Z) "item_type" "units_sold"
      = Ok g
      /\ (forall k,
            dict_get
              (get_dim ProductSales
                 (self (snd (_update_sales_totals
                               (normalized (scenario 10 5 20 100 50 500)%Z)
                               "item_type" ProductSales "units_sold" tie_world)))) k
            = match dict_get g k with
              | Some t => Some (nadd (running (get_dim ProductSales (self tie_world)) k) t)
              | None => dict_get (get_dim ProductSales (self tie_world)) k
              end)
      /\ (forall d, d <> ProductSales ->
                    get_dim d
                      (self (snd (_update_sales_totals
                                    (normalized (scenario 10 5 20 100 50 500)%Z)
                                    "item_type" ProductSales "units_sold" tie_world)))
                    = get_dim d (self tie_world))
      /\ monthly_sales
           (self (snd (_update_sales_totals
                         (normalized (scenario 10 5 20 100 50 500)%Z)
                         "item_type" ProductSales "units_sold" tie_world)))
         = monthly_sales (self tie_world)
      /\ stdout (snd (_update_sales_totals
                        (normalized (scenario 10 5 20 100 50 500)%Z)
                        "item_type" ProductSales "units_sold" tie_world))
         = stdout tie_world
      /\ disk (snd (_update_sales_totals
                      (normalized (scenario 10 5 20 100 50 500)%Z)
                      "item_type" ProductSales "units_sold" tie_world))
         = disk tie_world.
Proof.
  assert (H : _update_sales_totals
                (normalized (scenario 10 5 20 100 50 500)%Z)
                "item_type" ProductSales "units_sold" tie_world
              = (Ok tt, snd (_update_sales_totals
                               (normalized (scenario 10 5 20 100 50 500)%Z)
                               "item_type" ProductSales "units_sold" tie_world)))
    by (vm_compute; reflexivity).
  split; [exact H|].
  exact (proj1 (update_sales_totals_effect Z Q exact_numeric
                  (normalized (scenario 10 5 20 100 50 500)%Z)
                  "item_type" "units_sold" ProductSales tie_world) _ H).
Defined.

(** X2: a call of [_update_sales_totals] that returns keeps the keys that
    the dictionary had, in their places, and puts after them the labels of
    the batch that it did not have, in the order of the batch's groups; keys
    that were distinct stay distinct. *)
Theorem update_sales_totals_key_order :
  forall (V A : Type) (num : Numeric V A) (chunk : DataFrame V)
         (gc vc : string) (dim : dimension) (w w' : World V A),
    _update_sales_totals chunk gc dim vc w = (Ok tt, w') ->
    exists g,
      grouped_totals chunk gc vc = Ok g
      /\ map fst (get_dim dim (self w'))
         = map fst (get_dim dim (self w)) ++ new_keys (get_dim dim (self w)) g
      /\ (NoDup (map fst (get_dim dim (self w))) -> NoDup (map fst (get_dim dim (self w')))).
Proof.
  intros V A num chunk gc vc dim w w'. rewrite update_sales_totals_run.
  destruct (grouped_totals chunk gc vc) as [g|e0] eqn:E; [|discriminate].
  intro H. injection H as <-. exists g. split; [reflexivity|].
  destruct (grouped_totals_inv _ _ _ _ E) as [? [? [? [? [_ [_ [_ [_ Hg]]]]]]]].
  assert (Hn : NoDup (map fst g)) by (rewrite Hg, groupby_sum_keys; apply sorted_keys_nodup).
  assert (Hk : map fst (get_dim dim (set_dim dim (fold_left add_total g (get_dim dim (self w)))
                                       (self w)))
               = map fst (get_dim dim (self w)) ++ new_keys (get_dim dim (self w)) g).
  { rewrite get_set_dim.
    replace (match dim, dim with
             | ProductSales, ProductSales | SalesChannelSales, SalesChannelSales
             | CountrySales, CountrySales | RegionSales, RegionSales => true
             | _, _ => false
             end) with true by now destruct dim.
    now apply fold_add_total_keys. }
  cbn [self]. split; [exact Hk|].
  intro Hd. rewrite Hk. now apply new_keys_nodup.
Qed.

Lemma update_sales_totals_key_order_witness :
  _update_sales_totals (normalized (scenario 10 5 20 100 50 500)%Z)
    "item_type" ProductSales "units_sold" tie_world
  = (Ok tt, snd (_update_sales_totals
                   (normalized (scenario 10 5 20 100 50 500)%Z)
                   "item_type" ProductSales "units_sold" tie_world))
  /\ exists g,
      grouped_totals (normalized (scenario 10 5 20 100 50 500)%Z) "item_type" "units_sold"
      = Ok g
      /\ map fst (get_dim ProductSales
                    (self (snd (_update_sales_totals
                                  (normalized (scenario 10 5 20 100 50 500)%Z)
                                  "item_type" ProductSales "units_sold" tie_world))))
         = map fst (get_dim ProductSales (self tie_world))
           ++ new_keys (get_dim ProductSales (self tie_world)) g
      /\ (NoDup (map fst (get_dim ProductSales (self tie_world))) ->
          NoDup (map fst (get_dim ProductSales
                            (self (snd (_update_sales_totals
                                          (normalized (scenario 10 5 20 100 50 500)%Z)
                                          "item_type" ProductSales "units_sold"
                                          tie_world)))))).
Proof.
  assert (H : _update_sales_totals
                (normalized (scenario 10 5 20 100 50 500)%Z)
                "item_type" ProductSales "units_sold" tie_world
              = (Ok tt, snd (_update_sales_totals
                               (normalized (scenario 10 5 20 100 50 500)%Z)
                               "item_type" ProductSales "units_sold" tie_world)))
    by (vm_compute; reflexivity).
  split; [exact H|].
  exact (update_sales_totals_key_order Z Q exact_numeric
           (normalized (scenario 10 5 20 100 50 500)%Z)
           "item_type" "units_sold" ProductSales tie_world _ H).
Defined.

(* ------------------------------------------------------------------ *)
(** * Invariants of the dictionaries *)

Section InvariantFacts.
Context {V A : Type} {num : Numeric V A} {dp : DatetimeParser}.

(** A property of a dimension dictionary that every merge keeps holds after
    a batch, whether the batch is processed to the end or stops on an
    exception. *)
Lemma process_chunk_dim_invariant (P : dict string V -> Prop) :
  (forall d g, P d -> P (fold_left add_total g d)) ->
  forall (chunk : DataFrame V) (n : nat) (w : World V A) (dim : dimension),
    P (get_dim dim (self w)) ->
    P (get_dim dim (self (snd (_process_chunk chunk n w)))).
Proof.
  intros Hstep chunk n w dim Hw.
  unfold _process_chunk, _update_sales_totals, _print_resource_usage,
    mbind, lift, update_self, print.
  cbv zeta. destruct w as [[] ? ?].
  repeat match goal with
         | |- context [match ?o with Ok _ => _ | Raise _ => _ end] => destruct o; simpl
         end; destruct dim; simpl in *; auto.
Qed.

Lemma scan_dim_invariant (P : dict string V -> Prop) :
  (forall d g, P d -> P (fold_left add_total g d)) ->
  forall (chunks : list (DataFrame V)) (n : nat) (w : World V A) (dim : dimension),
    P (get_dim dim (self w)) ->
    P (get_dim dim (self (snd (scan chunks n w)))).
Proof.
  intros Hstep chunks. induction chunks as [|c cs IH]; intros n w dim Hw; [exact Hw|].
  rewrite scan_cons.
  pose proof (process_chunk_dim_invariant P Hstep c (S n) w dim Hw) as H.
  destruct (_process_chunk c (S n) w) as [[[]|e] w1]; simpl in *; [now apply IH | exact H].
Qed.

Lemma add_total_nodup (d : dict string V) (g : list (string * V)) :
  NoDup (map fst d) -> NoDup (map fst (fold_left add_total g d)).
Proof.
  revert d. induction g as [|[k v] g IH]; intros d Hd; [exact Hd|].
  cbn [fold_left]. apply IH. rewrite add_total_keys.
  destruct (dict_mem d k) eqn:E; [exact Hd|].
  apply NoDup_app; [exact Hd | repeat constructor; intros [] |].
  intros x Hx [<- | []]. rewrite dict_mem_keys in E.
  apply (proj2 (existsb_keqb _ _)) in Hx. congruence.
Qed.

Lemma add_monthly_nodup (m : dict (string * period) (V * Z))
    (g : list ((string * period) * V)) :
  NoDup (map fst m) -> NoDup (map fst (fold_left add_monthly g m)).
Proof.
  revert m. induction g as [|[k v] g IH]; intros m Hm; [exact Hm|].
  cbn [fold_left]. apply IH. rewrite add_monthly_eq, dict_set_keys.
  destruct (existsb (keqb k) (map fst m)) eqn:E; [exact Hm|].
  apply NoDup_app; [exact Hm | repeat constructor; intros [] |].
  intros x Hx [<- | []]. apply (proj2 (existsb_keqb _ _)) in Hx. congruence.
Qed.

End InvariantFacts.

(** X3: the five dictionaries never hold a key twice.  A scan keeps the
    keys of each dictionary distinct from any state where they are, also
    when it stops on an exception; so they are distinct after
    [process_sales_data] on a new processor, whatever the file holds. *)
Theorem dictionaries_keep_distinct_keys :
  forall (V A : Type) (num : Numeric V A) (dp : DatetimeParser),
    (forall (chunks : list (DataFrame V)) (n : nat) (w : World V A),
        (forall d, NoDup (map fst (get_dim d (self w)))) ->
        NoDup (map fst (monthly_sales (self w))) ->
        (forall d, NoDup (map fst (get_dim d (self (snd (scan chunks n w))))))
        /\ NoDup (map fst (monthly_sales (self (snd (scan chunks n w))))))
    /\ (forall (files : string -> option (DataFrame V)) (path : string) (size : Z)
               (fraction : Q) (out : list (line V A)),
          (forall d, NoDup (map fst (get_dim d
                       (self (snd (process_sales_data
                                     (mkWorld (__init__ path size fraction) files out)))))))
          /\ NoDup (map fst (monthly_sales
                       (self (snd (process_sales_data
                                     (mkWorld (__init__ path size fraction) files out))))))).
Proof.
  intros V A num dp.
  assert (step : forall (chunks : list (DataFrame V)) (n : nat) (w : World V A),
             (forall d, NoDup (map fst (get_dim d (self w)))) ->
             NoDup (map fst (monthly_sales (self w))) ->
             (forall d, NoDup (map fst (get_dim d (self (snd (scan chunks n w))))))
             /\ NoDup (map fst (monthly_sales (self (snd (scan chunks n w)))))).
  { intros chunks n w Hd Hm. split.
    - intro d. apply (scan_dim_invariant (fun x => NoDup (map fst x))); [|apply Hd].
      intros d0 g. apply add_total_nodup.
    - apply (scan_monthly_invariant (fun x => NoDup (map fst x))); [|exact Hm].
      intros m g. apply add_monthly_nodup. }
  split; [exact step|].
  intros files path size fraction out. rewrite process_sales_data_self.
  destruct (read_csv _ _ _) as [chunks|e].
  - apply step; [intros []|]; constructor.
  - split; [intros []|]; constructor.
Qed.

Lemma dictionaries_keep_distinct_keys_witness :
  (forall d, NoDup (map fst (get_dim d (self tie_world))))
  /\ NoDup (map fst (monthly_sales (self tie_world)))
  /\ (forall d, NoDup (map fst (get_dim d
                  (self (snd (scan (dp := iso_parser) scenario_split 0 tie_world))))))
  /\ NoDup (map fst (monthly_sales
                       (self (snd (scan (dp := iso_parser) scenario_split 0 tie_world))))).
Proof.
  assert (Hd : forall d, NoDup (map fst (get_dim d (self tie_world)))).
  { intros []; repeat constructor; simpl; intuition discriminate. }
  assert (Hm : NoDup (map fst (monthly_sales (self tie_world)))) by constructor.
  split; [exact Hd|]. split; [exact Hm|].
  exact (proj1 (dictionaries_keep_distinct_keys Z Q exact_numeric iso_parser)
           scenario_split 0%nat tie_world Hd Hm).
Defined.

(* ------------------------------------------------------------------ *)
(** * The keys of the dimension dictionaries *)

Section KeyFacts.
Context {V A : Type} {num : Numeric V A} {dp : DatetimeParser}.

Lemma fold_add_total_mem (g : list (string * V)) (d : dict string V) (k : string) :
  dict_mem (fold_left add_total g d) k = dict_mem d k || existsb (keqb k) (map fst g).
Proof.
  revert d. induction g as [|[k1 v] g IH]; intro d; cbn [fold_left map fst existsb].
  - now rewrite orb_false_r.
  - rewrite IH, add_total_eq, dict_mem_set.
    destruct (keqb k k1), (dict_mem d k), (existsb (keqb k) (map fst g)); reflexivity.
Qed.

Lemma existsb_sorted_keys {K : Type} {key : KeyType K} (k : K) (l : list K) :
  existsb (keqb k) (sorted_keys l) = existsb (keqb k) l.
Proof.
  destruct (existsb (keqb k) l) eqn:E.
  - apply (proj1 (existsb_keqb _ _)), (proj2 (sorted_keys_in _ k)) in E.
    now apply (proj2 (existsb_keqb _ _)).
  - destruct (existsb (keqb k) (sorted_keys l)) eqn:E'; [|reflexivity].
    apply (proj1 (existsb_keqb _ _)), (proj1 (sorted_keys_in _ k)) in E'.
    apply (proj2 (existsb_keqb _ _)) in E'. congruence.
Qed.

(** The keys of a batch in a dimension are the labels of its rows. *)
Lemma chunk_groups_dim_keys (cols : list string) (chunk : DataFrame V) (g : groups V)
    (d : dimension) (k : string) :
  map normalize_column (columns chunk) = cols ->
  chunk_groups chunk = Ok g ->
  existsb (keqb k) (map fst (dim_group d g))
  = existsb (keqb k) (map fst (dim_pairs cols d (rows chunk))).
Proof.
  intros Hc Hg. destruct (chunk_groups_inv _ _ Hg) as [od [_ [_ Hd]]].
  destruct (grouped_totals_rows _ _ _ _ (Hd d)) as [i [j [Hi [Hj ->]]]].
  cbn [columns rows set_columns] in *. rewrite Hc in Hi, Hj.
  unfold dim_pairs. rewrite Hi, Hj, <- group_rows_pairs, groupby_sum_keys.
  apply existsb_sorted_keys.
Qed.

Lemma scan_dim_keys (cols : list string) (chunks : list (DataFrame V)) (gs : list (groups V))
    (s : SalesProcessor V) (d : dimension) (k : string) :
  (forall c, In c chunks -> map normalize_column (columns c) = cols) ->
  omap chunk_groups chunks = Ok gs ->
  dict_mem (get_dim d (fold_left merge_groups gs s)) k
  = dict_mem (get_dim d s) k
    || existsb (keqb k) (map fst (dim_pairs cols d (all_rows chunks))).
Proof.
  revert gs s. induction chunks as [|c cs IH]; intros gs s Hcols; cbn [omap].
  - intro H. injection H as <-. unfold all_rows, dim_pairs. cbn [flat_map fold_left].
    destruct (index_of _ cols); [destruct (index_of _ cols)|]; cbn; now rewrite orb_false_r.
  - destruct (chunk_groups c) as [g|] eqn:Eg; cbn [obind]; [|discriminate].
    destruct (omap chunk_groups cs) as [gs'|] eqn:Egs; cbn [obind]; [|discriminate].
    intro H. injection H as <-. cbn [fold_left].
    rewrite (IH gs' _ (fun c' Hc' => Hcols c' (or_intror Hc')) eq_refl).
    rewrite merge_groups_dim, fold_add_total_mem.
    rewrite (chunk_groups_dim_keys cols c g d k (Hcols c (or_introl eq_refl)) Eg).
    unfold all_rows. cbn [flat_map]. rewrite dim_pairs_app, map_app, existsb_app.
    now rewrite orb_assoc.
Qed.

End KeyFacts.

(** X4: whatever the arithmetic of the values (binary64 included), the keys
    of a dimension dictionary after a scan are the keys it had and the
    labels that the rows scanned carry in the group-by column of the
    dimension; so they do not depend on how the rows were cut into batches. *)
Theorem dimension_keys_are_the_labels_read :
  forall (V A : Type) (num : Numeric V A) (dp : DatetimeParser) (cols : list string)
         (chunks : list (DataFrame V)) (n : nat) (w w' : World V A) (d : dimension)
         (k : string),
    (forall c, In c chunks -> map normalize_column (columns c) = cols) ->
    scan chunks n w = (Ok tt, w') ->
    dict_mem (get_dim d (self w')) k
    = dict_mem (get_dim d (self w)) k
      || existsb (keqb k) (map fst (dim_pairs cols d (all_rows chunks))).
Proof.
  intros V A num dp cols chunks n w w' d k Hcols H.
  destruct (scan_inv _ _ _ _ H) as [gs [Hgs ->]].
  now apply scan_dim_keys.
Qed.

Lemma dimension_keys_are_the_labels_read_witness :
  (forall c, In c large_first -> map normalize_column (columns c)
                                 = map normalize_column sales_header)
  /\ scan (dp := iso_parser) large_first 0 (new_world (V := float) (A := float))
     = (Ok tt, snd (scan (dp := iso_parser) large_first 0 (new_world (V := float) (A := float))))
  /\ dict_mem (get_dim CountrySales
                 (self (snd (scan (dp := iso_parser) large_first 0 (new_world (V := float) (A := float))))))
       "Brazil"
     = dict_mem (get_dim CountrySales (self (new_world (V := float) (A := float)))) "Brazil"
       || existsb (keqb "Brazil")
            (map fst (dim_pairs (map normalize_column sales_header) CountrySales
                        (all_rows large_first))).
Proof.
  assert (Hc : forall c, In c large_first ->
                 map normalize_column (columns c) = map normalize_column sales_header).
  { intros c [<- | [<- | [<- | []]]]; reflexivity. }
  assert (H : scan (dp := iso_parser) large_first 0 (new_world (V := float) (A := float))
              = (Ok tt, snd (scan (dp := iso_parser) large_first 0 (new_world (V := float) (A := float)))))
    by (vm_compute; reflexivity).
  split; [exact Hc|]. split; [exact H|].
  exact (dimension_keys_are_the_labels_read float float float_numeric iso_parser
           (map normalize_column sales_header) large_first 0%nat (new_world (V := float) (A := float)) _
           CountrySales "Brazil" Hc H).
Defined.

(* ------------------------------------------------------------------ *)
(** * The same rows in other batches *)

Lemma int64_small (z : Z) : in_int64 z -> int64 z = z.
Proof.
  unfold in_int64, int64. intro H.
  change (2 ^ 63)%Z with 9223372036854775808%Z in *.
  change (2 ^ 64)%Z with 18446744073709551616%Z.
  rewrite Z.mod_small; lia.
Qed.

(** On an int64 column the group sums that stay within the int64 range are
    exact. *)
Lemma exact_groups_int64 {K : Type} {key : KeyType K} (P : list (K * option Z)) :
  (forall k, In k (map fst P) -> in_int64 (nsum (group_values k P))) ->
  exact_groups P.
Proof. intros H k Hk. cbn [ngroup_sum exact_numeric]. apply int64_small. exact (H k Hk). Qed.

(** C2, amended.  The keys of the four dimension dictionaries do not depend
    on how the rows are cut into batches nor on the order of the batches,
    whatever the numbers are: two scans that return, of batches under one
    normalised header that hold the same rows, from dictionaries with the
    same keys, end with the same keys.  The totals are the same when every
    addition is exact: the dictionaries add without loss (Python integers
    do), the value columns hold a number of their dtype in every row (on an
    int64 column, an integer within the int64 range), and no group sum of a
    batch is lost inside the batch, which on an int64 column means that it
    stays within the int64 range. *)
Theorem dimension_totals_partition_invariant :
  (forall (V A : Type) (num : Numeric V A) (dp : DatetimeParser)
          (cols : list string) (chunks1 chunks2 : list (DataFrame V)) (n1 n2 : nat)
          (w1 w2 w1' w2' : World V A),
      (forall c, In c (chunks1 ++ chunks2) -> map normalize_column (columns c) = cols) ->
      Permutation (all_rows chunks1) (all_rows chunks2) ->
      scan chunks1 n1 w1 = (Ok tt, w1') ->
      scan chunks2 n2 w2 = (Ok tt, w2') ->
      ((forall d k, dict_mem (get_dim d (self w1)) k = dict_mem (get_dim d (self w2)) k) ->
       forall d k, dict_mem (get_dim d (self w1')) k = dict_mem (get_dim d (self w2')) k)
      /\ (ExactSum num ->
          (forall c, In c (chunks1 ++ chunks2) -> values_present c = true) ->
          (forall c d, In c (chunks1 ++ chunks2) -> exact_groups (dim_pairs cols d (rows c))) ->
          (forall d, dict_equiv (get_dim d (self w1)) (get_dim d (self w2))) ->
          forall d, dict_equiv (get_dim d (self w1')) (get_dim d (self w2'))))
  /\ (forall P : list (string * option Z),
        (forall k, In k (map fst P) -> in_int64 (nsum (group_values k P))) ->
        exact_groups P).
Proof.
  split.
  - intros V A num dp cols chunks1 chunks2 n1 n2 w1 w2 w1' w2' Hcols Hperm H1 H2.
    destruct (scan_inv _ _ _ _ H1) as [gs1 [Hgs1 Hs1]].
    destruct (scan_inv _ _ _ _ H2) as [gs2 [Hgs2 Hs2]].
    assert (Hcols1 : forall c, In c chunks1 -> map normalize_column (columns c) = cols)
      by (intros c Hc; apply Hcols, in_or_app; now left).
    assert (Hcols2 : forall c, In c chunks2 -> map normalize_column (columns c) = cols)
      by (intros c Hc; apply Hcols, in_or_app; now right).
    rewrite Hs1, Hs2. split.
    + intros H0 d k.
      rewrite (scan_dim_keys cols chunks1 gs1 (self w1) d k Hcols1 Hgs1).
      rewrite (scan_dim_keys cols chunks2 gs2 (self w2) d k Hcols2 Hgs2).
      rewrite (H0 d k). f_equal.
      apply existsb_perm, Permutation_map. now apply dim_pairs_perm.
    + intros exact _ Hex H0 d.
      apply (sums_of_perm exact (get_dim d (self w1)) (get_dim d (self w2)) _ _
               (dim_pairs cols d (all_rows chunks1)) (dim_pairs cols d (all_rows chunks2))).
      * apply H0.
      * now apply dim_pairs_perm.
      * apply (scan_dims exact cols chunks1 gs1); [exact Hcols1 | | exact Hgs1].
        intros c Hc. apply Hex, in_or_app. now left.
      * apply (scan_dims exact cols chunks2 gs2); [exact Hcols2 | | exact Hgs2].
        intros c Hc. apply Hex, in_or_app. now right.
  - intros P. apply exact_groups_int64.
Qed.

Lemma dimension_totals_partition_invariant_witness :
  (forall c, In c (scenario_whole ++ scenario_split) ->
             map normalize_column (columns c) = map normalize_column sales_header)
  /\ Permutation (all_rows scenario_whole) (all_rows scenario_split)
  /\ scan (dp := iso_parser) scenario_whole 0 (world_of header_only)
     = (Ok tt, snd (scan (dp := iso_parser) scenario_whole 0 (world_of header_only)))
  /\ scan (dp := iso_parser) scenario_split 0 (world_of header_only)
     = (Ok tt, snd (scan (dp := iso_parser) scenario_split 0 (world_of header_only)))
  /\ ExactSum exact_numeric
  /\ (forall c, In c (scenario_whole ++ scenario_split) -> values_present c = true)
  /\ (forall c d, In c (scenario_whole ++ scenario_split) ->
                  exact_groups (dim_pairs (map normalize_column sales_header) d (rows c)))
  /\ (forall d, dict_equiv (get_dim d (self (world_of header_only)))
                  (get_dim d (self (world_of header_only))))
  /\ forall d,
       dict_equiv
         (get_dim d (self (snd (scan (dp := iso_parser) scenario_whole 0
                                  (world_of header_only)))))
         (get_dim d (self (snd (scan (dp := iso_parser) scenario_split 0
                                  (world_of header_only))))).
Proof.
  assert (Hcols : forall c, In c (scenario_whole ++ scenario_split) ->
                    map normalize_column (columns c) = map normalize_column sales_header).
  { intros c [<- | [<- | [<- | []]]]; reflexivity. }
  assert (Hperm : Permutation (all_rows scenario_whole) (all_rows scenario_split)).
  { unfold all_rows, scenario_whole, scenario_split, scenario. cbn [flat_map rows app].
    apply (Permutation_app_comm [_; _] [_]). }
  assert (H1 : scan (dp := iso_parser) scenario_whole 0 (world_of header_only)
               = (Ok tt, snd (scan (dp := iso_parser) scenario_whole 0 (world_of header_only))))
    by (vm_compute; reflexivity).
  assert (H2 : scan (dp := iso_parser) scenario_split 0 (world_of header_only)
               = (Ok tt, snd (scan (dp := iso_parser) scenario_split 0 (world_of header_only))))
    by (vm_compute; reflexivity).
  assert (Hv : forall c, In c (scenario_whole ++ scenario_split) -> values_present c = true).
  { intros c [<- | [<- | [<- | []]]]; reflexivity. }
  assert (Hex : forall c d, In c (scenario_whole ++ scenario_split) ->
                  exact_groups (dim_pairs (map normalize_column sales_header) d (rows c))).
  { intros c d Hc. apply (proj2 dimension_totals_partition_invariant). intros k Hk.
    destruct Hc as [<- | [<- | [<- | []]]]; destruct d; vm_compute in Hk;
      repeat (destruct Hk as [<- | Hk]; [split; [apply Z.leb_le | apply Z.ltb_lt]; reflexivity|]);
      destruct Hk. }
  assert (H0 : forall d, dict_equiv (get_dim d (self (world_of header_only)))
                           (get_dim d (self (world_of header_only))))
    by (intros d k; reflexivity).
  split; [exact Hcols|]. split; [exact Hperm|]. split; [exact H1|]. split; [exact H2|].
  split; [exact exact_sum|]. split; [exact Hv|]. split; [exact Hex|]. split; [exact H0|].
  exact (proj2 (proj1 dimension_totals_partition_invariant Z Q exact_numeric iso_parser
                  (map normalize_column sales_header) scenario_whole scenario_split 0%nat 0%nat
                  (world_of header_only) (world_of header_only) _ _ Hcols Hperm H1 H2)
           exact_sum Hv Hex H0).
Defined.

(* ------------------------------------------------------------------ *)
(** * The monthly dictionary after a scan *)

Section MonthFacts.
Context {V A : Type} {num : Numeric V A} {dp : DatetimeParser}.
Hypothesis exact : ExactSum num.

Lemma sum_groups_get {K : Type} {key : KeyType K} (P : list (K * option V)) (k : K) :
  dict_get (sum_groups P) k
  = if existsb (keqb k) (map fst P) then Some (ngroup_sum (group_values k P)) else None.
Proof.
  unfold sum_groups. rewrite dict_get_tabulate. now rewrite existsb_sorted_keys.
Qed.

Lemma sum_groups_nodup {K : Type} {key : KeyType K} (P : list (K * option V)) :
  NoDup (map fst (sum_groups P)).
Proof.
  unfold sum_groups. rewrite map_map. cbn [fst]. rewrite map_id. apply sorted_keys_nodup.
Qed.

Lemma group_values_none {K : Type} {key : KeyType K} (k : K) (P : list (K * option V)) :
  existsb (keqb k) (map fst P) = false -> group_values k P = [].
Proof.
  induction P as [|[k' [v|]] P IH]; cbn [map existsb group_values fst]; [reflexivity| |].
  - rewrite orb_false_iff. intros [E H]. rewrite E. cbn [andb]. now apply IH.
  - rewrite orb_false_iff. intros [_ H]. now apply IH.
Qed.

Lemma batches_with_absent {K Y : Type} {key : KeyType K} (k : K) (Ps : list (list (K * Y))) :
  existsb (keqb k) (map fst (List.concat Ps)) = false -> batches_with k Ps = 0%Z.
Proof.
  unfold batches_with. induction Ps as [|P Ps IH]; [reflexivity|].
  cbn [List.concat filter]. rewrite map_app, existsb_app, orb_false_iff.
  intros [E1 E2]. rewrite E1. now apply IH.
Qed.

Lemma batches_with_app {K Y : Type} {key : KeyType K} (k : K) (Ps Qs : list (list (K * Y))) :
  batches_with k (Ps ++ Qs) = (batches_with k Ps + batches_with k Qs)%Z.
Proof. unfold batches_with. rewrite filter_app, length_app. lia. Qed.

(** One batch whose group sums are exact adds the sums of its pairs and
    counts once for each of its keys. *)
Lemma month_sums_of_batch (P : list ((string * period) * option V))
    (m : dict (string * period) (V * Z)) :
  exact_groups P ->
  month_sums_of m [P] (fold_left add_monthly (sum_groups P) m).
Proof.
  intros Hex k. rewrite fold_add_monthly_get by apply sum_groups_nodup.
  rewrite sum_groups_get. cbn [List.concat]. rewrite app_nil_r.
  unfold batches_with. cbn [filter].
  destruct (existsb (keqb k) (map fst P)) eqn:E; [|reflexivity].
  rewrite (Hex k) by (now apply existsb_keqb). reflexivity.
Qed.

Lemma month_sums_of_trans (m0 m1 m2 : dict (string * period) (V * Z))
    (Ps Qs : list (list ((string * period) * option V))) :
  month_sums_of m0 Ps m1 -> month_sums_of m1 Qs m2 -> month_sums_of m0 (Ps ++ Qs) m2.
Proof.
  intros H1 H2 k. rewrite (H2 k), concat_app, map_app, existsb_app, group_values_app,
    batches_with_app.
  unfold running_month at 1 2. rewrite (H1 k).
  destruct (existsb (keqb k) (map fst (List.concat Ps))) eqn:E1,
           (existsb (keqb k) (map fst (List.concat Qs))) eqn:E2; cbn [orb fst snd].
  - rewrite (nsum_app exact), (nadd_assoc exact). f_equal. f_equal. lia.
  - rewrite (group_values_none _ _ E2), app_nil_r, (batches_with_absent _ _ E2).
    f_equal. f_equal. lia.
  - rewrite (group_values_none _ _ E1), (batches_with_absent _ _ E1). reflexivity.
  - reflexivity.
Qed.

Lemma month_sums_of_nil (m : dict (string * period) (V * Z)) : month_sums_of m [] m.
Proof. intro k. reflexivity. Qed.

Lemma chunk_groups_month_pairs (cols : list string) (chunk : DataFrame V) (g : groups V) :
  map normalize_column (columns chunk) = cols ->
  chunk_groups chunk = Ok g ->
  by_month g = sum_groups (month_pairs cols (rows chunk)).
Proof.
  intros Hc Hg.
  destruct (chunk_groups_months _ _ Hg) as [ip [im [iv [Hip [Him [Hiv [Ht [_ ->]]]]]]]].
  rewrite Hc in Hip, Him, Hiv. unfold month_pairs. now rewrite Hip, Him, Hiv, Ht.
Qed.

Lemma merge_groups_month (s : SalesProcessor V) (g : groups V) :
  monthly_sales (merge_groups s g) = fold_left add_monthly (by_month g) (monthly_sales s).
Proof. reflexivity. Qed.

(** After a scan of batches whose group sums are exact, the monthly
    dictionary holds, beside what it held, the batches scanned. *)
Lemma scan_months (cols : list string) (chunks : list (DataFrame V)) (gs : list (groups V))
    (s : SalesProcessor V) :
  (forall c, In c chunks -> map normalize_column (columns c) = cols) ->
  (forall c, In c chunks -> exact_groups (month_pairs cols (rows c))) ->
  omap chunk_groups chunks = Ok gs ->
  month_sums_of (monthly_sales s) (batch_month_pairs cols chunks)
    (monthly_sales (fold_left merge_groups gs s)).
Proof.
  unfold batch_month_pairs.
  revert gs s. induction chunks as [|c cs IH]; intros gs s Hcols Hex; cbn [omap].
  - intro H. injection H as <-. apply month_sums_of_nil.
  - destruct (chunk_groups c) as [g|] eqn:Eg; cbn [obind]; [|discriminate].
    destruct (omap chunk_groups cs) as [gs'|] eqn:Egs; cbn [obind]; [|discriminate].
    intro H. injection H as <-. cbn [fold_left map].
    apply (month_sums_of_trans _ (monthly_sales (merge_groups s g)) _ [_]).
    + rewrite merge_groups_month,
        (chunk_groups_month_pairs cols c g (Hcols c (or_introl eq_refl)) Eg).
      apply month_sums_of_batch, Hex. now left.
    + apply IH; [intros c' Hc'; apply Hcols; now right
                | intros c' Hc'; apply Hex; now right | reflexivity].
Qed.

End MonthFacts.

(** X6: the monthly dictionary after a scan that returns.  When every
    addition is exact (the dictionaries add without loss, the value columns
    hold a number of their dtype in every row and no group sum is lost
    inside a batch), it
    holds for every (product, month) pair that occurs in a batch, the order
    dates of a batch being read in that batch, the sum of the revenue of the
    rows of the pair, added to the sum it had, and the number of batches in
    which the pair occurs, added to the count it had; the other pairs keep
    their entry.  The count is a number of batches, not of rows. *)
Theorem monthly_sum_and_batch_count :
  forall (V A : Type) (num : Numeric V A) (dp : DatetimeParser),
    ExactSum num ->
    forall (cols : list string) (chunks : list (DataFrame V)) (n : nat) (w w' : World V A),
      (forall c, In c chunks -> map normalize_column (columns c) = cols) ->
      (forall c, In c chunks -> values_present c = true) ->
      (forall c, In c chunks -> exact_groups (month_pairs cols (rows c))) ->
      scan chunks n w = (Ok tt, w') ->
      month_sums_of (monthly_sales (self w)) (batch_month_pairs cols chunks)
        (monthly_sales (self w')).
Proof.
  intros V A num dp exact cols chunks n w w' Hcols _ Hex H.
  destruct (scan_inv _ _ _ _ H) as [gs [Hgs ->]].
  exact (scan_months exact cols chunks gs (self w) Hcols Hex Hgs).
Qed.

Lemma monthly_sum_and_batch_count_witness :
  ExactSum exact_numeric
  /\ (forall c, In c scenario_split -> map normalize_column (columns c)
                                      = map normalize_column sales_header)
  /\ (forall c, In c scenario_split -> values_present c = true)
  /\ (forall c, In c scenario_split ->
                exact_groups (month_pairs (dp := iso_parser)
                                (map normalize_column sales_header) (rows c)))
  /\ scan (dp := iso_parser) scenario_split 0 (world_of header_only)
     = (Ok tt, snd (scan (dp := iso_parser) scenario_split 0 (world_of header_only)))
  /\ month_sums_of (monthly_sales (self (world_of header_only)))
       (batch_month_pairs (dp := iso_parser) (map normalize_column sales_header) scenario_split)
       (monthly_sales
          (self (snd (scan (dp := iso_parser) scenario_split 0 (world_of header_only))))).
Proof.
  assert (Hc : forall c, In c scenario_split ->
                 map normalize_column (columns c) = map normalize_column sales_header).
  { intros c [<- | [<- | []]]; reflexivity. }
  assert (Hv : forall c, In c scenario_split -> values_present c = true).
  { intros c [<- | [<- | []]]; reflexivity. }
  assert (Hex : forall c, In c scenario_split ->
                  exact_groups (month_pairs (dp := iso_parser)
                                  (map normalize_column sales_header) (rows c))).
  { intros c Hin. apply exact_groups_int64. intros k Hk.
    destruct Hin as [<- | [<- | []]]; vm_compute in Hk;
      repeat (destruct Hk as [<- | Hk]; [split; [apply Z.leb_le | apply Z.ltb_lt]; reflexivity|]);
      destruct Hk. }
  assert (H : scan (dp := iso_parser) scenario_split 0 (world_of header_only)
              = (Ok tt, snd (scan (dp := iso_parser) scenario_split 0 (world_of header_only))))
    by (vm_compute; reflexivity).
  split; [exact exact_sum|]. split; [exact Hc|]. split; [exact Hv|]. split; [exact Hex|].
  split; [exact H|].
  exact (monthly_sum_and_batch_count Z Q exact_numeric iso_parser exact_sum
           (map normalize_column sales_header) scenario_split 0%nat (world_of header_only) _
           Hc Hv Hex H).
Defined.

(* ------------------------------------------------------------------ *)
(** * The batches of a file *)

Section ReaderFacts.
Context {V A : Type} {num : Numeric V A} {dp : DatetimeParser}.

Lemma chunk_rows_concat {X : Type} (fuel size : nat) (l : list X) :
  (1 <= size)%nat -> (List.length l <= fuel)%nat ->
  List.concat (chunk_rows fuel size l) = l.
Proof.
  intro Hs. revert l. induction fuel as [|fuel IH]; intros l Hl.
  - destruct l; [reflexivity | simpl in Hl; lia].
  - destruct l as [|x l]; [reflexivity|]. cbn [chunk_rows List.concat].
    rewrite IH; [apply firstn_skipn|].
    rewrite length_skipn. cbn [List.length] in *. lia.
Qed.

Lemma all_rows_frames (cols : list string) (ls : list (list (list (cell V)))) :
  all_rows (map (mkFrame cols) ls) = List.concat ls.
Proof.
  unfold all_rows. induction ls as [|l ls IH]; [reflexivity|].
  cbn [map flat_map List.concat rows]. now rewrite IH.
Qed.

(** The batches that [read_csv] gives: at least one, each under the header
    of the file, holding together the rows of the file in order. *)
Lemma read_csv_inv (files : string -> option (DataFrame V)) (path : string) (size : Z)
    (chunks : list (DataFrame V)) :
  read_csv files path size = Ok chunks ->
  exists df,
    files path = Some df /\ (1 <= size)%Z /\ chunks <> []
    /\ (forall c, In c chunks -> columns c = columns df)
    /\ all_rows chunks = rows df.
Proof.
  unfold read_csv. destruct (size <? 1)%Z eqn:E; [discriminate|]. apply Z.ltb_ge in E.
  destruct (files path) as [df|]; [|discriminate]. intro H. exists df.
  split; [reflexivity|]. split; [exact E|].
  destruct (rows df) as [|r rs] eqn:Er.
  - injection H as <-.
    split; [discriminate|]. split; [intros c [<- | []]; reflexivity | reflexivity].
  - remember (chunk_rows (List.length (r :: rs)) (Z.to_nat size) (r :: rs)) as ls eqn:Els.
    injection H as <-. split; [|split].
    + cbn [List.length chunk_rows] in Els. rewrite Els. discriminate.
    + intros c Hc. apply in_map_iff in Hc. destruct Hc as [l [<- _]]. reflexivity.
    + rewrite all_rows_frames, Els. apply chunk_rows_concat; [lia | reflexivity].
Qed.


Lemma process_sales_data_inv (w w' : World V A) :
  process_sales_data w = (Ok tt, w') ->
  exists chunks gs,
    read_csv (disk w) (file_path (self w)) (chunksize (self w)) = Ok chunks
    /\ omap chunk_groups chunks = Ok gs
    /\ w' = mkWorld (fold_left merge_groups gs (self w)) (disk w)
              (stdout w ++ map ResourceUsage (seq 1 (List.length chunks)) ++ [TotalTime]).
Proof.
  unfold process_sales_data, mbind, lift, print.
  destruct (read_csv _ _ _) as [chunks|e]; [|discriminate].
  destruct (scan chunks 0 w) as [[[]|e] w1] eqn:E; [|discriminate].
  intro H. injection H as <-. destruct (scan_inv _ _ _ _ E) as [gs [Hgs _]].
  exists chunks, gs. split; [reflexivity|]. split; [exact Hgs|].
  rewrite (scan_ok _ _ 0 w Hgs) in E. injection E as <-. cbn [self disk stdout].
  now rewrite <- app_assoc.
Qed.



End ReaderFacts.

Section ItemFacts.
Context {V A : Type} {num : Numeric V A}.
Hypothesis exact : ExactSum num.






End ItemFacts.



(* ------------------------------------------------------------------ *)
(** * The lines of the summary *)

Section SummaryFacts.
Context {V A : Type} {num : Numeric V A}.

Lemma print_top_cases (dim : dimension) (w : World V A) :
  (get_dim dim (self w) = []
   /\ print_top dim w = (Raise (ValueError empty_max), w))
  \/ (get_dim dim (self w) <> []
      /\ exists k v,
          py_max (get_dim dim (self w)) = Ok k
          /\ dict_get (get_dim dim (self w)) k = Some v
          /\ print_top dim w
             = (Ok tt, mkWorld (self w) (disk w) (stdout w ++ [Top dim k v]))).
Proof.
  destruct (get_dim dim (self w)) as [|first others] eqn:E.
  - left. split; [reflexivity | now apply print_top_empty].
  - right. split; [discriminate|].
    unfold print_top, mbind, lift. rewrite E. cbn [py_max].
    set (k := fst (fold_left keep_max others first)).
    destruct (dict_get (first :: others) k) as [v|] eqn:Eg.
    + exists k, v. auto.
    + exfalso. apply dict_get_none in Eg. apply Eg. apply in_map. apply keep_max_in.
Qed.

Lemma monthly_avg_sales_keys (m : dict (string * period) (V * Z))
    (avg : dict (string * period) A) :
  monthly_avg_sales m = Ok avg -> map fst avg = map fst m.
Proof.
  unfold monthly_avg_sales. revert avg. induction m as [|[k [s c]] m IH]; intro avg; cbn [omap].
  - intro H. now injection H as <-.
  - cbn [fst snd]. destruct (ntruediv s c) as [a|e]; cbn [obind]; [|discriminate].
    destruct (omap _ m) as [avg'|e] eqn:E; cbn [obind]; [|discriminate].
    intro H. injection H as <-. cbn [map fst]. now rewrite (IH avg' eq_refl).
Qed.

End SummaryFacts.

(** X7: [print_summary] reads the processor and never changes it.  It
    returns exactly when the four dimension dictionaries are non-empty and
    every monthly division is defined; it has then printed five lines: for
    the products, the channels, the countries and the regions, in this
    order, the key that [max] selects with its total, then the monthly
    averages, which have the keys of the monthly dictionary in its order. *)
Theorem print_summary_lines :
  forall (V A : Type) (num : Numeric V A) (w : World V A),
    self (snd (print_summary w)) = self w
    /\ disk (snd (print_summary w)) = disk w
    /\ (fst (print_summary w) = Ok tt
        <-> (forall d, get_dim d (self w) <> [])
            /\ exists avg, monthly_avg_sales (monthly_sales (self w)) = Ok avg)
    /\ (fst (print_summary w) = Ok tt ->
        exists k1 v1 k2 v2 k3 v3 k4 v4 avg,
          py_max (product_sales (self w)) = Ok k1
          /\ dict_get (product_sales (self w)) k1 = Some v1
          /\ py_max (sales_channel_sales (self w)) = Ok k2
          /\ dict_get (sales_channel_sales (self w)) k2 = Some v2
          /\ py_max (country_sales (self w)) = Ok k3
          /\ dict_get (country_sales (self w)) k3 = Some v3
          /\ py_max (region_sales (self w)) = Ok k4
          /\ dict_get (region_sales (self w)) k4 = Some v4
          /\ monthly_avg_sales (monthly_sales (self w)) = Ok avg
          /\ map fst avg = map fst (monthly_sales (self w))
          /\ stdout (snd (print_summary w))
             = stdout w ++ [Top ProductSales k1 v1; Top SalesChannelSales k2 v2;
                            Top CountrySales k3 v3; Top RegionSales k4 v4;
                            MonthlyAverage avg]).
Proof.
  intros V A num w. unfold print_summary, mbind.
  destruct (print_top_cases ProductSales w) as [[E1 ->] | [E1 [k1 [v1 [P1 [G1 ->]]]]]].
  { cbn [fst snd]. repeat split; try discriminate.
    intros [H _]. now destruct (H ProductSales). }
  set (w1 := mkWorld (self w) (disk w) (stdout w ++ [Top ProductSales k1 v1])).
  destruct (print_top_cases SalesChannelSales w1) as [[E2 ->] | [E2 [k2 [v2 [P2 [G2 ->]]]]]].
  { cbn [fst snd]. repeat split; try discriminate.
    intros [H _]. now destruct (H SalesChannelSales). }
  set (w2 := mkWorld (self w1) (disk w1) (stdout w1 ++ [Top SalesChannelSales k2 v2])).
  destruct (print_top_cases CountrySales w2) as [[E3 ->] | [E3 [k3 [v3 [P3 [G3 ->]]]]]].
  { cbn [fst snd]. repeat split; try discriminate.
    intros [H _]. now destruct (H CountrySales). }
  set (w3 := mkWorld (self w2) (disk w2) (stdout w2 ++ [Top CountrySales k3 v3])).
  destruct (print_top_cases RegionSales w3) as [[E4 ->] | [E4 [k4 [v4 [P4 [G4 ->]]]]]].
  { cbn [fst snd]. repeat split; try discriminate.
    intros [H _]. now destruct (H RegionSales). }
  unfold lift, print. cbn [self disk stdout w1 w2 w3] in *.
  destruct (monthly_avg_sales (monthly_sales (self w))) as [avg|e] eqn:Em; cbn [fst snd].
  - split; [reflexivity|]. split; [reflexivity|]. split.
    + split; [intros _ | reflexivity]. split; [intros []; assumption | now exists avg].
    + intros _. exists k1, v1, k2, v2, k3, v3, k4, v4, avg.
      repeat (split; [assumption|]). split; [reflexivity|].
      split; [now apply monthly_avg_sales_keys|].
      cbn [self disk stdout]. now rewrite <- !app_assoc.
  - split; [reflexivity|]. split; [reflexivity|]. split; [|discriminate].
    split; [discriminate|]. intros [_ [avg H]]. discriminate.
Qed.

(* ------------------------------------------------------------------ *)
(** * A batch that stops half way *)



Lemma print_summary_lines_witness :
  fst (print_summary (snd (process_sales_data (dp := iso_parser)
                             (world_of (scenario 10 5 20 100 50 500)%Z)))) = Ok tt
  /\ exists avg,
       monthly_avg_sales
         (monthly_sales (self (snd (process_sales_data (dp := iso_parser)
                                      (world_of (scenario 10 5 20 100 50 500)%Z)))))
       = Ok avg.
Proof.
  assert (H : fst (print_summary (snd (process_sales_data (dp := iso_parser)
                                         (world_of (scenario 10 5 20 100 50 500)%Z))))
              = Ok tt) by reflexivity.
  split; [exact H|].
  destruct (print_summary_lines Z Q exact_numeric
              (snd (process_sales_data (dp := iso_parser)
                      (world_of (scenario 10 5 20 100 50 500)%Z)))) as [_ [_ [Hiff _]]].
  exact (proj2 (proj1 Hiff H)).
Defined.

(* ------------------------------------------------------------------ *)
(** * The progress reports *)

Section ProgressFacts.
Context {V A : Type} {num : Numeric V A} {dp : DatetimeParser}.

Lemma chunk_rows_length {X : Type} (fuel size : nat) (l : list X) :
  (1 <= size)%nat -> (List.length l <= fuel)%nat ->
  List.length (chunk_rows fuel size l) = Nat.div (List.length l + size - 1) size.
Proof.
  intro Hs. revert l. induction fuel as [|fuel IH]; intros l Hl.
  - destruct l; [|simpl in Hl; lia]. cbn [chunk_rows List.length].
    symmetry. apply Nat.div_small. lia.
  - destruct l as [|x l].
    + cbn [chunk_rows List.length]. symmetry. apply Nat.div_small. lia.
    + cbn [chunk_rows]. set (l0 := x :: l) in *. cbn [List.length].
      rewrite IH by (rewrite length_skipn; subst l0; cbn [List.length] in *; lia).
      rewrite length_skipn.
      assert (Hl0 : (1 <= List.length l0)%nat) by (subst l0; cbn [List.length]; lia).
      replace (List.length l0 + size - 1)%nat with ((List.length l0 - 1) + 1 * size)%nat by lia.
      rewrite Nat.div_add by lia.
      destruct (Nat.le_gt_cases (List.length l0) size) as [Hle | Hgt].
      * replace (List.length l0 - size + size - 1)%nat with (size - 1)%nat by lia.
        rewrite !Nat.div_small by lia. reflexivity.
      * replace (List.length l0 - size + size - 1)%nat with (List.length l0 - 1)%nat by lia.
        lia.
Qed.

Lemma read_csv_length (files : string -> option (DataFrame V)) (path : string) (size : Z)
    (df : DataFrame V) (chunks : list (DataFrame V)) :
  files path = Some df ->
  read_csv files path size = Ok chunks ->
  List.length chunks = batches_of (List.length (rows df)) size.
Proof.
  intros Hf. unfold read_csv, batches_of. rewrite Hf.
  destruct (size <? 1)%Z eqn:E; [discriminate|]. apply Z.ltb_ge in E.
  destruct (rows df) as [|r rs] eqn:Er.
  - intro H. injection H as <-. cbn [List.length].
    rewrite Nat.div_small by lia. reflexivity.
  - remember (r :: rs) as l eqn:El. intro H. injection H as <-.
    rewrite length_map, chunk_rows_length by lia.
    assert (Hl : (1 <= List.length l)%nat) by (subst l; cbn [List.length]; lia).
    replace (List.length l + Z.to_nat size - 1)%nat
      with ((List.length l - 1) + 1 * Z.to_nat size)%nat by lia.
    rewrite Nat.div_add by lia. lia.
Qed.

Lemma batches_of_positive (n : nat) (size : Z) : (1 <= batches_of n size)%nat.
Proof. unfold batches_of. lia. Qed.

(** A batch changes neither the files nor the parameters of the processor,
    however it ends. *)
Lemma process_chunk_static (chunk : DataFrame V) (n : nat) (w : World V A) :
  disk (snd (_process_chunk chunk n w)) = disk w
  /\ file_path (self (snd (_process_chunk chunk n w))) = file_path (self w)
  /\ chunksize (self (snd (_process_chunk chunk n w))) = chunksize (self w)
  /\ sample_fraction (self (snd (_process_chunk chunk n w))) = sample_fraction (self w).
Proof.
  unfold _process_chunk, _update_sales_totals, _print_resource_usage,
    mbind, lift, update_self, print.
  cbv zeta. destruct w as [[] ? ?].
  repeat match goal with
         | |- context [match ?o with Ok _ => _ | Raise _ => _ end] => destruct o; simpl
         end; auto.
Qed.

Lemma scan_static (chunks : list (DataFrame V)) (n : nat) (w : World V A) :
  disk (snd (scan chunks n w)) = disk w
  /\ file_path (self (snd (scan chunks n w))) = file_path (self w)
  /\ chunksize (self (snd (scan chunks n w))) = chunksize (self w)
  /\ sample_fraction (self (snd (scan chunks n w))) = sample_fraction (self w).
Proof.
  revert n w. induction chunks as [|c cs IH]; intros n w; [auto|].
  rewrite scan_cons.
  pose proof (process_chunk_static c (S n) w) as H.
  destruct (_process_chunk c (S n) w) as [[[]|e] w1]; cbn [snd] in *; [|exact H].
  destruct H as [H1 [H2 [H3 H4]]], (IH (S n) w1) as [I1 [I2 [I3 I4]]].
  repeat split; congruence.
Qed.

(** A scan that stops has printed the reports of the batches before the one
    that failed, numbered in order, and nothing else. *)
Lemma scan_raise_stdout (chunks : list (DataFrame V)) (n : nat) (w : World V A) (e : exn) :
  fst (scan chunks n w) = Raise e ->
  exists m, (m < List.length chunks)%nat
            /\ stdout (snd (scan chunks n w))
               = stdout w ++ map ResourceUsage (seq (S n) m).
Proof.
  revert n w. induction chunks as [|c cs IH]; intros n w; [discriminate|].
  rewrite scan_cons. destruct (chunk_groups c) as [g|e'] eqn:E.
  - rewrite (process_chunk_ok _ _ _ _ E). intro H.
    destruct (IH _ _ H) as [m [Hm ->]]. exists (S m). split; [cbn [List.length]; lia|].
    cbn [stdout seq map]. now rewrite <- app_assoc.
  - destruct (process_chunk_raise _ (S n) w _ E) as [H1 [H2 _]].
    destruct (_process_chunk c (S n) w) as [[[]|e''] w1]; cbn [fst snd] in *; [discriminate|].
    intros _. exists 0%nat. split; [cbn [List.length]; lia|].
    cbn [seq map]. now rewrite app_nil_r.
Qed.

End ProgressFacts.

(** X10: what [process_sales_data] prints.  It changes neither the files nor
    the parameters of the processor.  When it returns, the file exists, the
    batch size is at least 1, and it has printed one resource report per
    batch, numbered from 1, then the total time; the number of batches is
    the number of rows over the batch size, rounded up (one for a file
    without rows).  When it raises, it has printed the reports of the
    batches before the failure only, fewer than the batches of the file,
    and no total time. *)
Theorem one_report_per_batch :
  forall (V A : Type) (num : Numeric V A) (dp : DatetimeParser) (w : World V A),
    disk (snd (process_sales_data w)) = disk w
    /\ file_path (self (snd (process_sales_data w))) = file_path (self w)
    /\ chunksize (self (snd (process_sales_data w))) = chunksize (self w)
    /\ sample_fraction (self (snd (process_sales_data w))) = sample_fraction (self w)
    /\ (fst (process_sales_data w) = Ok tt ->
        exists df,
          disk w (file_path (self w)) = Some df
          /\ (1 <= chunksize (self w))%Z
          /\ stdout (snd (process_sales_data w))
             = stdout w
               ++ map ResourceUsage
                    (seq 1 (batches_of (List.length (rows df)) (chunksize (self w))))
               ++ [TotalTime])
    /\ (forall e, fst (process_sales_data w) = Raise e ->
        exists m,
          stdout (snd (process_sales_data w)) = stdout w ++ map ResourceUsage (seq 1 m)
          /\ forall df, disk w (file_path (self w)) = Some df ->
                        (m < batches_of (List.length (rows df)) (chunksize (self w)))%nat).
Proof.
  intros V A num dp w.
  assert (Hstatic : disk (snd (process_sales_data w)) = disk w
                    /\ file_path (self (snd (process_sales_data w))) = file_path (self w)
                    /\ chunksize (self (snd (process_sales_data w))) = chunksize (self w)
                    /\ sample_fraction (self (snd (process_sales_data w)))
                       = sample_fraction (self w)).
  { unfold process_sales_data, mbind, lift, print.
    destruct (read_csv _ _ _) as [chunks|e]; [|auto].
    pose proof (scan_static chunks 0 w) as H.
    destruct (scan chunks 0 w) as [[[]|e] w1]; exact H. }
  destruct Hstatic as [S1 [S2 [S3 S4]]].
  repeat (split; [assumption|]). split.
  - intro H. destruct (process_sales_data w) as [o w'] eqn:E. cbn [fst snd] in *. subst o.
    destruct (process_sales_data_inv _ _ E) as [chunks [gs [Hr [_ ->]]]].
    destruct (read_csv_inv _ _ _ _ Hr) as [df [Hf [Hs _]]].
    exists df. split; [exact Hf|]. split; [exact Hs|].
    cbn [stdout]. now rewrite (read_csv_length _ _ _ _ _ Hf Hr).
  - intros e. unfold process_sales_data, mbind, lift, print.
    destruct (read_csv _ _ _) as [chunks|e'] eqn:Hr.
    + pose proof (scan_raise_stdout chunks 0 w) as Hs.
      destruct (scan chunks 0 w) as [[[]|e''] w1]; cbn [fst snd] in *; [discriminate|].
      intro H. destruct (Hs _ eq_refl) as [m [Hm ->]]. exists m. split; [reflexivity|].
      intros df Hf. now rewrite <- (read_csv_length _ _ _ _ _ Hf Hr).
    + cbn [fst snd]. intros _. exists 0%nat. split; [cbn [seq map]; now rewrite app_nil_r|].
      intros df _. apply batches_of_positive.
Qed.

Lemma one_report_per_batch_witness :
  fst (process_sales_data (dp := iso_parser)
         (mkWorld (__init__ "sales.csv" 2%Z (1 # 10))
            (one_file "sales.csv" (scenario 10 5 20 100 50 500)%Z)
            ([] : list (line Z Q)))) = Ok tt
  /\ batches_of 3 2 = 2%nat
  /\ exists df,
       one_file "sales.csv" (scenario 10 5 20 100 50 500)%Z "sales.csv" = Some df
       /\ (1 <= 2)%Z
       /\ stdout (snd (process_sales_data (dp := iso_parser)
                         (mkWorld (__init__ "sales.csv" 2%Z (1 # 10))
                            (one_file "sales.csv" (scenario 10 5 20 100 50 500)%Z)
                            ([] : list (line Z Q)))))
          = [] ++ map ResourceUsage (seq 1 (batches_of (List.length (rows df)) 2)) ++ [TotalTime].
Proof.
  assert (H : fst (process_sales_data (dp := iso_parser)
                     (mkWorld (__init__ "sales.csv" 2%Z (1 # 10))
                        (one_file "sales.csv" (scenario 10 5 20 100 50 500)%Z)
                        ([] : list (line Z Q)))) = Ok tt) by reflexivity.
  split; [exact H|]. split; [reflexivity|].
  destruct (one_report_per_batch Z Q exact_numeric iso_parser
              (mkWorld (__init__ "sales.csv" 2%Z (1 # 10))
                 (one_file "sales.csv" (scenario 10 5 20 100 50 500)%Z)
                 ([] : list (line Z Q)))) as [_ [_ [_ [_ [Hok _]]]]].
  exact (Hok H).
Defined.

(* ------------------------------------------------------------------ *)
(** * A complete file, from the scan to the summary *)

Section RunFacts.
Context {V A : Type} {num : Numeric V A} {dp : DatetimeParser}.





End RunFacts.



(* ------------------------------------------------------------------ *)
(** * The shape of a normalised column name *)

Section ShapeFacts.
Import PyStr.

Lemma smap_chars (f : ascii -> ascii) (s : string) (c : ascii) :
  In c (list_ascii_of_string (smap f s)) -> exists c0, c = f c0.
Proof.
  induction s as [|a s IH]; cbn [smap list_ascii_of_string]; [intros []|].
  intros [<- | H]; [now exists a | now apply IH].
Qed.

Lemma fold_char_shape (c : ascii) :
  fold_char c <> space /\ lower_char (fold_char c) = fold_char c.
Proof. destruct c as [[] [] [] [] [] [] [] []]; split; solve [discriminate | reflexivity]. Qed.

End ShapeFacts.

(** X12: the shape of a normalised column name, for a name whose code
    points are below U+0100.  Stripping it again changes nothing, and it
    holds neither a space nor a letter that [lower] would change.  (Nothing
    is said of its length: [lower] lengthens some names beyond U+00FF.) *)
Theorem normalized_name_shape :
  forall s : string,
    PyStr.strip (normalize_column s) = normalize_column s
    /\ forall c, In c (list_ascii_of_string (normalize_column s)) ->
                 c <> PyStr.space /\ PyStr.lower_char c = c.
Proof.
  intro s. rewrite NormalizeFacts.normalize_column_smap. split.
  - apply NormalizeFacts.strip_normalized.
  - intros c Hc. apply smap_chars in Hc. destruct Hc as [c0 ->]. apply fold_char_shape.
Qed.

(* ------------------------------------------------------------------ *)
(** * Columns that the aggregation does not read *)

Section OtherColumns.
Context {V A : Type} {num : Numeric V A} {dp : DatetimeParser}.

Lemma index_of_app (name : string) (l l' : list string) :
  (forall c, In c l' -> c <> name) -> index_of name (l ++ l') = index_of name l.
Proof.
  intro H. induction l as [|c l IH]; cbn [app index_of].
  - induction l' as [|c l' IH]; [reflexivity|]. cbn [index_of].
    destruct (String.eqb_spec name c) as [-> | _].
    + exfalso. apply (H c); [now left | reflexivity].
    + rewrite IH; [reflexivity | intros c0 Hc0; apply H; now right].
  - now rewrite IH.
Qed.

Lemma count_label_app (name : string) (l l' : list string) :
  (forall c, In c l' -> c <> name) -> count_label name (l ++ l') = count_label name l.
Proof.
  intro H. unfold count_label. rewrite filter_app, length_app.
  assert (E : filter (String.eqb name) l' = []).
  { induction l' as [|c l' IH]; [reflexivity|]. cbn [filter].
    destruct (String.eqb_spec name c) as [-> | _].
    - exfalso. apply (H c); [now left | reflexivity].
    - apply IH. intros c0 Hc0. apply H. now right. }
  rewrite E. cbn [List.length]. lia.
Qed.

Lemma index_of_lt (name : string) (l : list string) (i : nat) :
  index_of name l = Some i -> (i < List.length l)%nat.
Proof.
  revert i. induction l as [|c l IH]; intro i; cbn [index_of List.length]; [discriminate|].
  destruct (String.eqb name c); [intro H; injection H as <-; lia|].
  destruct (index_of name l) as [j|]; [|discriminate].
  cbn [option_map]. intro H. injection H as <-. specialize (IH j eq_refl). lia.
Qed.

(** A required column is read the same with more columns after the last
    one, when no row is shorter than the header. *)
Lemma getitem_extended (cols extra : list string) (rs : list (list (cell V)))
    (cells : list (cell V) -> list (cell V)) (name : string) :
  In name required_columns ->
  (forall c, In c extra -> ~ In (normalize_column c) required_columns) ->
  (forall r, In r rs -> (List.length cols <= List.length r)%nat) ->
  getitem (mkFrame (map normalize_column (cols ++ extra)) (map (fun r => r ++ cells r) rs)) name
  = getitem (mkFrame (map normalize_column cols) rs) name.
Proof.
  intros Hin Hextra Hlen. unfold getitem. cbn [columns rows].
  assert (Hne : forall c, In c (map normalize_column extra) -> c <> name).
  { intros c Hc ->. apply in_map_iff in Hc. destruct Hc as [c0 [E Hc0]].
    apply (Hextra c0 Hc0). now rewrite E. }
  rewrite map_app, (index_of_app _ _ _ Hne), (count_label_app _ _ _ Hne).
  destruct (index_of name (map normalize_column cols)) as [i|] eqn:Ei; [|reflexivity].
  destruct (count_label name (map normalize_column cols) =? 1)%nat; [|reflexivity].
  f_equal. rewrite map_map. apply map_ext_in. intros r Hr. apply app_nth1.
  apply index_of_lt in Ei. rewrite length_map in Ei. specialize (Hlen r Hr). lia.
Qed.

End OtherColumns.

(** X13: the columns that the aggregation does not name are ignored.  A
    batch with more columns after its last one, none of them normalised to
    one of the eight names, and with any cells in them, is processed as the
    batch without them: same outcome, same dictionaries, same output.  The
    normalised names of the header are distinct (a label carried by several
    columns selects a frame, which is outside the model), and no row is
    shorter than the header. *)
Theorem other_columns_are_ignored :
  forall (V A : Type) (num : Numeric V A) (dp : DatetimeParser) (chunk : DataFrame V)
         (extra : list string) (cells : list (cell V) -> list (cell V)) (n : nat)
         (w : World V A),
    NoDup (map normalize_column (columns chunk ++ extra)) ->
    (forall c, In c extra -> ~ In (normalize_column c) required_columns) ->
    (forall r, In r (rows chunk) -> (List.length (columns chunk) <= List.length r)%nat) ->
    _process_chunk
      (mkFrame (columns chunk ++ extra) (map (fun r => r ++ cells r) (rows chunk))) n w
    = _process_chunk chunk n w.
Proof.
  intros V A num dp chunk extra cells n w _ Hextra Hlen.
  unfold _process_chunk, _update_sales_totals, grouped_totals, to_datetime, monthly_totals,
    set_columns.
  cbv zeta. cbn [columns rows].
  rewrite !(getitem_extended (columns chunk) extra (rows chunk) cells)
    by (assumption || (unfold required_columns; cbn [In]; tauto)).
  reflexivity.
Qed.

Lemma other_columns_are_ignored_witness :
  NoDup (map normalize_column (columns (two_sales 1 100 300)%Z ++ ["Order ID"; "Unit Price"]))
  /\ (forall c, In c ["Order ID"; "Unit Price"] -> ~ In (normalize_column c) required_columns)
  /\ (forall r, In r (rows (two_sales 1 100 300)%Z) ->
                (List.length (columns (two_sales 1 100 300)%Z) <= List.length r)%nat)
  /\ _process_chunk (dp := iso_parser)
       (mkFrame (columns (two_sales 1 100 300)%Z ++ ["Order ID"; "Unit Price"])
          (map (fun r => r ++ [Num 7%Z; NA]) (rows (two_sales 1 100 300)%Z)))
       1 (world_of (two_sales 1 100 300)%Z)
     = _process_chunk (dp := iso_parser) (two_sales 1 100 300)%Z 1
         (world_of (two_sales 1 100 300)%Z).
Proof.
  assert (H0 : NoDup (map normalize_column
                        (columns (two_sales 1 100 300)%Z ++ ["Order ID"; "Unit Price"]))).
  { vm_compute. repeat constructor; cbn [In]; intuition discriminate. }
  assert (H1 : forall c, In c ["Order ID"; "Unit Price"] ->
                 ~ In (normalize_column c) required_columns).
  { intros c [<- | [<- | []]]; vm_compute; intuition discriminate. }
  assert (H2 : forall r, In r (rows (two_sales 1 100 300)%Z) ->
                 (List.length (columns (two_sales 1 100 300)%Z) <= List.length r)%nat).
  { intros r [<- | [<- | []]]; cbn; lia. }
  split; [exact H0|]. split; [exact H1|]. split; [exact H2|].
  exact (other_columns_are_ignored Z Q exact_numeric iso_parser (two_sales 1 100 300)%Z
           ["Order ID"; "Unit Price"] (fun _ => [Num 7%Z; NA]) 1%nat
           (world_of (two_sales 1 100 300)%Z) H0 H1 H2).
Defined.
